(** * process-products.py: the record transformer, its serializers and its script

    A shallow embedding of [src/process-products.py].

    - Python values as they come out of [json.load]: [None], [bool], [int],
      [float], [str], [list] and [dict] (insertion ordered, keys unique).
      A [float] is an IEEE 754 binary64 number, carried as a [spec_float]
      of the Standard Library with precision 53 and maximal exponent 1024.
    - A [str] is a sequence of Unicode code points, a file a sequence of
      bytes; files are read and written through UTF-8 as the script asks.
    - Exceptions are values of [exn]; code that may raise returns a [result].
    - The script's effects (files, standard output, the importable modules,
      the calls that leave the process) are threaded through a [world]. *)

From Stdlib Require Import ZArith NArith Lia List String Ascii Bool.
From Stdlib Require Import DecimalFacts DecimalPos DecimalZ.
From Stdlib Require Import SpecFloat.
From stdpp Require Import base option list gmap strings.
Import ListNotations.

Local Open Scope Z_scope.

(** ** Exceptions and results *)

Inductive exn : Type :=
| FileNotFoundError      (* open(path, 'r') on a missing path *)
| PermissionError        (* a destination that cannot be written *)
| UnicodeDecodeError     (* the bytes of a file are not UTF-8 *)
| UnicodeEncodeError     (* a str holds a surrogate code point *)
| JSONDecodeError        (* the text is not a JSON document *)
| AttributeError         (* [.get] on a value that is not a dict *)
| TypeError              (* [/] on a non-number, iteration over a non-iterable *)
| RangeError             (* what the division and datetime.fromtimestamp
                            raise on an instant out of range or on NaN:
                            OverflowError, ValueError or OSError, by the
                            platform and the magnitude; they are not
                            told apart *)
| ValueError             (* of [int] and [int.__repr__] on more digits
                            than they convert, and of [to_excel] on a
                            frame too large for a sheet *)
| ImportError            (* a module that cannot be imported *)
| CalledProcessError     (* subprocess.check_call: non-zero exit status *)
| BackendError.          (* a cell the spreadsheet engine cannot store *)

Inductive result (A : Type) : Type :=
| Ok (a : A)
| Raise (e : exn).
Arguments Ok {A} a.
Arguments Raise {A} e.

Definition bind {A B} (m : result A) (k : A -> result B) : result B :=
  match m with
  | Ok a => k a
  | Raise e => Raise e
  end.

Declare Scope py_scope.
Delimit Scope py_scope with py.
Notation "'let*' x := m 'in' k" := (bind m (fun x => k))
  (at level 10, x name, m at level 100, k at level 200) : py_scope.
Notation "'let*' ' p := m 'in' k" := (bind m (fun x => let p := x in k))
  (at level 10, p pattern, m at level 100, k at level 200, only parsing)
  : py_scope.
Local Open Scope py_scope.

Definition is_ok {A} (m : result A) : bool :=
  match m with Ok _ => true | Raise _ => false end.

(** ** Python values *)

(** A [str]: its code points, each below 0x110000. *)
Definition pystr := list N.

(** The str written as an ASCII literal in the source. *)
Definition py (s : string) : pystr := map N_of_ascii (list_ascii_of_string s).

Unset Elimination Schemes.
Inductive value : Type :=
| VNone
| VBool (b : bool)
| VInt (z : Z)
| VFloat (f : spec_float)
| VStr (s : pystr)
| VList (l : list value)
| VDict (d : list (pystr * value)).
Set Elimination Schemes.

Fixpoint pystr_eqb (a b : pystr) : bool :=
  match a, b with
  | [], [] => true
  | x :: a', y :: b' => (x =? y)%N && pystr_eqb a' b'
  | _, _ => false
  end.

(** [d[k]] when the key is there. *)
Fixpoint dict_lookup (k : pystr) (d : list (pystr * value)) : option value :=
  match d with
  | [] => None
  | (k', v) :: d' => if pystr_eqb k k' then Some v else dict_lookup k d'
  end.

(** [d[k] = v]: a key already there keeps its place. *)
Fixpoint dict_set (k : pystr) (v : value) (d : list (pystr * value))
  : list (pystr * value) :=
  match d with
  | [] => [(k, v)]
  | (k', v') :: d' =>
      if pystr_eqb k k' then (k', v) :: d' else (k', v') :: dict_set k v d'
  end.

(** [obj.get(key, default)]: only a dict has the method. *)
Definition get (obj : value) (key : pystr) (default : value) : result value :=
  match obj with
  | VDict d => Ok (match dict_lookup key d with
                   | Some v => v
                   | None => default
                   end)
  | _ => Raise AttributeError
  end.

(** Truth value testing, as [if x:] does it. *)
Definition truthy (v : value) : bool :=
  match v with
  | VNone => false
  | VBool b => b
  | VInt z => negb (z =? 0)
  | VFloat f => match f with S754_zero _ => false | _ => true end
  | VStr s => match s with [] => false | _ => true end
  | VList l => match l with [] => false | _ => true end
  | VDict d => match d with [] => false | _ => true end
  end.

(** [for x in v]: the items the loop visits. *)
Definition iterate (v : value) : result (list value) :=
  match v with
  | VList l => Ok l
  | VStr s => Ok (map (fun c => VStr [c]) s)
  | VDict d => Ok (map (fun kv => VStr (fst kv)) d)
  | _ => Raise TypeError
  end.

(** ** Floats

    A Python float is a binary64 number; the operations are those of
    [SpecFloat], which round to nearest, ties to even. *)

Definition prec : Z := 53.
Definition emax : Z := 1024.

(** [float(z)] for an int that a double holds exactly, as the literals
    1000 and 1e6 below. *)
Definition float_of_int (z : Z) : spec_float :=
  binary_normalize prec emax z 0 false.

(** Equality of the representations (NaN is one value here; Python's [==]
    is false on it). *)
Definition float_same (a b : spec_float) : bool :=
  match a, b with
  | S754_zero s, S754_zero s' => Bool.eqb s s'
  | S754_infinity s, S754_infinity s' => Bool.eqb s s'
  | S754_nan, S754_nan => true
  | S754_finite s m e, S754_finite s' m' e' =>
      Bool.eqb s s' && (m =? m')%positive && (e =? e')
  | _, _ => false
  end.

Definition is_nan (f : spec_float) : bool :=
  match f with S754_nan => true | _ => false end.

(** The integer nearest to [num / den] for [0 < den], ties to even. *)
Definition round_half_even (num den : Z) : Z :=
  let q := num / den in
  let r := num mod den in
  if 2 * r <? den then q
  else if den <? 2 * r then q + 1
  else if Z.even q then q else q + 1.

(** The value of a float that is finite, as a fraction. *)
Definition float_fraction (f : spec_float) : Z * Z :=
  match f with
  | S754_finite s m e =>
      let n := if s then Z.neg m else Z.pos m in
      if 0 <=? e then (n * 2 ^ e, 1) else (n, 2 ^ (- e))
  | _ => (0, 1)
  end.

(** The number of decimal digits of a positive int. *)
Definition decimal_length (d : Z) : Z :=
  Z.of_nat (Decimal.nb_digits (Pos.to_uint (Z.to_pos d))).

(** [float(text)] for the decimal [D * 10^E] with [0 <= D], negated when
    [neg]: the double nearest to it, an infinity when it is too large.
    (The two tests on the size spare the powers of ten that are far out of
    the range of a double; the result is the rounded one there too.) *)
Definition strtod (neg : bool) (D E : Z) : spec_float :=
  if D <=? 0 then S754_zero neg
  else
    let nd := decimal_length D in
    if 310 <? E + nd then S754_infinity neg
    else if E + nd <? -330 then S754_zero neg
    else if 0 <=? E then
      binary_normalize prec emax ((if neg then - D else D) * 10 ^ E) 0 false
    else
      SFdiv prec emax (S754_finite neg (Z.to_pos D) 0)
                      (S754_finite false (Z.to_pos (10 ^ (- E))) 0).

(** ** The calendar behind [datetime]

    Days are counted from 1970-01-01 in the proleptic Gregorian calendar. *)

Definition MINYEAR : Z := 1.
Definition MAXYEAR : Z := 9999.

Definition is_leap (y : Z) : bool :=
  ((y mod 4 =? 0) && negb (y mod 100 =? 0)) || (y mod 400 =? 0).

Definition days_in_month (y m : Z) : Z :=
  if m =? 2 then (if is_leap y then 29 else 28)
  else if (m =? 4) || (m =? 6) || (m =? 9) || (m =? 11) then 30
  else 31.

Definition days_before_year (y : Z) : Z :=
  let p := y - 1 in p * 365 + p / 4 - p / 100 + p / 400.

Definition days_before_month (y m : Z) : Z :=
  fold_right Z.add 0
    (map (days_in_month y) (map Z.of_nat (seq 1 (Z.to_nat (m - 1))))).

(** The day number of y-m-d, 0 for 1970-01-01. *)
Definition days_from_civil (y m d : Z) : Z :=
  days_before_year y + days_before_month y m + d - 719163.

(** The date of a day number, as the C library's [localtime] computes it. *)
Definition civil_from_days (z : Z) : Z * Z * Z :=
  let z := z + 719468 in
  let era := z / 146097 in
  let doe := z - era * 146097 in
  let yoe := (doe - doe / 1460 + doe / 36524 - doe / 146096) / 365 in
  let doy := doe - (365 * yoe + yoe / 4 - yoe / 100) in
  let mp := (5 * doy + 2) / 153 in
  let d := doy - (153 * mp + 2) / 5 + 1 in
  let m := if mp <? 10 then mp + 3 else mp - 9 in
  let y := yoe + era * 400 + (if m <=? 2 then 1 else 0) in
  (y, m, d).

Record tm : Type := mk_tm {
  tm_year : Z; tm_mon : Z; tm_mday : Z;
  tm_hour : Z; tm_min : Z; tm_sec : Z
}.

(** Broken-down time of [secs] seconds counted from 1970-01-01 00:00:00. *)
Definition broken_down (secs : Z) : tm :=
  let '(y, m, d) := civil_from_days (secs / 86400) in
  let r := secs mod 86400 in
  mk_tm y m d (r / 3600) (r mod 3600 / 60) (r mod 60).

(** [time.localtime(t)]: the zone is the environment's, given by the offset
    [tz t] (seconds east of UTC) in force at the instant [t]. *)
Definition localtime (tz : Z -> Z) (t : Z) : tm := broken_down (t + tz t).

Definition year_in_range (t : tm) : bool :=
  (MINYEAR <=? tm_year t) && (tm_year t <=? MAXYEAR).

Definition max_fold_seconds : Z := 86400.

(** The quotient [timestamp_ms / 1000].  The quotient of an int is the
    double nearest to it; for every int whose instant a datetime can hold
    that double is exact far beyond the microsecond, so the int itself is
    kept.  The quotient of a float is the rounded one. *)
Inductive quotient : Type :=
| Exact (ms : Z)
| Double (q : spec_float).

(** The second a double falls in, as [datetime.fromtimestamp] finds it:
    the part below the second is rounded to microseconds, ties to even,
    and carried into the second when it reaches a million or is negative.
    NaN and the infinities raise. *)
Definition double_to_seconds (d : spec_float) : result Z :=
  match d with
  | S754_nan => Raise RangeError
  | S754_infinity _ => Raise RangeError
  | S754_zero _ => Ok 0
  | S754_finite s m e =>
      let n := if s then Z.neg m else Z.pos m in
      if 0 <=? e then Ok (n * 2 ^ e)
      else
        let den := 2 ^ (- e) in
        let intpart := Z.quot n den in
        let floatpart := binary_normalize prec emax (Z.rem n den) e false in
        let scaled := SFmul prec emax floatpart (float_of_int 1000000) in
        let '(sn, sd) := float_fraction scaled in
        let us := round_half_even sn sd in
        if 1000000 <=? us then Ok (intpart + 1)
        else if us <? 0 then Ok (intpart - 1)
        else Ok intpart
  end.

Definition timestamp_second (q : quotient) : result Z :=
  match q with
  | Exact ms => Ok (ms / 1000)
  | Double d => double_to_seconds d
  end.

(** [datetime.fromtimestamp(q)], as CPython 3.6 and later compute it on a
    POSIX system.  The instant and the two instants CPython probes for a
    repeated hour (one day earlier, and the zone transition found there)
    must fall in the years 1 to 9999; otherwise, or when the number is too
    large for the C library, an exception is raised. *)
Definition fromtimestamp (tz : Z -> Z) (q : quotient) : result tm :=
  let* t := timestamp_second q in
  let now := localtime tz t in
  let probe := localtime tz (t - max_fold_seconds) in
  let transition := tz t - tz (t - max_fold_seconds) in
  if year_in_range now && year_in_range probe
     && ((0 <=? transition) || year_in_range (localtime tz (t + transition)))
  then Ok now
  else Raise RangeError.

Definition digit (d : Z) : N := Z.to_N (48 + d).

Definition zfill2 (n : Z) : pystr := [digit (n / 10 mod 10); digit (n mod 10)].

Definition zfill4 (n : Z) : pystr :=
  [digit (n / 1000 mod 10); digit (n / 100 mod 10);
   digit (n / 10 mod 10); digit (n mod 10)].

(** The year as the C library writes it for [%Y]: on four digits where it
    pads (macOS, Windows), without leading zeros where it does not
    (glibc). *)
Definition year_text (pad : bool) (y : Z) : pystr :=
  if pad then zfill4 y
  else if y <? 10 then [digit (y mod 10)]
  else if y <? 100 then zfill2 y
  else if y <? 1000 then digit (y / 100 mod 10) :: zfill2 y
  else zfill4 y.

(** [.strftime('%Y-%m-%d %H:%M:%S')] of a datetime, whose year is between
    1 and 9999. *)
Definition strftime (pad : bool) (t : tm) : pystr :=
  year_text pad (tm_year t) ++ py "-" ++ zfill2 (tm_mon t) ++ py "-"
  ++ zfill2 (tm_mday t) ++ py " " ++ zfill2 (tm_hour t) ++ py ":"
  ++ zfill2 (tm_min t) ++ py ":" ++ zfill2 (tm_sec t).

(** ** The record transformer (lines 6 to 36) *)

(** [timestamp_ms / 1000]: the operand must be a number ([bool] is an
    [int]). *)
Definition truediv_1000 (timestamp_ms : value) : result quotient :=
  match timestamp_ms with
  | VInt z => Ok (Exact z)
  | VBool b => Ok (Exact (if b then 1 else 0))
  | VFloat f => Ok (Double (SFdiv prec emax f (float_of_int 1000)))
  | _ => Raise TypeError
  end.

(** Lines 6 to 10; [pad] tells how the C library writes the year, [tz] is
    the zone of the machine. *)
Definition format_timestamp (pad : bool) (tz : Z -> Z) (timestamp_ms : value)
  : result pystr :=
  if truthy timestamp_ms then
    let* q := truediv_1000 timestamp_ms in
    let* t := fromtimestamp tz q in
    Ok (strftime pad t)
  else Ok (py "").

(** The dict built for one product, lines 25 to 33; the entries are
    evaluated in the order they are written. *)
Definition process_product (pad : bool) (tz : Z -> Z) (product : value)
  : result (list (pystr * value)) :=
  let* productName := get product (py "productName") (VStr (py "")) in
  let* productKey := get product (py "productKey") (VStr (py "")) in
  let* productId := get product (py "id") (VStr (py "")) in
  let* productVendorId := get product (py "vendorId") (VStr (py "")) in
  let* categoryName := get product (py "categoryName") (VStr (py "")) in
  let* categoryValue := get product (py "itemValue") (VStr (py "")) in
  let* ts := get product (py "tsCreateTime") VNone in
  let* createdTime := format_timestamp pad tz ts in
  Ok [ (py "productName", productName);
       (py "productKey", productKey);
       (py "productId", productId);
       (py "productVendorId", productVendorId);
       (py "categoryName", categoryName);
       (py "categoryValue", categoryValue);
       (py "createdTime", VStr createdTime) ].

(** The loop of lines 23 to 34: [processed_products] grows by one dict per
    product; an exception leaves the loop and the function. *)
Fixpoint process_loop (pad : bool) (tz : Z -> Z) (products : list value)
  (processed_products : list (list (pystr * value)))
  : result (list (list (pystr * value))) :=
  match products with
  | [] => Ok processed_products
  | product :: rest =>
      let* processed_product := process_product pad tz product in
      process_loop pad tz rest (processed_products ++ [processed_product])
  end.

(** Lines 20 to 36, from the decoded document on. *)
Definition process_data (pad : bool) (tz : Z -> Z) (data : value)
  : result (list (list (pystr * value))) :=
  let* products := get data (py "rows") (VList []) in
  let* items := iterate products in
  process_loop pad tz items [].

(** ** [json.dump(obj, fp, indent=2, ensure_ascii=False)] *)

Local Open Scope N_scope.

Definition hex_digit (d : N) : N := if d <? 10 then 48 + d else 87 + d.

(** One character of a str between its quotes: the quote, the backslash
    and the control characters are escaped, everything else is kept. *)
Definition escape_char (c : N) : pystr :=
  if c =? 34 then [92; 34]
  else if c =? 92 then [92; 92]
  else if c =? 10 then [92; 110]
  else if c =? 13 then [92; 114]
  else if c =? 9 then [92; 116]
  else if c =? 8 then [92; 98]
  else if c =? 12 then [92; 102]
  else if c <? 32 then [92; 117; 48; 48; hex_digit (c / 16); hex_digit (c mod 16)]
  else [c].

Definition encode_basestring (s : pystr) : pystr :=
  34 :: flat_map escape_char s ++ [34].

Fixpoint uint_chars (u : Decimal.uint) : pystr :=
  match u with
  | Decimal.Nil => []
  | Decimal.D0 u => 48 :: uint_chars u
  | Decimal.D1 u => 49 :: uint_chars u
  | Decimal.D2 u => 50 :: uint_chars u
  | Decimal.D3 u => 51 :: uint_chars u
  | Decimal.D4 u => 52 :: uint_chars u
  | Decimal.D5 u => 53 :: uint_chars u
  | Decimal.D6 u => 54 :: uint_chars u
  | Decimal.D7 u => 55 :: uint_chars u
  | Decimal.D8 u => 56 :: uint_chars u
  | Decimal.D9 u => 57 :: uint_chars u
  end.

(** [int.__repr__]: the decimal digits, a minus sign before a negative. *)
Definition int_repr (z : Z) : pystr :=
  match Z.to_int z with
  | Decimal.Pos u => uint_chars u
  | Decimal.Neg u => 45 :: uint_chars u
  end.

(** The digits [int.__repr__] and [int] convert at most: the default of
    [sys.set_int_max_str_digits] in CPython 3.11 and later. *)
Definition int_max_str_digits : nat := 4300.

Definition int_fits (z : Z) : bool :=
  (Decimal.nb_digits (N.to_uint (Z.abs_N z)) <=? int_max_str_digits)%nat.

Local Open Scope Z_scope.

(** [float.__repr__]: the shortest decimal that [float] reads back as the
    same double and, of the decimals of that length, the nearest (the one
    with an even last digit when two are as near), after David Gay's
    algorithm; seventeen digits always do.

    Whether [10^k <= num / den], and the [k] with
    [10^k <= num / den < 10^(k + 1)]. *)
Definition ge_pow10 (num den k : Z) : bool :=
  if 0 <=? k then den * 10 ^ k <=? num else den <=? num * 10 ^ (- k).

Fixpoint adjust_up (fuel : nat) (num den k : Z) : Z :=
  match fuel with
  | O => k
  | S f => if ge_pow10 num den (k + 1) then adjust_up f num den (k + 1) else k
  end.

Definition decimal_exponent (num den : Z) : Z :=
  adjust_up 6 num den ((Z.log2 num - Z.log2 den) * 30103 / 100000 - 1).

(** The decimal [d * 10^s] of [n] digits to write for [|x| = num / den]:
    one of the two next to it that is read back as [x], the nearest when
    both are or when [force] is set. *)
Definition candidate (x : spec_float) (neg : bool) (num den k n : Z)
  (force : bool) : option (Z * Z) :=
  let s := k - n + 1 in
  let dd := if 0 <=? s then den * 10 ^ s else den in
  let nn := if 0 <=? s then num else num * 10 ^ (- s) in
  let q := nn / dd in
  let r := nn mod dd in
  let lo := (0 <? q) && float_same (strtod neg q s) x in
  let hi := negb (r =? 0) && float_same (strtod neg (q + 1) s) x in
  let nearest :=
    if 2 * r <? dd then q
    else if dd <? 2 * r then q + 1
    else if Z.even q then q else q + 1 in
  if force || (lo && hi) then Some (nearest, s)
  else if lo then Some (q, s)
  else if hi then Some (q + 1, s)
  else None.

Fixpoint shortest (fuel : nat) (x : spec_float) (neg : bool)
  (num den k n : Z) : Z * Z :=
  match fuel with
  | O => default (0, 0) (candidate x neg num den k n true)
  | S f =>
      match candidate x neg num den k n false with
      | Some c => c
      | None => shortest f x neg num den k (n + 1)
      end
  end.

Fixpoint strip_zeros (fuel : nat) (d s : Z) : Z * Z :=
  match fuel with
  | O => (d, s)
  | S f => if d mod 10 =? 0 then strip_zeros f (d / 10) (s + 1) else (d, s)
  end.

(** The digits of a double that is finite and not zero, and the place of
    the decimal point: the value is [0.digits * 10^decpt]. *)
Definition float_digits (x : spec_float) : pystr * Z :=
  match x with
  | S754_finite neg m e =>
      let num := if 0 <=? e then Z.pos m * 2 ^ e else Z.pos m in
      let den := if 0 <=? e then 1 else 2 ^ (- e) in
      let k := decimal_exponent num den in
      let '(dg, sg) := shortest 16 x neg num den k 1 in
      let '(d, s) := strip_zeros 17 dg sg in
      let ds := uint_chars (Pos.to_uint (Z.to_pos d)) in
      (ds, Z.of_nat (length ds) + s)
  | _ => ([48%N], 1)
  end.

Definition sign_text (neg : bool) : pystr := if neg then [45%N] else [].

(** The exponent, on two digits at least. *)
Definition exponent_text (ex : Z) : pystr :=
  (if ex <? 0 then 45%N else 43%N)
  :: (if Z.abs ex <? 10 then [48%N] else [])
  ++ uint_chars (N.to_uint (Z.abs_N ex)).

Definition float_repr (x : spec_float) : pystr :=
  match x with
  | S754_nan => py "nan"
  | S754_infinity s => sign_text s ++ py "inf"
  | S754_zero s => sign_text s ++ py "0.0"
  | S754_finite neg _ _ =>
      let '(ds, decpt) := float_digits x in
      let nd := Z.of_nat (length ds) in
      sign_text neg
      ++ (if (decpt <=? -4) || (16 <? decpt) then
            take 1 ds
            ++ (if 1 <? nd then 46%N :: drop 1 ds else [])
            ++ 101%N :: exponent_text (decpt - 1)
          else if decpt <=? 0 then
            [48%N; 46%N] ++ repeat 48%N (Z.to_nat (- decpt)) ++ ds
          else if nd <=? decpt then
            ds ++ repeat 48%N (Z.to_nat (decpt - nd)) ++ [46%N; 48%N]
          else
            take (Z.to_nat decpt) ds ++ 46%N :: drop (Z.to_nat decpt) ds)
  end.

(** [floatstr] of the encoder, [allow_nan] being on. *)
Definition float_text (f : spec_float) : pystr :=
  match f with
  | S754_nan => py "NaN"
  | S754_infinity false => py "Infinity"
  | S754_infinity true => py "-Infinity"
  | _ => float_repr f
  end.

Local Open Scope N_scope.

Definition newline_indent (level : nat) : pystr :=
  10 :: repeat 32 (2 * level)%nat.

(** The text of a value at a nesting level, when no int is beyond the
    digit limit: an empty container on one line, otherwise one item per
    line, two spaces deeper, separated by a comma; a key and its value are
    separated by a colon and a space. *)
Fixpoint encode (level : nat) (o : value) : pystr :=
  match o with
  | VNone => py "null"
  | VBool true => py "true"
  | VBool false => py "false"
  | VInt z => int_repr z
  | VFloat f => float_text f
  | VStr s => encode_basestring s
  | VList [] => py "[]"
  | VList (x :: xs) =>
      py "[" ++ newline_indent (S level) ++ encode (S level) x
      ++ flat_map (fun y => py "," ++ newline_indent (S level)
                              ++ encode (S level) y) xs
      ++ newline_indent level ++ py "]"
  | VDict [] => py "{}"
  | VDict ((k, v) :: kvs) =>
      py "{" ++ newline_indent (S level)
      ++ encode_basestring k ++ py ": " ++ encode (S level) v
      ++ flat_map (fun kv => py "," ++ newline_indent (S level)
                               ++ encode_basestring (fst kv) ++ py ": "
                               ++ encode (S level) (snd kv)) kvs
      ++ newline_indent level ++ py "}"
  end.

Definition dumps (o : value) : pystr := encode 0 o.

(** The chunks the encoder yields, in their order ([_make_iterencode]);
    the chunk of an int beyond the digit limit is the exception of
    [int.__repr__].  An item of a list comes in one chunk with the
    separator before it, unless it is a list or a dict. *)
Definition atom_text (o : value) : option (result pystr) :=
  match o with
  | VNone => Some (Ok (py "null"))
  | VBool true => Some (Ok (py "true"))
  | VBool false => Some (Ok (py "false"))
  | VInt z => Some (if int_fits z then Ok (int_repr z) else Raise ValueError)
  | VFloat f => Some (Ok (float_text f))
  | VStr s => Some (Ok (encode_basestring s))
  | VList _ => None
  | VDict _ => None
  end.

Fixpoint iterencode (level : nat) (o : value) : list (result pystr) :=
  match o with
  | VList [] => [Ok (py "[]")]
  | VList (x :: xs) =>
      let item := fun (buf : pystr) (v : value) =>
        match atom_text v with
        | Some c => [let* t := c in Ok (buf ++ t)]
        | None => Ok buf :: iterencode (S level) v
        end in
      item (py "[" ++ newline_indent (S level)) x
      ++ flat_map (item (py "," ++ newline_indent (S level))) xs
      ++ [Ok (newline_indent level); Ok (py "]")]
  | VDict [] => [Ok (py "{}")]
  | VDict ((k, v) :: kvs) =>
      let val := fun (v : value) =>
        match atom_text v with
        | Some c => [c]
        | None => iterencode (S level) v
        end in
      [Ok (py "{"); Ok (newline_indent (S level));
       Ok (encode_basestring k); Ok (py ": ")]
      ++ val v
      ++ flat_map (fun kv => [Ok (py "," ++ newline_indent (S level));
                              Ok (encode_basestring (fst kv)); Ok (py ": ")]
                             ++ val (snd kv)) kvs
      ++ [Ok (newline_indent level); Ok (py "}")]
  | _ => match atom_text o with Some c => [c] | None => [] end
  end.

(** [json.dumps(o, indent=2, ensure_ascii=False)]: the chunks joined. *)
Fixpoint join_chunks (cs : list (result pystr)) : result pystr :=
  match cs with
  | [] => Ok []
  | c :: cs' => let* t := c in let* r := join_chunks cs' in Ok (t ++ r)
  end.

Definition json_dumps (o : value) : result pystr :=
  join_chunks (iterencode 0 o).

(** ** UTF-8, the encoding both [open] calls ask for *)

Definition is_surrogate (c : N) : bool := (0xD800 <=? c) && (c <=? 0xDFFF).

Definition utf8_encode_char (c : N) : option (list N) :=
  if c <? 0x80 then Some [c]
  else if c <? 0x800 then Some [0xC0 + c / 64; 0x80 + c mod 64]
  else if c <? 0x10000 then
    if is_surrogate c then None
    else Some [0xE0 + c / 4096; 0x80 + c / 64 mod 64; 0x80 + c mod 64]
  else if c <? 0x110000 then
    Some [0xF0 + c / 262144; 0x80 + c / 4096 mod 64;
          0x80 + c / 64 mod 64; 0x80 + c mod 64]
  else None.

Fixpoint utf8_encode (s : pystr) : result (list N) :=
  match s with
  | [] => Ok []
  | c :: s' =>
      match utf8_encode_char c with
      | None => Raise UnicodeEncodeError
      | Some b => let* bs := utf8_encode s' in Ok (b ++ bs)
      end
  end.

Definition is_cont (b : N) : bool := (0x80 <=? b) && (b <? 0xC0).

(** Strict decoding: no stray or missing continuation byte, no overlong
    form, no surrogate, nothing above U+10FFFF. *)
Fixpoint utf8_decode (b : list N) : result pystr :=
  match b with
  | [] => Ok []
  | b0 :: r0 =>
      if b0 <? 0x80 then let* s := utf8_decode r0 in Ok (b0 :: s)
      else if b0 <? 0xC2 then Raise UnicodeDecodeError
      else if b0 <? 0xE0 then
        match r0 with
        | b1 :: r1 =>
            if is_cont b1 then
              let* s := utf8_decode r1 in
              Ok ((b0 - 0xC0) * 64 + (b1 - 0x80) :: s)
            else Raise UnicodeDecodeError
        | _ => Raise UnicodeDecodeError
        end
      else if b0 <? 0xF0 then
        match r0 with
        | b1 :: b2 :: r2 =>
            let c := (b0 - 0xE0) * 4096 + (b1 - 0x80) * 64 + (b2 - 0x80) in
            if is_cont b1 && is_cont b2 && (0x800 <=? c)
               && negb (is_surrogate c) then
              let* s := utf8_decode r2 in Ok (c :: s)
            else Raise UnicodeDecodeError
        | _ => Raise UnicodeDecodeError
        end
      else if b0 <? 0xF5 then
        match r0 with
        | b1 :: b2 :: b3 :: r3 =>
            let c := (b0 - 0xF0) * 262144 + (b1 - 0x80) * 4096
                     + (b2 - 0x80) * 64 + (b3 - 0x80) in
            if is_cont b1 && is_cont b2 && is_cont b3
               && (0x10000 <=? c) && (c <? 0x110000) then
              let* s := utf8_decode r3 in Ok (c :: s)
            else Raise UnicodeDecodeError
        | _ => Raise UnicodeDecodeError
        end
      else Raise UnicodeDecodeError
  end.

(** Reading in text mode turns every line ending into a line feed. *)
Fixpoint universal_newlines (s : pystr) : pystr :=
  match s with
  | [] => []
  | c :: r =>
      if c =? 13 then
        10 :: match r with
              | c' :: r' =>
                  if c' =? 10 then universal_newlines r'
                  else universal_newlines r
              | [] => []
              end
      else c :: universal_newlines r
  end.


(** ** [json.load], after the C scanner of CPython's json module *)

Definition is_ws (c : N) : bool :=
  (c =? 32) || (c =? 9) || (c =? 10) || (c =? 13).

Fixpoint skip_ws (s : pystr) : pystr :=
  match s with
  | c :: r => if is_ws c then skip_ws r else s
  | [] => []
  end.

Definition is_digit (c : N) : bool := (48 <=? c) && (c <=? 57).

Definition hex_value (c : N) : option N :=
  if is_digit c then Some (c - 48)
  else if (97 <=? c) && (c <=? 102) then Some (c - 87)
  else if (65 <=? c) && (c <=? 70) then Some (c - 55)
  else None.

Definition hex4 (a b c d : N) : option N :=
  match hex_value a, hex_value b, hex_value c, hex_value d with
  | Some a, Some b, Some c, Some d => Some (((a * 16 + b) * 16 + c) * 16 + d)
  | _, _, _, _ => None
  end.

Definition is_high_surrogate (c : N) : bool := (0xD800 <=? c) && (c <=? 0xDBFF).
Definition is_low_surrogate (c : N) : bool := (0xDC00 <=? c) && (c <=? 0xDFFF).
Definition join_surrogates (hi lo : N) : N :=
  0x10000 + (hi - 0xD800) * 1024 + (lo - 0xDC00).

(** The character a backslash and one letter stand for. *)
Definition simple_escape (e : N) : option N :=
  if (e =? 34) || (e =? 92) || (e =? 47) then Some e
  else if e =? 98 then Some 8
  else if e =? 102 then Some 12
  else if e =? 110 then Some 10
  else if e =? 114 then Some 13
  else if e =? 116 then Some 9
  else None.

(** [scanstring], strict: the text after an opening quote, up to the
    closing one.  A high surrogate escape directly followed by a low
    surrogate escape is one character. *)
Fixpoint scanstring (s : pystr) : result (pystr * pystr) :=
  match s with
  | [] => Raise JSONDecodeError
  | c :: r =>
    if c =? 34 then Ok ([], r)
    else if c =? 92 then
      match r with
      | [] => Raise JSONDecodeError
      | e :: r0 =>
        if e =? 117 then
          match r0 with
          | h1 :: h2 :: h3 :: h4 :: r1 =>
            match hex4 h1 h2 h3 h4 with
            | None => Raise JSONDecodeError
            | Some u =>
              let lone :=
                let* '(str, rest) := scanstring r1 in Ok (u :: str, rest) in
              if is_high_surrogate u then
                match r1 with
                | b :: u' :: g1 :: g2 :: g3 :: g4 :: r2 =>
                  if (b =? 92) && (u' =? 117) then
                    match hex4 g1 g2 g3 g4 with
                    | None => Raise JSONDecodeError
                    | Some u2 =>
                      if is_low_surrogate u2 then
                        let* '(str, rest) := scanstring r2 in
                        Ok (join_surrogates u u2 :: str, rest)
                      else lone
                    end
                  else lone
                | _ => lone
                end
              else lone
            end
          | _ => Raise JSONDecodeError
          end
        else
          match simple_escape e with
          | Some c' =>
              let* '(str, rest) := scanstring r0 in Ok (c' :: str, rest)
          | None => Raise JSONDecodeError
          end
      end
    else if c <? 32 then Raise JSONDecodeError
    else let* '(str, rest) := scanstring r in Ok (c :: str, rest)
  end.

(** The longest run of decimal digits at the head of a text. *)
Fixpoint span_digits (s : pystr) : pystr * pystr :=
  match s with
  | c :: r =>
      if is_digit c then let '(ds, rest) := span_digits r in (c :: ds, rest)
      else ([], s)
  | [] => ([], [])
  end.

Fixpoint uint_of_chars (ds : pystr) : Decimal.uint :=
  match ds with
  | [] => Decimal.Nil
  | c :: ds' =>
      let u := uint_of_chars ds' in
      if c =? 48 then Decimal.D0 u else if c =? 49 then Decimal.D1 u
      else if c =? 50 then Decimal.D2 u else if c =? 51 then Decimal.D3 u
      else if c =? 52 then Decimal.D4 u else if c =? 53 then Decimal.D5 u
      else if c =? 54 then Decimal.D6 u else if c =? 55 then Decimal.D7 u
      else if c =? 56 then Decimal.D8 u else Decimal.D9 u
  end.

Definition starts_with (p s : pystr) : bool :=
  pystr_eqb (take (length p) s) p.

(** The fraction after the integer part: a point and the digits after
    it, one at least. *)
Definition match_frac (s : pystr) : option (pystr * pystr) :=
  match s with
  | c :: d :: r =>
      if (c =? 46) && is_digit d then Some (span_digits (d :: r)) else None
  | _ => None
  end.

(** The exponent after that: the letter e, a sign when something follows
    it, and digits, one at least. *)
Definition match_exp (s : pystr) : option (bool * pystr * pystr) :=
  match s with
  | c :: c1 :: r =>
      if (c =? 101) || (c =? 69) then
        let '(neg, s') :=
          if ((c1 =? 45) || (c1 =? 43))
             && match r with [] => false | _ => true end
          then (c1 =? 45, r) else (false, c1 :: r) in
        match span_digits s' with
        | ([], _) => None
        | (es, rest) => Some (neg, es, rest)
        end
      else None
  | _ => None
  end.

Definition digits_value_of (ds : pystr) : Z := Z.of_uint (uint_of_chars ds).

(** The integer part of a number: a single zero, or a digit from 1 to 9
    and the digits after it. *)
Definition match_int (s : pystr) : pystr * pystr :=
  match s with
  | c :: r =>
      if c =? 48 then ([c], r)
      else if is_digit c then span_digits s
      else ([], s)
  | [] => ([], [])
  end.

(** What follows the integer part [ds]: a fraction and an exponent when
    they are there.  With one of them the number is read by [float];
    without, by [int], which refuses more digits than the limit. *)
Definition number_tail (neg : bool) (ds rest : pystr)
  : result (value * pystr) :=
  match match_frac rest, match_exp rest with
  | None, None =>
      if (int_max_str_digits <? length ds)%nat then Raise ValueError
      else
        let n := digits_value_of ds in
        Ok (VInt (if neg then Z.opp n else n), rest)
  | None, Some (eneg, es, rest') =>
      let ex := digits_value_of es in
      Ok (VFloat (strtod neg (digits_value_of ds)
                    (if eneg then Z.opp ex else ex)), rest')
  | Some (fs, rest1), _ =>
      let '(ex, rest') :=
        match match_exp rest1 with
        | Some (eneg, es, rest2) =>
            (let ex := digits_value_of es in
             if eneg then Z.opp ex else ex, rest2)
        | None => (0%Z, rest1)
        end in
      Ok (VFloat (strtod neg (digits_value_of (ds ++ fs))
                    (ex - Z.of_nat (length fs))%Z), rest')
  end.

(** [_match_number]: an optional minus sign, the integer part, and what
    follows it. *)
Definition match_number (s : pystr) : result (value * pystr) :=
  let '(neg, s1) :=
    match s with
    | c :: r => if c =? 45 then (true, r) else (false, s)
    | [] => (false, s)
    end in
  let '(ds, rest) := match_int s1 in
  match ds with
  | [] => Raise JSONDecodeError
  | _ => number_tail neg ds rest
  end.

(** [scan_once] and the loops of [_parse_array] and [_parse_object].  The
    fuel bounds the number of calls; [loads] gives more than a text can
    use.  The recursion limit of the interpreter is not modelled. *)
Fixpoint scan_once (fuel : nat) (s : pystr) {struct fuel}
  : result (value * pystr) :=
  match fuel with
  | O => Raise JSONDecodeError
  | S n =>
    match s with
    | [] => Raise JSONDecodeError
    | c :: r =>
      if c =? 34 then
        let* '(str, rest) := scanstring r in Ok (VStr str, rest)
      else if c =? 123 then
        match skip_ws r with
        | c' :: r' =>
            if c' =? 125 then Ok (VDict [], r')
            else parse_object n (c' :: r') []
        | [] => Raise JSONDecodeError
        end
      else if c =? 91 then
        match skip_ws r with
        | c' :: r' =>
            if c' =? 93 then Ok (VList [], r')
            else parse_array n (c' :: r') []
        | [] => Raise JSONDecodeError
        end
      else if starts_with (py "null") s then Ok (VNone, drop 4 s)
      else if starts_with (py "true") s then Ok (VBool true, drop 4 s)
      else if starts_with (py "false") s then Ok (VBool false, drop 5 s)
      else if starts_with (py "NaN") s then Ok (VFloat S754_nan, drop 3 s)
      else if starts_with (py "Infinity") s then
        Ok (VFloat (S754_infinity false), drop 8 s)
      else if starts_with (py "-Infinity") s then
        Ok (VFloat (S754_infinity true), drop 9 s)
      else match_number s
    end
  end

with parse_array (fuel : nat) (s : pystr) (acc : list value) {struct fuel}
  : result (value * pystr) :=
  match fuel with
  | O => Raise JSONDecodeError
  | S n =>
    let* '(val, rest) := scan_once n s in
    match skip_ws rest with
    | c :: r =>
        if c =? 93 then Ok (VList (acc ++ [val]), r)
        else if c =? 44 then parse_array n (skip_ws r) (acc ++ [val])
        else Raise JSONDecodeError
    | [] => Raise JSONDecodeError
    end
  end

with parse_object (fuel : nat) (s : pystr) (acc : list (pystr * value))
  {struct fuel} : result (value * pystr) :=
  match fuel with
  | O => Raise JSONDecodeError
  | S n =>
    match s with
    | c :: r =>
      if c =? 34 then
        let* '(key, rest) := scanstring r in
        match skip_ws rest with
        | c1 :: r1 =>
          if c1 =? 58 then
            let* '(val, rest') := scan_once n (skip_ws r1) in
            match skip_ws rest' with
            | c2 :: r2 =>
                if c2 =? 125 then Ok (VDict (dict_set key val acc), r2)
                else if c2 =? 44 then
                  parse_object n (skip_ws r2) (dict_set key val acc)
                else Raise JSONDecodeError
            | [] => Raise JSONDecodeError
            end
          else Raise JSONDecodeError
        | [] => Raise JSONDecodeError
        end
      else Raise JSONDecodeError
    | [] => Raise JSONDecodeError
    end
  end.

(** [json.loads]: one value, white space around it, nothing else; a text
    that starts with a byte order mark is refused. *)
Definition loads (s : pystr) : result value :=
  if starts_with [0xFEFF] s then Raise JSONDecodeError
  else
    let s1 := skip_ws s in
    let* '(obj, rest) := scan_once (2 * S (length s1)) s1 in
    match skip_ws rest with
    | [] => Ok obj
    | _ => Raise JSONDecodeError
    end.


(** ** The environment of the script *)

(** [pd.DataFrame(records)] for a list of dicts: the columns are the keys
    in the order they are first met, there is a row per record, and a cell
    is empty where the record has no such key or has a missing value
    under it ([None], NaN). *)
Record DataFrame : Type := mk_frame {
  columns : list pystr;
  cells : list (list (option value))
}.

Definition is_na (v : value) : bool :=
  match v with
  | VNone => true
  | VFloat S754_nan => true
  | _ => false
  end.

Definition cell (r : list (pystr * value)) (c : pystr) : option value :=
  match dict_lookup c r with
  | Some v => if is_na v then None else Some v
  | None => None
  end.

Definition add_column (cols : list pystr) (k : pystr) : list pystr :=
  if existsb (pystr_eqb k) cols then cols else cols ++ [k].

Definition frame_columns (records : list (list (pystr * value)))
  : list pystr :=
  fold_left (fun cols r => fold_left add_column (map fst r) cols) records [].

(** The rows and the columns a sheet has room for. *)
Definition fits_sheet (df : DataFrame) : bool :=
  (N.of_nat (length (cells df)) <=? 1048576)
  && (N.of_nat (length (columns df)) <=? 16384).

(** What a path holds: the bytes of a text file, or a workbook whose one
    sheet has a header row (the column names, nothing when there is no
    column) and a row per record of the frame, without an index column. *)
Inductive file : Type :=
| Text (bytes : list N)
| Workbook (sheet : DataFrame).

(** The calls that reach outside the interpreter, in the order made. *)
Inductive call : Type :=
| ToExcel (path : string)
| PipInstall
| JsonDump (path : string).

Record world : Type := mk_world {
  files : gmap string file;
  modules : gset string;          (* what [import] can find *)
  stdout : list pystr;            (* one entry per [print] *)
  calls : list call
}.

(** What the script cannot decide: the local time zone, which paths can be
    opened for writing, which frames the spreadsheet engine can store,
    what [pip install] leaves importable ([None]: non-zero exit status),
    which texts the encoding of standard output can carry, whether the C
    library pads the year of [%Y] to four digits, the sheet the engine
    has stored when it gives up on a frame, and the value pandas gives a
    cell once it has inferred the type of its column from the cells of
    the column (the ints of a column with a float or an empty cell become
    floats, say). *)
Record env : Type := mk_env {
  tz : Z -> Z;
  writable : string -> bool;
  engine_accepts : DataFrame -> bool;
  pip_install : gset string -> option (gset string);
  stdout_encodes : pystr -> bool;
  pads_year : bool;
  engine_stored : DataFrame -> DataFrame;
  inferred : list (option value) -> value -> value
}.

(** The frame of the records: a cell that is not empty holds the value of
    the record as pandas has inferred it in its column. *)
Definition raw_column (records : list (list (pystr * value))) (c : pystr)
  : list (option value) :=
  map (fun r => cell r c) records.

Definition make_frame (e : env) (records : list (list (pystr * value)))
  : DataFrame :=
  let cols := frame_columns records in
  mk_frame cols
    (map (fun r =>
            map (fun c => option_map (inferred e (raw_column records c))
                            (cell r c)) cols)
         records).

(** Code with effects: a result and the world it leaves. *)
Definition M (A : Type) : Type := world -> result A * world.

Definition ret {A} (a : A) : M A := fun w => (Ok a, w).
Definition raise {A} (e : exn) : M A := fun w => (Raise e, w).
Definition lift {A} (r : result A) : M A := fun w => (r, w).

Definition mbind {A B} (m : M A) (k : A -> M B) : M B := fun w =>
  match m w with
  | (Ok a, w') => k a w'
  | (Raise e, w') => (Raise e, w')
  end.

Notation "'do' x := m 'in' k" := (mbind m (fun x => k))
  (at level 10, x name, m at level 100, k at level 200) : py_scope.
Notation "m1 >> m2" := (mbind m1 (fun _ => m2))
  (at level 100, m2 at level 200, right associativity) : py_scope.

(** [try: body except ImportError: handler] *)
Definition try_except_ImportError {A} (body handler : M A) : M A := fun w =>
  match body w with
  | (Raise ImportError, w') => handler w'
  | r => r
  end.

(** [print(s)]: the text goes through the encoder of standard output;
    whatever that encoding is, it carries ASCII. *)
Definition ascii_text (s : pystr) : bool := forallb (fun c => c <? 128)%N s.

Definition printable (e : env) (s : pystr) : bool :=
  ascii_text s || stdout_encodes e s.

Definition print (e : env) (s : pystr) : M unit := fun w =>
  if printable e s then
    (Ok tt, mk_world (files w) (modules w) (stdout w ++ [s]) (calls w))
  else (Raise UnicodeEncodeError, w).

Definition record_call (c : call) : M unit := fun w =>
  (Ok tt, mk_world (files w) (modules w) (stdout w) (calls w ++ [c])).

Definition write_file (path : string) (f : file) : M unit := fun w =>
  (Ok tt, mk_world (<[path := f]> (files w)) (modules w) (stdout w) (calls w)).

Definition import_module (name : string) : M unit := fun w =>
  if bool_decide (name ∈ modules w) then (Ok tt, w) else (Raise ImportError, w).

(** [open(path, 'r', encoding='utf-8')] and [file.read()]. *)
Definition read_text (w : world) (path : string) : result pystr :=
  match files w !! path with
  | None => Raise FileNotFoundError
  | Some (Text b) => let* s := utf8_decode b in Ok (universal_newlines s)
  | Some (Workbook _) => Raise UnicodeDecodeError
  end.

(** Lines 16 and 17. *)
Definition json_load (w : world) (path : string) : result value :=
  let* s := read_text w path in loads s.

(** [process_products], lines 12 to 36: it reads and changes nothing. *)
Definition process_products (e : env) (json_file_path : string)
  : M (list (list (pystr * value))) := fun w =>
  (let* data := json_load w json_file_path in
   process_data (pads_year e) (tz e) data, w).

(** [df.to_excel(output_path, index=False, engine='openpyxl')]: the size
    of the frame is checked, the engine is imported when the writer is
    made, then the destination is opened, then the cells are stored, and
    the workbook is saved when the writer is closed, which is done also
    when a cell could not be stored: the destination then holds what was
    stored before it. *)
Definition to_excel (e : env) (df : DataFrame) (output_path : string)
  : M unit :=
  record_call (ToExcel output_path) >>
  (if fits_sheet df then ret tt else raise ValueError) >>
  import_module "openpyxl" >>
  (if writable e output_path then ret tt else raise PermissionError) >>
  if engine_accepts e df then write_file output_path (Workbook df)
  else (write_file output_path (Workbook (engine_stored e df)) >>
        raise BackendError).

(** Lines 38 to 42. *)
Definition save_to_excel (e : env) (products : list (list (pystr * value)))
  (output_path : string) : M unit :=
  let df := make_frame e products in
  to_excel e df output_path >>
  print e (py "Excel file saved to: " ++ py output_path).

(** [fp.write(chunk)] for each chunk [json.dump] gets from the encoder:
    the chunk goes through the UTF-8 encoder of the file, line feeds are
    written as they are.  The result, and the bytes written when the
    file is closed. *)
Fixpoint write_chunks (cs : list (result pystr)) (written : list N)
  : result unit * list N :=
  match cs with
  | [] => (Ok tt, written)
  | c :: cs' =>
      match (let* t := c in utf8_encode t) with
      | Ok b => write_chunks cs' (written ++ b)
      | Raise x => (Raise x, written)
      end
  end.

(** Lines 44 to 48: opening the file empties it; an exception of the
    encoder or of a write leaves what was written before it. *)
Definition save_to_json (e : env) (products : list (list (pystr * value)))
  (output_path : string) : M unit :=
  record_call (JsonDump output_path) >>
  (if writable e output_path then ret tt else raise PermissionError) >>
  (let '(r, b) :=
     write_chunks (iterencode 0 (VList (map VDict products))) [] in
   write_file output_path (Text b) >> lift r) >>
  print e (py "JSON file saved to: " ++ py output_path).

(** [subprocess.check_call([sys.executable, "-m", "pip", "install",
    "pandas", "openpyxl"])], line 73. *)
Definition check_call_pip (e : env) : M unit :=
  record_call PipInstall >>
  fun w =>
    match pip_install e (modules w) with
    | None => (Raise CalledProcessError, w)
    | Some ms => (Ok tt, mk_world (files w) ms (stdout w) (calls w))
    end.

Definition input_file : string := "/Users/zlinoliver/Desktop/response_new.json".
Definition excel_output : string := "/Users/zlinoliver/Desktop/products.xlsx".
Definition json_output : string :=
  "/Users/zlinoliver/Desktop/products_formatted.json".

Definition len {A} (l : list A) : pystr := int_repr (Z.of_nat (length l)).

(** Lines 67 to 74: the write is tried; an ImportError, and nothing else,
    makes the script install the packages and try the write again, outside
    of any handler. *)
Definition save_to_excel_or_install (e : env)
  (products : list (list (pystr * value))) : M unit :=
  try_except_ImportError
    (save_to_excel e products excel_output)
    (print e (py "pandas or openpyxl not installed. Installing required packages...") >>
     check_call_pip e >>
     save_to_excel e products excel_output).

(** Lines 58 to 61. *)
Definition print_summary (e : env) (products : list (list (pystr * value)))
  : M unit :=
  print e (py "Processed " ++ len products ++ py " products") >>
  print e (10 :: py "Sample product data:") >>
  match products with
  | first :: _ => do sample := lift (json_dumps (VDict first)) in print e sample
  | [] => ret tt
  end.

(** The main block, lines 51 to 78. *)
Definition main (e : env) : M unit :=
  do products := process_products e input_file in
  print_summary e products >>
  save_to_excel_or_install e products >>
  save_to_json e products json_output >>
  print e (10 :: py "Total products processed: " ++ len products).

(** Running the file: the imports of lines 2 to 4 come first; [json] and
    [datetime] are part of the interpreter, [pandas] is not. *)
Definition script (e : env) : M unit :=
  import_module "pandas" >> main e.

(** ** Names used by the statements

    The transformer. *)

Local Open Scope Z_scope.

(** The clock of a machine whose zone is UTC. *)
Definition utc : Z -> Z := fun _ => 0.

(** The keys read from a product and the keys written, in the order of
    lines 26 to 32. *)
Definition source_keys : list pystr :=
  [py "productName"; py "productKey"; py "id"; py "vendorId";
   py "categoryName"; py "itemValue"; py "tsCreateTime"].

Definition output_fields : list pystr :=
  [py "productName"; py "productKey"; py "productId"; py "productVendorId";
   py "categoryName"; py "categoryValue"; py "createdTime"].

(** The value [.get(key, '')] gives on a dict. *)
Definition field (d : list (pystr * value)) (key : pystr) : value :=
  default (VStr (py "")) (dict_lookup key d).

Definition widget : list (pystr * value) :=
  [(py "productName", VStr (py "Widget")); (py "id", VInt 7);
   (py "tsCreateTime", VInt 1700000000000)].

(** The record of the product Widget when its timestamp is shown as [s],
    and the bytes of the document whose rows hold that product alone. *)
Definition widget_record (s : pystr) : list (pystr * value) :=
  [ (py "productName", VStr (py "Widget"));
    (py "productKey", VStr (py ""));
    (py "productId", VInt 7);
    (py "productVendorId", VStr (py ""));
    (py "categoryName", VStr (py ""));
    (py "categoryValue", VStr (py ""));
    (py "createdTime", VStr s) ].

Definition widget_bytes : list N :=
  (123 :: 34 :: py "rows" ++ 34 :: py ":[{" ++ 34 :: py "productName"
   ++ 34 :: 58 :: 34 :: py "Widget" ++ 34 :: 44 :: 34 :: py "id"
   ++ 34 :: py ":7," ++ 34 :: py "tsCreateTime"
   ++ 34 :: py ":1700000000000}]}")%N.

(** A document with one product whose timestamp is a date in text. *)
Definition text_timestamp_doc : value :=
  VDict [(py "rows",
          VList [VDict [(py "productName", VStr (py "Widget"));
                        (py "tsCreateTime", VStr (py "2023-11-14"))]])].

(** A document with two products, the second with a timestamp far beyond
    the year 9999. *)
Definition far_timestamp_doc : value :=
  VDict [(py "rows",
          VList [VDict widget;
                 VDict [(py "tsCreateTime", VInt 1000000000000000000)]])].

(** The float 1700000000000.5, and rows whose timestamps are an int, zero,
    [True] and that float. *)
Definition half_past : spec_float := strtod false 17000000000005 (-1).

Definition fine_rows : list value :=
  [VDict widget; VDict [(py "tsCreateTime", VInt 0)];
   VDict [(py "tsCreateTime", VBool true)];
   VDict [(py "tsCreateTime", VFloat half_past)]].

(** Dates and times as displayed. *)

(** Reading a displayed date and time back: the text must be nineteen
    characters, digits around the separators of YYYY-MM-DD HH:MM:SS. *)
Definition slice (i n : nat) (s : pystr) : pystr := take n (drop i s).

Definition is_display (s : pystr) : bool :=
  (length s =? 19)%nat
  && forallb is_digit (slice 0 4 s) && pystr_eqb (slice 4 1 s) (py "-")
  && forallb is_digit (slice 5 2 s) && pystr_eqb (slice 7 1 s) (py "-")
  && forallb is_digit (slice 8 2 s) && pystr_eqb (slice 10 1 s) (py " ")
  && forallb is_digit (slice 11 2 s) && pystr_eqb (slice 13 1 s) (py ":")
  && forallb is_digit (slice 14 2 s) && pystr_eqb (slice 16 1 s) (py ":")
  && forallb is_digit (slice 17 2 s).

Definition digits_value (ds : pystr) : Z :=
  fold_left (fun acc c => acc * 10 + (Z.of_N c - 48)) ds 0.

Definition display_fields (s : pystr) : tm :=
  mk_tm (digits_value (slice 0 4 s)) (digits_value (slice 5 2 s))
        (digits_value (slice 8 2 s)) (digits_value (slice 11 2 s))
        (digits_value (slice 14 2 s)) (digits_value (slice 17 2 s)).

(** A date of the calendar and a time of the day. *)
Definition valid_tm (t : tm) : Prop :=
  1 <= tm_mon t <= 12 /\ 1 <= tm_mday t <= days_in_month (tm_year t) (tm_mon t)
  /\ 0 <= tm_hour t <= 23 /\ 0 <= tm_min t <= 59 /\ 0 <= tm_sec t <= 59.

(** The seconds from 1970-01-01 00:00:00 to a date and time. *)
Definition seconds_of_tm (t : tm) : Z :=
  days_from_civil (tm_year t) (tm_mon t) (tm_mday t) * 86400
  + tm_hour t * 3600 + tm_min t * 60 + tm_sec t.

(** A zone whose offset stays within a day, as [datetime] requires. *)
Definition bounded_zone (tz : Z -> Z) : Prop :=
  forall t, -86400 < tz t < 86400.

(** Milliseconds from 0001-01-04 to 9999-12-30, UTC: the instants that
    fall in the years 1 to 9999 in every zone, probes included. *)
Definition representable (ms : Z) : Prop :=
  -62135337600000 <= ms < 253402214400000.

(** Seconds from 0001-01-04 to 9999-12-30, UTC. *)
Definition in_range (t : Z) : Prop := -62135337600 <= t < 253402214400.

(** The timestamps [format_timestamp] accepts in every bounded zone: the
    falsy ones, [True], the representable ints, and the floats whose
    quotient by 1000 falls in a second of that range. *)
Definition timestamp_fine (v : value) : Prop :=
  truthy v = false
  \/ (exists ms, v = VInt ms /\ representable ms)
  \/ v = VBool true
  \/ (exists f t, v = VFloat f
        /\ double_to_seconds (SFdiv prec emax f (float_of_int 1000)) = Ok t
        /\ in_range t).

(** The record made of a product [d] whose timestamp is shown as [s]. *)
Definition record_of (d : list (pystr * value)) (s : pystr)
  : list (pystr * value) :=
  [ (py "productName", field d (py "productName"));
    (py "productKey", field d (py "productKey"));
    (py "productId", field d (py "id"));
    (py "productVendorId", field d (py "vendorId"));
    (py "categoryName", field d (py "categoryName"));
    (py "categoryValue", field d (py "itemValue"));
    (py "createdTime", VStr s) ].

(** Values and their JSON text. *)

(** The invariant of a Python dict, at every depth: no key twice. *)
Fixpoint distinct (ks : list pystr) : bool :=
  match ks with
  | [] => true
  | k :: ks' => negb (existsb (pystr_eqb k) ks') && distinct ks'
  end.

Fixpoint keys_unique (v : value) : bool :=
  match v with
  | VList l => forallb keys_unique l
  | VDict d =>
      distinct (map fst d) && forallb (fun kv => keys_unique (snd kv)) d
  | _ => true
  end.

(** The code points UTF-8 can carry: up to U+10FFFF, surrogates excluded. *)
Definition encodable_char (c : N) : bool :=
  (c <? 0x110000)%N && negb (is_surrogate c).

(** A value whose strings, keys included, hold such code points only. *)
Fixpoint encodable (v : value) : bool :=
  match v with
  | VStr s => forallb encodable_char s
  | VList l => forallb encodable l
  | VDict d =>
      forallb (fun kv => forallb encodable_char (fst kv) && encodable (snd kv)) d
  | _ => true
  end.

(** A value whose ints are within the digit limit of [int.__repr__]. *)
Fixpoint digits_ok (v : value) : bool :=
  match v with
  | VInt z => int_fits z
  | VList l => forallb digits_ok l
  | VDict d => forallb (fun kv => digits_ok (snd kv)) d
  | _ => true
  end.

(** A float that is equal to what the decoder reads from its text: an
    infinity; a zero or a finite double whose [repr] the decoder reads as
    that double.  NaN is never equal to anything in Python, itself
    included. *)
Definition float_reads_back (f : spec_float) : bool :=
  match f with
  | S754_nan => false
  | S754_infinity _ => true
  | _ =>
      match match_number (float_repr f) with
      | Ok (VFloat g, []) => float_same g f
      | _ => false
      end
  end.

Fixpoint floats_read_back (v : value) : bool :=
  match v with
  | VFloat f => float_reads_back f
  | VList l => forallb floats_read_back l
  | VDict d => forallb (fun kv => floats_read_back (snd kv)) d
  | _ => true
  end.

(** The characters of the text of a number. *)
Definition number_char (c : N) : bool :=
  (is_digit c || (c =? 43) || (c =? 45) || (c =? 46) || (c =? 101))%N.



(** The calls of the decoder a value costs. *)
Fixpoint need (v : value) : nat :=
  match v with
  | VList l => S (list_sum (map (fun x => S (need x)) l))
  | VDict d => S (list_sum (map (fun kv => S (need (snd kv))) d))
  | _ => 1
  end.

(** What follows a value in the text of [json.dump]: the end, a line
    feed or a comma. *)
Definition delimited (rest : pystr) : Prop :=
  match rest with
  | [] => True
  | c :: _ => c = 10%N \/ c = 44%N
  end.

(** The characters the text of a value can start with. *)
Definition value_heads : list N :=
  [110; 116; 102; 34; 91; 123; 45; 48; 49; 50; 51; 52; 53; 54; 55; 56; 57;
   73; 78]%N.

(** What the decoder is asked of a value [v]: to read it back from its
    text at any level, whatever delimited text follows. *)
Definition reads_back (v : value) : Prop :=
  forall lvl rest fuel, (need v <= fuel)%nat -> delimited rest ->
    scan_once fuel (encode lvl v ++ rest) = Ok (v, rest).

(** The text of an item of a list after the first, and of an entry of a
    dict after the first. *)
Definition item_text (lvl : nat) (y : value) : pystr :=
  (44 :: newline_indent (S lvl) ++ encode (S lvl) y)%N.

Definition entry_text (lvl : nat) (kv : pystr * value) : pystr :=
  (44 :: newline_indent (S lvl) ++ encode_basestring (fst kv)
   ++ 58 :: 32 :: encode (S lvl) (snd kv))%N.

(** A character that survives the trip to the file and back: it can be
    encoded, and it is not a carriage return. *)
Definition clean (c : N) : bool := negb (c =? 13)%N && encodable_char c.

(** The script and its environment. *)

(** The result of one call of [to_excel] when [ms] are the importable
    modules. *)
Definition excel_outcome (e : env) (ms : gset string) (df : DataFrame)
  (path : string) : result unit :=
  if fits_sheet df then
    if bool_decide ("openpyxl" ∈ ms) then
      if writable e path then
        if engine_accepts e df then Ok tt else Raise BackendError
      else Raise PermissionError
    else Raise ImportError
  else Raise ValueError.

(** The files one call of [to_excel] leaves: the workbook when it
    succeeds, what the engine had stored when a cell could not be stored,
    and the files as they were when it fails before the destination is
    opened. *)
Definition excel_files (e : env) (df : DataFrame) (path : string)
  (r : result unit) (fs : gmap string file) : gmap string file :=
  match r with
  | Ok _ => <[path := Workbook df]> fs
  | Raise BackendError => <[path := Workbook (engine_stored e df)]> fs
  | Raise _ => fs
  end.

(** What lines 58 to 61 print, and whether the sample can be printed. *)
Definition summary (products : list (list (pystr * value))) : list pystr :=
  [py "Processed " ++ len products ++ py " products";
   10%N :: py "Sample product data:"]
  ++ match products with
     | first :: _ => [dumps (VDict first)]
     | [] => []
     end.

Definition sample_printable (e : env)
  (products : list (list (pystr * value))) : bool :=
  match products with
  | first :: _ => printable e (dumps (VDict first))
  | [] => true
  end.

(** What an engine that gives up at the first row has stored: the
    header. *)
Definition header_only (df : DataFrame) : DataFrame :=
  mk_frame (columns df) [].

(** An environment in which every write succeeds, [pip] installs the two
    packages, standard output is UTF-8, the C library does not pad the
    year and pandas keeps the values as they are, and a world whose input
    file holds the given bytes. *)
Definition permissive : env :=
  mk_env utc (fun _ => true) (fun _ => true)
         (fun ms => Some (ms ∪ {["pandas"; "openpyxl"]}))
         (forallb encodable_char) false header_only (fun _ v => v).

Definition world_with_input (b : list N) (ms : gset string) : world :=
  mk_world {[ input_file := Text b ]} ms [] [].

(** The bytes of a document whose rows are the empty list, and of a text
    that is no JSON document. *)
Definition empty_rows_bytes : list N :=
  (123 :: 34 :: py "rows" ++ [34; 58; 32; 91; 93; 125])%N.

Definition broken_bytes : list N := py "{rows: [".



(** Records with text beyond ASCII, a negative int, and the floats
    1700000000000.5, 0.1, -0.0, 1e+22 and the positive infinity. *)
Definition round_trip_records : list (list (pystr * value)) :=
  [widget;
   [(py "name", VStr [233; 0x1F600]%N); (py "n", VInt (-42));
    (py "t", VFloat half_past); (py "x", VFloat (strtod false 1 (-1)));
    (py "z", VFloat (S754_zero true)); (py "big", VFloat (strtod false 1 22));
    (py "inf", VFloat (S754_infinity false))]].


(** ** Names used by the further properties

    Timestamps. *)

(** A text with zeros put before it up to nineteen characters: the
    display of a date whose year the C library wrote without leading
    zeros, with those zeros put back. *)
Definition zero_padded (s : pystr) : pystr :=
  repeat 48%N (19 - length s) ++ s.

(** The second of the local clock a count of milliseconds falls in. *)
Definition local_second (tz : Z -> Z) (ms : Z) : Z :=
  ms / 1000 + tz (ms / 1000).

(** A zone that sets its clocks back by one hour at the second 1698541200
    (2023-10-29 01:00:00 UTC), from two hours east of UTC to one. *)
Definition fall_back : Z -> Z :=
  fun t => if t <? 1698541200 then 7200 else 3600.

(** Documents and records. *)

(** The document whose only key is rows. *)
Definition rows_doc (rows : list value) : value :=
  VDict [(py "rows", VList rows)].

(** What every record of the transformer looks like: the seven fields in
    their order, and under createdTime a str that is empty or displays a
    date of the calendar and a time of the day, on sixteen to nineteen
    characters: YYYY-MM-DD HH:MM:SS once the zeros the C library may have
    left out before the year are put back. *)
Definition record_shape (r : list (pystr * value)) : Prop :=
  map fst r = output_fields
  /\ exists s, dict_lookup (py "createdTime") r = Some (VStr s)
       /\ (s = []
           \/ ((16 <= length s <= 19)%nat
               /\ is_display (zero_padded s) = true
               /\ valid_tm (display_fields (zero_padded s)))).

(** The frame with the seven fields as columns and one row per record, each
    cell holding the value of its field as it is. *)
Definition table (products : list (list (pystr * value))) : DataFrame :=
  mk_frame output_fields
    (map (fun r => map (fun kv => Some (snd kv)) r) products).

(** The records of the product Widget and of a product whose id is
    null, in UTC. *)
Definition missing_id_records : list (list (pystr * value)) :=
  [widget_record (py "2023-11-14 22:13:20");
   [ (py "productName", VStr (py "")); (py "productKey", VStr (py ""));
     (py "productId", VNone); (py "productVendorId", VStr (py ""));
     (py "categoryName", VStr (py "")); (py "categoryValue", VStr (py ""));
     (py "createdTime", VStr (py "2023-11-14 22:13:20")) ]].

(** Text. *)

(** The characters [json.dump] writes as they are when [ensure_ascii] is
    off: everything from the space on, the quote and the backslash apart. *)
Definition plain_char (c : N) : bool :=
  ((32 <=? c) && negb (c =? 34) && negb (c =? 92))%N.

Definition not_cr (c : N) : bool := negb (c =? 13)%N.

(** The UTF-8 bytes of the byte order mark U+FEFF. *)
Definition bom : list N := [0xEF; 0xBB; 0xBF]%N.

(** The bytes of a document whose top level is a list. *)
Definition list_bytes : list N := py "[{}]".

(** The script. *)

(** What a run that succeeds at the first try prints. *)
Definition success_output (products : list (list (pystr * value)))
  : list pystr :=
  summary products
  ++ [py "Excel file saved to: " ++ py excel_output;
      py "JSON file saved to: " ++ py json_output;
      10%N :: py "Total products processed: " ++ len products].

(** [w'] comes from [w] without a call of [pip], with the same modules,
    with standard output only longer, and with no path changed but the
    two outputs. *)
Definition extends (w w' : world) : Prop :=
  modules w' = modules w
  /\ (exists cs, calls w' = calls w ++ cs
        /\ Forall (fun c => c <> PipInstall) cs)
  /\ (exists out, stdout w' = stdout w ++ out)
  /\ forall p, p <> excel_output -> p <> json_output ->
       files w' !! p = files w !! p.

(** An environment in which no path can be written, and one in which the
    JSON output alone cannot. *)
Definition read_only_desktop : env :=
  mk_env utc (fun _ => false) (fun _ => true) (fun _ => None)
         (forallb encodable_char) false header_only (fun _ v => v).

Definition json_locked : env :=
  mk_env utc (fun p => negb (String.eqb p json_output)) (fun _ => true)
         (fun _ => None) (forallb encodable_char) false header_only (fun _ v => v).

(** An environment whose standard output carries ASCII only, and the bytes
    of a document with one product, whose name is the letter U+00E9. *)
Definition ascii_console : env :=
  mk_env utc (fun _ => true) (fun _ => true) (fun _ => None) (fun _ => false)
         false header_only (fun _ v => v).

Definition accent_bytes : list N :=
  (123 :: 34 :: py "rows" ++ 34 :: py ":[{" ++ 34 :: py "productName"
   ++ 34 :: 58 :: 34 :: py "\u00e9" ++ 34 :: py "}]}")%N.

(** * Properties *)

(** ** Dictionaries *)

Lemma pystr_eqb_eq a b : pystr_eqb a b = true <-> a = b.
Proof.
  revert b. induction a as [|x a IH]; intros [|y b]; cbn; try easy.
  rewrite andb_true_iff, N.eqb_eq, IH. split.
  - now intros [-> ->].
  - now intros [= -> ->].
Qed.

Lemma pystr_eqb_refl a : pystr_eqb a a = true.
Proof. now apply pystr_eqb_eq. Qed.

Lemma pystr_eqb_neq a b : a <> b -> pystr_eqb a b = false.
Proof.
  intros H. destruct (pystr_eqb a b) eqn:E; [|reflexivity].
  now apply pystr_eqb_eq in E.
Qed.

Lemma get_dict d key dflt :
  get (VDict d) key dflt = Ok (default dflt (dict_lookup key d)).
Proof. unfold get. now destruct (dict_lookup key d). Qed.

Lemma dict_lookup_set_ne k k' v d :
  k <> k' -> dict_lookup k' (dict_set k v d) = dict_lookup k' d.
Proof.
  intros Hne. induction d as [|[k0 v0] d IH]; cbn.
  - rewrite pystr_eqb_neq; [reflexivity | congruence].
  - destruct (pystr_eqb k k0) eqn:E; cbn.
    + apply pystr_eqb_eq in E. subst k0.
      rewrite pystr_eqb_neq; [reflexivity | congruence].
    + destruct (pystr_eqb k' k0); [reflexivity | exact IH].
Qed.

(** ** The transformer *)

Lemma process_product_dict pad tz d :
  process_product pad tz (VDict d) =
  let* createdTime :=
    format_timestamp pad tz (default VNone (dict_lookup (py "tsCreateTime") d)) in
  Ok [ (py "productName", field d (py "productName"));
       (py "productKey", field d (py "productKey"));
       (py "productId", field d (py "id"));
       (py "productVendorId", field d (py "vendorId"));
       (py "categoryName", field d (py "categoryName"));
       (py "categoryValue", field d (py "itemValue"));
       (py "createdTime", VStr createdTime) ].
Proof. unfold process_product. rewrite !get_dict. reflexivity. Qed.

Lemma process_product_not_dict pad tz p :
  (forall d, p <> VDict d) -> process_product pad tz p = Raise AttributeError.
Proof. intros H. destruct p; try reflexivity. now destruct (H d). Qed.

(** The loop maps [process_product] over the products, left to right, and
    stops at the first one that raises. *)
Lemma process_loop_spec pad tz products acc :
  match process_loop pad tz products acc with
  | Ok out =>
      exists rs, out = acc ++ rs
        /\ Forall2 (fun p r => process_product pad tz p = Ok r) products rs
  | Raise e =>
      exists pre p post, products = pre ++ p :: post
        /\ Forall (fun q => is_ok (process_product pad tz q) = true) pre
        /\ process_product pad tz p = Raise e
  end.
Proof.
  revert acc. induction products as [|p ps IH]; intros acc; cbn.
  - exists []. split; [now rewrite app_nil_r | constructor].
  - destruct (process_product pad tz p) as [r|e] eqn:Hp; cbn.
    + specialize (IH (acc ++ [r])).
      destruct (process_loop pad tz ps (acc ++ [r])) as [out|e].
      * destruct IH as (rs & -> & HF). exists (r :: rs). split.
        -- now rewrite <- app_assoc.
        -- now constructor.
      * destruct IH as (pre & q & post & -> & Hpre & Hq).
        exists (p :: pre), q, post. repeat split; [|exact Hq].
        constructor; [now rewrite Hp | exact Hpre].
    + exists [], p, ps. repeat split; [constructor | exact Hp].
Qed.

(** C1. For the sequence [rows] a document holds under its rows key,
    [process_products] gives one record per product, in the order of the
    products, the i-th record being [process_product] of the i-th product
    and of nothing else; it raises only what the first failing product
    raises, every product before it having been projected. *)
Theorem process_data_pointwise (pad : bool) (tz : Z -> Z) (data : value) (rows : list value) :
  get data (py "rows") (VList []) = Ok (VList rows) ->
  match process_data pad tz data with
  | Ok out =>
      length out = length rows
      /\ forall (i : nat) (p : value), rows !! i = Some p ->
           exists r, process_product pad tz p = Ok r /\ out !! i = Some r
  | Raise e =>
      exists (i : nat) (p : value),
        rows !! i = Some p /\ process_product pad tz p = Raise e
        /\ forall (j : nat) (q : value), (j < i)%nat -> rows !! j = Some q ->
             is_ok (process_product pad tz q) = true
  end.
Proof.
  intros Hrows. unfold process_data. rewrite Hrows. cbn.
  pose proof (process_loop_spec pad tz rows []) as H.
  destruct (process_loop pad tz rows []) as [out|e].
  - destruct H as (rs & -> & HF). cbn. split.
    + symmetry. exact (Forall2_length _ _ _ HF).
    + intros i p Hi.
      destruct (Forall2_lookup_l _ _ _ _ _ HF Hi) as (r & Hr & Hp).
      now exists r.
  - destruct H as (pre & p & post & -> & Hpre & Hp).
    exists (length pre), p. split; [|split; [exact Hp|]].
    + now rewrite list_lookup_middle.
    + intros j q Hj Hq. rewrite lookup_app_l in Hq by exact Hj.
      rewrite Forall_forall in Hpre. apply Hpre.
      eapply list_elem_of_lookup_2. exact Hq.
Qed.

Lemma process_data_pointwise_witness :
  match process_data false utc (VDict [(py "rows", VList [VDict widget; VDict []])]) with
  | Ok out =>
      length out = 2%nat
      /\ forall (i : nat) (p : value), [VDict widget; VDict []] !! i = Some p ->
           exists r, process_product false utc p = Ok r /\ out !! i = Some r
  | Raise e =>
      exists (i : nat) (p : value),
        [VDict widget; VDict []] !! i = Some p /\ process_product false utc p = Raise e
        /\ forall (j : nat) (q : value), (j < i)%nat ->
             [VDict widget; VDict []] !! j = Some q ->
             is_ok (process_product false utc q) = true
  end.
Proof.
  apply (process_data_pointwise false utc
           (VDict [(py "rows", VList [VDict widget; VDict []])])
           [VDict widget; VDict []]).
  reflexivity.
Defined.

(** C5. A timestamp that is absent ([None], what [.get] gives for a
    missing key) or falsy is formatted as the empty string; so are 0 and
    [None]. *)
Theorem format_timestamp_falsy (pad : bool) (tz : Z -> Z) (timestamp_ms : value) :
  truthy timestamp_ms = false ->
  format_timestamp pad tz timestamp_ms = Ok (py "").
Proof. intros H. unfold format_timestamp. now rewrite H. Qed.

Lemma format_timestamp_falsy_witness :
  format_timestamp false utc (VInt 0) = Ok (py "")
  /\ format_timestamp false utc VNone = Ok (py "")
  /\ (let* ts := get (VDict []) (py "tsCreateTime") VNone in
      format_timestamp false utc ts) = Ok (py "").
Proof.
  split; [|split].
  - apply (format_timestamp_falsy false utc (VInt 0)). reflexivity.
  - apply (format_timestamp_falsy false utc VNone). reflexivity.
  - cbn. apply (format_timestamp_falsy false utc VNone). reflexivity.
Defined.

(** C2. The record of a product [d] exists exactly when its timestamp can
    be formatted, and is then the seven fields below: each of the first
    six is the value under its source key, or the empty string when the
    key is missing, and createdTime is [format_timestamp] of the value
    under tsCreateTime ([None] when missing).  A product with none of the
    seven keys gives seven empty strings.  The product Widget gives its
    name, 7 as productId, empty strings elsewhere and the formatted
    instant, which reads 2023-11-14 22:13:20 where the zone is UTC; the
    document that holds it alone, read from its file, gives that one
    record. *)
Theorem process_product_projection (pad : bool) (tz : Z -> Z) (d : list (pystr * value)) :
  (forall r, process_product pad tz (VDict d) = Ok r <->
     exists s,
       format_timestamp pad tz (default VNone (dict_lookup (py "tsCreateTime") d))
         = Ok s
       /\ r = [ (py "productName", field d (py "productName"));
                (py "productKey", field d (py "productKey"));
                (py "productId", field d (py "id"));
                (py "productVendorId", field d (py "vendorId"));
                (py "categoryName", field d (py "categoryName"));
                (py "categoryValue", field d (py "itemValue"));
                (py "createdTime", VStr s) ])
  /\ ((forall k, In k source_keys -> dict_lookup k d = None) ->
      process_product pad tz (VDict d)
      = Ok (map (fun k => (k, VStr (py ""))) output_fields))
  /\ (forall s, format_timestamp pad tz (VInt 1700000000000) = Ok s ->
      process_product pad tz (VDict widget) = Ok (widget_record s))
  /\ process_product pad utc (VDict widget)
     = Ok (widget_record (py "2023-11-14 22:13:20"))
  /\ (let* data := json_load (world_with_input widget_bytes ∅) input_file in
      process_data pad utc data)
     = Ok [widget_record (py "2023-11-14 22:13:20")].
Proof.
  split; [|split; [|split; [|split]]].
  - intros r. rewrite process_product_dict.
    destruct (format_timestamp pad tz _) as [s|e]; cbn.
    + split.
      * intros [= <-]. now exists s.
      * intros (s' & [= <-] & ->). reflexivity.
    + split; [discriminate | intros (s' & Hs & _); discriminate].
  - intros Hmiss. rewrite process_product_dict. unfold field.
    rewrite !Hmiss by (cbn; tauto). reflexivity.
  - intros s Hs. rewrite process_product_dict.
    change (default VNone (dict_lookup (py "tsCreateTime") widget))
      with (VInt 1700000000000).
    rewrite Hs. reflexivity.
  - destruct pad; vm_compute; reflexivity.
  - destruct pad; vm_compute; reflexivity.
Qed.

Lemma process_product_projection_witness :
  process_product false utc (VDict [(py "note", VInt 1)])
  = Ok (map (fun k => (k, VStr (py ""))) output_fields).
Proof.
  apply (process_product_projection false utc [(py "note", VInt 1)]).
  intros k Hk. cbn in Hk.
  repeat (destruct Hk as [<- | Hk]; [reflexivity|]). destruct Hk.
Defined.

(** C10. Two products that agree on the seven source keys give the same
    record (or raise the same exception); a key that is not one of the
    seven has no influence; a record has the seven output fields, in the
    order productName, productKey, productId, productVendorId,
    categoryName, categoryValue, createdTime, and nothing else. *)
Theorem process_product_depends_on_source_keys (pad : bool) (tz : Z -> Z)
  (d1 d2 : list (pystr * value)) :
  (forall k, In k source_keys -> dict_lookup k d1 = dict_lookup k d2) ->
  process_product pad tz (VDict d1) = process_product pad tz (VDict d2)
  /\ (forall k v, ~ In k source_keys ->
        process_product pad tz (VDict (dict_set k v d1))
        = process_product pad tz (VDict d1))
  /\ (forall r, process_product pad tz (VDict d1) = Ok r ->
        map fst r = output_fields).
Proof.
  intros Hagree.
  assert (Hsame : forall a b : list (pystr * value),
            (forall k, In k source_keys -> dict_lookup k a = dict_lookup k b) ->
            process_product pad tz (VDict a) = process_product pad tz (VDict b)).
  { intros a b H. rewrite !process_product_dict. unfold field.
    rewrite !(H _) by (cbn; tauto). reflexivity. }
  split; [|split].
  - now apply Hsame.
  - intros k v Hk. apply Hsame. intros k' Hk'.
    apply dict_lookup_set_ne. intros ->. now apply Hk.
  - intros r. rewrite process_product_dict.
    destruct (format_timestamp pad tz _); cbn; [|discriminate].
    intros [= <-]. reflexivity.
Qed.

Lemma process_product_depends_on_source_keys_witness :
  process_product false utc (VDict widget)
  = process_product false utc
      (VDict ((py "secret", VStr (py "x")) :: rev widget)).
Proof.
  refine (proj1 (process_product_depends_on_source_keys false utc widget
                   ((py "secret", VStr (py "x")) :: rev widget) _)).
  intros k Hk. cbn in Hk.
  repeat (destruct Hk as [<- | Hk]; [reflexivity|]). destruct Hk.
Defined.

(** ** The calendar *)

Lemma days_before_month_cases y m : 1 <= m <= 12 ->
  days_before_month y m =
    (if m <=? 1 then 0 else if m <=? 2 then 31 else
     (if is_leap y then 1 else 0) +
     (if m <=? 3 then 59 else if m <=? 4 then 90 else if m <=? 5 then 120
      else if m <=? 6 then 151 else if m <=? 7 then 181
      else if m <=? 8 then 212 else if m <=? 9 then 243
      else if m <=? 10 then 273 else if m <=? 11 then 304 else 334)).
Proof.
  intros H.
  assert (m = 1 \/ m = 2 \/ m = 3 \/ m = 4 \/ m = 5 \/ m = 6 \/ m = 7
          \/ m = 8 \/ m = 9 \/ m = 10 \/ m = 11 \/ m = 12) as Hm by lia.
  repeat (destruct Hm as [-> | Hm]); try subst m;
    unfold days_before_month; cbn; unfold days_in_month; cbn;
    destruct (is_leap y); reflexivity.
Qed.

Lemma is_leap_spec y :
  is_leap y = true <-> (y mod 4 = 0 /\ (y mod 100 <> 0 \/ y mod 400 = 0)).
Proof.
  unfold is_leap.
  destruct (Z.eqb_spec (y mod 4) 0), (Z.eqb_spec (y mod 100) 0),
    (Z.eqb_spec (y mod 400) 0); cbn; split; intros; try tauto;
    try discriminate; try (exfalso; Z.div_mod_to_equations; lia).
Qed.

(** [civil_from_days] gives a date of the calendar, and the date whose day
    number is the one asked for. *)
Lemma civil_from_days_inverse z :
  let '(y, m, d) := civil_from_days z in
  1 <= m <= 12 /\ 1 <= d <= days_in_month y m /\ days_from_civil y m d = z.
Proof.
  unfold civil_from_days. cbn zeta.
  remember (z + 719468) as z' eqn:Hz'.
  remember (z' / 146097) as era eqn:Hera.
  remember (z' - era * 146097) as doe eqn:Hdoe.
  remember ((doe - doe / 1460 + doe / 36524 - doe / 146096) / 365)
    as yoe eqn:Hyoe.
  remember (doe - (365 * yoe + yoe / 4 - yoe / 100)) as doy eqn:Hdoy.
  remember ((5 * doy + 2) / 153) as mp eqn:Hmp.
  remember (if mp <? 10 then mp + 3 else mp - 9) as m eqn:Hm.
  remember (yoe + era * 400 + (if m <=? 2 then 1 else 0)) as y eqn:Hy.
  assert (Bdoe : 0 <= doe <= 146096) by (Z.div_mod_to_equations; lia).
  assert (Byoe : 0 <= yoe <= 399) by (Z.div_mod_to_equations; lia).
  assert (Bdoy : 0 <= doy <= 365) by (Z.div_mod_to_equations; lia).
  assert (Bmp : 0 <= mp <= 11) by (Z.div_mod_to_equations; lia).
  assert (Hc : mp = 0 \/ mp = 1 \/ mp = 2 \/ mp = 3 \/ mp = 4 \/ mp = 5
               \/ mp = 6 \/ mp = 7 \/ mp = 8 \/ mp = 9 \/ mp = 10 \/ mp = 11)
    by lia.
  pose proof (is_leap_spec y) as Hleap.
  repeat (destruct Hc as [Hc | Hc]);
    rewrite Hc in Hm, Hmp |- *; vm_compute in Hm; subst m; cbn in Hy;
    (split; [lia|]);
    unfold days_from_civil, days_before_year;
    rewrite days_before_month_cases by lia;
    unfold days_in_month; cbn -[Z.mul Z.add Z.sub Z.div Z.modulo is_leap];
    (destruct (is_leap y) eqn:El;
     [ assert (Hl : y mod 4 = 0 /\ (y mod 100 <> 0 \/ y mod 400 = 0))
         by (apply Hleap; reflexivity)
     | assert (Hl : ~ (y mod 4 = 0 /\ (y mod 100 <> 0 \/ y mod 400 = 0)))
         by (rewrite <- Hleap; congruence) ]);
    clear Hleap El; Z.div_mod_to_equations; lia.
Qed.

Lemma civil_from_days_year z : -719162 <= z <= 2932896 ->
  MINYEAR <= fst (fst (civil_from_days z)) <= MAXYEAR.
Proof.
  intros H. unfold civil_from_days, MINYEAR, MAXYEAR. cbn zeta.
  remember (z + 719468) as z' eqn:Hz'.
  remember (z' / 146097) as era eqn:Hera.
  remember (z' - era * 146097) as doe eqn:Hdoe.
  remember ((doe - doe / 1460 + doe / 36524 - doe / 146096) / 365)
    as yoe eqn:Hyoe.
  remember (doe - (365 * yoe + yoe / 4 - yoe / 100)) as doy eqn:Hdoy.
  remember ((5 * doy + 2) / 153) as mp eqn:Hmp.
  cbn [fst].
  destruct (mp <? 10) eqn:E1; destruct (_ <=? 2) eqn:E2;
    (apply Z.ltb_lt in E1 || apply Z.ltb_ge in E1);
    (apply Z.leb_le in E2 || apply Z.leb_gt in E2);
    Z.div_mod_to_equations; lia.
Qed.

(** A broken-down time is a date and a time of the day, and it is the one
    of the seconds asked for. *)
Lemma broken_down_spec secs :
  valid_tm (broken_down secs) /\ seconds_of_tm (broken_down secs) = secs.
Proof.
  unfold broken_down, valid_tm, seconds_of_tm.
  pose proof (civil_from_days_inverse (secs / 86400)) as H.
  destruct (civil_from_days (secs / 86400)) as [[y m] d].
  destruct H as (Hm & Hd & Hdays). cbn [tm_year tm_mon tm_mday tm_hour tm_min tm_sec].
  rewrite Hdays. repeat split; try lia; Z.div_mod_to_equations; lia.
Qed.

Lemma broken_down_year secs : -62135596800 <= secs < 253402300800 ->
  year_in_range (broken_down secs) = true.
Proof.
  intros H. unfold year_in_range, broken_down.
  pose proof (civil_from_days_year (secs / 86400)) as Hy.
  destruct (civil_from_days (secs / 86400)) as [[y m] d]. cbn in *.
  assert (-719162 <= secs / 86400 <= 2932896) by (Z.div_mod_to_equations; lia).
  apply andb_true_iff. split; apply Z.leb_le; lia.
Qed.

(** ** Formatting *)

Lemma digit_ok x : 0 <= x <= 9 ->
  is_digit (digit x) = true /\ Z.of_N (digit x) - 48 = x.
Proof.
  intros H. unfold is_digit, digit. split.
  - apply andb_true_iff. split; apply N.leb_le; lia.
  - lia.
Qed.

Lemma mod10_digit n : 0 <= n mod 10 <= 9.
Proof. pose proof (Z.mod_pos_bound n 10). lia. Qed.

(** The text of [strftime] has the shape YYYY-MM-DD HH:MM:SS where the
    year is written on four digits, and reading its fields back gives the
    time that was formatted. *)
Lemma year_text_four pad y :
  pad = true \/ 1000 <= y -> year_text pad y = zfill4 y.
Proof.
  intros [-> | Hy]; [reflexivity|]. unfold year_text.
  destruct pad; [reflexivity|].
  destruct (Z.ltb_spec y 10); [lia|]. destruct (Z.ltb_spec y 100); [lia|].
  destruct (Z.ltb_spec y 1000); [lia|]. reflexivity.
Qed.

Lemma strftime_display pad t :
  pad = true \/ 1000 <= tm_year t ->
  0 <= tm_year t <= 9999 -> 0 <= tm_mon t <= 99 -> 0 <= tm_mday t <= 99 ->
  0 <= tm_hour t <= 99 -> 0 <= tm_min t <= 99 -> 0 <= tm_sec t <= 99 ->
  is_display (strftime pad t) = true /\ display_fields (strftime pad t) = t.
Proof.
  destruct t as [y mo d h mi s]. cbn [tm_year tm_mon tm_mday tm_hour tm_min tm_sec].
  intros Hp Hy Hmo Hd Hh Hmi Hs.
  unfold strftime. cbn [tm_year tm_mon tm_mday tm_hour tm_min tm_sec].
  rewrite (year_text_four pad y Hp). unfold zfill4, zfill2.
  pose proof (fun n => proj1 (digit_ok _ (mod10_digit n))) as Hdig.
  pose proof (fun n => proj2 (digit_ok _ (mod10_digit n))) as Hval.
  split.
  - unfold is_display, slice. cbn. rewrite !Hdig. reflexivity.
  - unfold display_fields, slice, digits_value. cbn. rewrite !Hval.
    f_equal; Z.div_mod_to_equations; lia.
Qed.

(** A second from 0001-01-04 to 9999-12-30 is shown in every bounded
    zone. *)
Lemma fromtimestamp_in_range tz q t :
  bounded_zone tz -> timestamp_second q = Ok t -> in_range t ->
  fromtimestamp tz q = Ok (localtime tz t).
Proof.
  intros Htz Hq Ht. unfold fromtimestamp, localtime, max_fold_seconds.
  rewrite Hq. cbn [bind]. cbv zeta. unfold in_range in Ht.
  pose proof (Htz t) as H1. pose proof (Htz (t - 86400)) as H2.
  pose proof (Htz (t + (tz t - tz (t - 86400)))) as H3.
  rewrite !broken_down_year by lia.
  destruct (Z.leb_spec 0 (tz t - tz (t - 86400))); [reflexivity|].
  now rewrite broken_down_year by lia.
Qed.

Lemma fromtimestamp_representable tz ms :
  bounded_zone tz -> representable ms ->
  fromtimestamp tz (Exact ms) = Ok (localtime tz (ms / 1000)).
Proof.
  intros Htz Hms. apply fromtimestamp_in_range; [exact Htz | reflexivity |].
  unfold representable in Hms. unfold in_range. Z.div_mod_to_equations. lia.
Qed.

Lemma fromtimestamp_year tz q t :
  fromtimestamp tz q = Ok t ->
  exists sec, timestamp_second q = Ok sec
    /\ t = localtime tz sec /\ 1 <= tm_year t <= 9999.
Proof.
  unfold fromtimestamp.
  destruct (timestamp_second q) as [sec|e]; cbn [bind]; [|discriminate].
  cbv zeta. set (now := localtime tz sec).
  destruct (year_in_range now) eqn:E; cbn [andb]; [|discriminate].
  destruct (_ && _); [|discriminate]. intros [= <-].
  exists sec. split; [reflexivity|]. split; [reflexivity|].
  unfold year_in_range, MINYEAR, MAXYEAR in E.
  apply andb_true_iff in E. destruct E as [E1 E2].
  apply Z.leb_le in E1, E2. lia.
Qed.

(** Whenever a timestamp is formatted to something, the text is either
    empty or the text [strftime] gives for a date and time of the
    calendar: the local time of the second the quotient falls in. *)
Lemma format_timestamp_value pad tz v s :
  format_timestamp pad tz v = Ok s ->
  (truthy v = false /\ s = py "")
  \/ exists q sec,
       truthy v = true /\ truediv_1000 v = Ok q /\ timestamp_second q = Ok sec
       /\ s = strftime pad (localtime tz sec)
       /\ 1 <= tm_year (localtime tz sec) <= 9999
       /\ valid_tm (localtime tz sec)
       /\ seconds_of_tm (localtime tz sec) = sec + tz sec.
Proof.
  unfold format_timestamp. destruct (truthy v); [|intros [= <-]; now left].
  destruct (truediv_1000 v) as [q|e]; cbn [bind]; [|discriminate].
  destruct (fromtimestamp tz q) as [t|e] eqn:Ht; cbn [bind]; [|discriminate].
  intros [= <-]. right. apply fromtimestamp_year in Ht.
  destruct Ht as (sec & Hq & -> & Hy). exists q, sec.
  destruct (broken_down_spec (sec + tz sec)) as [Hv Hs].
  repeat split; try assumption; try apply Hy; apply Hv.
Qed.

Lemma valid_tm_fields t :
  valid_tm t ->
  0 <= tm_mon t <= 99 /\ 0 <= tm_mday t <= 99 /\ 0 <= tm_hour t <= 99
  /\ 0 <= tm_min t <= 99 /\ 0 <= tm_sec t <= 99.
Proof.
  unfold valid_tm. intros Hv.
  assert (Hdm : days_in_month (tm_year t) (tm_mon t) <= 31).
  { unfold days_in_month. repeat destruct (_ =? _); cbn;
      try destruct (is_leap _); lia. }
  lia.
Qed.

(** The text of a date of the calendar whose year is written on four
    digits is a display of that date. *)
Lemma strftime_valid pad t :
  pad = true \/ 1000 <= tm_year t -> 1 <= tm_year t <= 9999 -> valid_tm t ->
  is_display (strftime pad t) = true /\ display_fields (strftime pad t) = t.
Proof.
  intros Hp Hy Hv. pose proof (valid_tm_fields t Hv).
  apply strftime_display; try assumption; lia.
Qed.

Lemma format_timestamp_int pad tz ms s :
  ms <> 0 -> format_timestamp pad tz (VInt ms) = Ok s ->
  s = strftime pad (localtime tz (ms / 1000))
  /\ 1 <= tm_year (localtime tz (ms / 1000)) <= 9999
  /\ valid_tm (localtime tz (ms / 1000))
  /\ seconds_of_tm (localtime tz (ms / 1000)) = ms / 1000 + tz (ms / 1000).
Proof.
  intros Hnz Hs. apply format_timestamp_value in Hs.
  destruct Hs as [[Hf _] | (q & sec & _ & Hq & Hsec & Hs)].
  - cbn in Hf. destruct (Z.eqb_spec ms 0); [contradiction | discriminate].
  - cbn in Hq. injection Hq as <-. cbn in Hsec. injection Hsec as <-.
    exact Hs.
Qed.

(** The days around 2023-11-14 fall in 2023. *)
Lemma year_2023 secs :
  1699913600 <= secs <= 1700086400 -> tm_year (broken_down secs) = 2023.
Proof.
  intros H. unfold broken_down.
  assert (Hd : secs / 86400 = 19674 \/ secs / 86400 = 19675
               \/ secs / 86400 = 19676) by (Z.div_mod_to_equations; lia).
  destruct Hd as [-> | [-> | ->]]; reflexivity.
Qed.

(** C9. In a zone whose offset stays within a day, the timestamp
    1700000000000 is formatted to a text of the shape YYYY-MM-DD HH:MM:SS
    (digits and separators in place, hence zero padded) that shows a date
    of the calendar and a time of the day: the local time of the second
    1700000000.  Where the zone is UTC the text is 2023-11-14 22:13:20. *)
Theorem format_timestamp_1700000000000 (pad : bool) (tz : Z -> Z) :
  bounded_zone tz ->
  exists s, format_timestamp pad tz (VInt 1700000000000) = Ok s
    /\ is_display s = true
    /\ valid_tm (display_fields s)
    /\ seconds_of_tm (display_fields s) = 1700000000 + tz 1700000000
    /\ (tz 1700000000 = 0 -> s = py "2023-11-14 22:13:20").
Proof.
  intros Htz.
  assert (Hf : fromtimestamp tz (Exact 1700000000000)
               = Ok (localtime tz 1700000000)).
  { rewrite fromtimestamp_representable; [reflexivity | exact Htz |].
    unfold representable. lia. }
  assert (Hs : format_timestamp pad tz (VInt 1700000000000)
               = Ok (strftime pad (localtime tz 1700000000))).
  { unfold format_timestamp. cbn [truthy truediv_1000 Z.eqb negb bind].
    rewrite Hf. reflexivity. }
  exists (strftime pad (localtime tz 1700000000)).
  split; [exact Hs|].
  destruct (format_timestamp_int pad tz 1700000000000 _ ltac:(lia) Hs)
    as (_ & Hy & Hv & Hsec).
  change (1700000000000 / 1000) with 1700000000 in Hy, Hv, Hsec.
  assert (H2023 : tm_year (localtime tz 1700000000) = 2023).
  { unfold localtime. apply year_2023. pose proof (Htz 1700000000). lia. }
  destruct (strftime_valid pad (localtime tz 1700000000)) as [Hd Hfld];
    [right; lia | exact Hy | exact Hv |].
  rewrite Hfld. repeat split; try assumption; try apply Hv.
  intros H0. unfold localtime. rewrite H0. destruct pad; vm_compute; reflexivity.
Qed.

Lemma format_timestamp_1700000000000_witness :
  exists s, format_timestamp false utc (VInt 1700000000000) = Ok s
    /\ is_display s = true
    /\ valid_tm (display_fields s)
    /\ seconds_of_tm (display_fields s) = 1700000000 + utc 1700000000
    /\ (utc 1700000000 = 0 -> s = py "2023-11-14 22:13:20").
Proof.
  apply (format_timestamp_1700000000000 false utc).
  intros t. unfold utc. lia.
Defined.

(** ** Failure and success of the transformer *)

Lemma format_timestamp_fine pad tz v :
  bounded_zone tz -> timestamp_fine v -> is_ok (format_timestamp pad tz v) = true.
Proof.
  intros Htz [Hf | [(ms & -> & Hms) | [-> | (f & t & -> & Hq & Ht)]]].
  - unfold format_timestamp. now rewrite Hf.
  - unfold format_timestamp. destruct (truthy (VInt ms)); [|reflexivity].
    cbn [truediv_1000 bind]. now rewrite fromtimestamp_representable.
  - unfold format_timestamp. cbn [truthy truediv_1000 bind].
    rewrite fromtimestamp_representable; [reflexivity | exact Htz |].
    unfold representable. lia.
  - unfold format_timestamp. destruct (truthy (VFloat f)); [|reflexivity].
    cbn [truediv_1000 bind].
    now rewrite (fromtimestamp_in_range tz (Double _) t Htz Hq Ht).
Qed.

(** A truthy timestamp that is not a number cannot be divided. *)
Lemma format_timestamp_not_number pad tz v :
  truthy v = true -> (forall z, v <> VInt z) -> (forall b, v <> VBool b) ->
  (forall f, v <> VFloat f) ->
  format_timestamp pad tz v = Raise TypeError.
Proof.
  intros Ht Hi Hb Hf. unfold format_timestamp. rewrite Ht.
  destruct v; try reflexivity;
    [now destruct (Hb b) | now destruct (Hi z) | now destruct (Hf f)].
Qed.

(** C1 as stated does not hold, an output of the same length is not
    returned for every input: the document below is a JSON document with
    two products, and the second, whose tsCreateTime lies beyond the year
    9999, makes the transformer raise instead of returning two records. *)
Lemma process_data_far_timestamp_raises :
  loads (dumps far_timestamp_doc) = Ok far_timestamp_doc
  /\ process_data false utc far_timestamp_doc = Raise RangeError
  /\ process_data true utc far_timestamp_doc = Raise RangeError
  /\ ~ (exists out, process_data false utc far_timestamp_doc = Ok out
                    /\ length out = 2%nat).
Proof.
  split; [vm_compute; reflexivity|].
  assert (H : process_data false utc far_timestamp_doc = Raise RangeError)
    by (vm_compute; reflexivity).
  split; [exact H|]. split; [vm_compute; reflexivity|].
  intros (out & Hout & _). rewrite H in Hout. discriminate.
Qed.

(** C3 as stated does not hold, the transformer can fail on a valid
    document: the document below is a JSON document, and the text under
    tsCreateTime makes the transformer raise TypeError. *)
Lemma process_data_text_timestamp_raises :
  loads (dumps text_timestamp_doc) = Ok text_timestamp_doc
  /\ process_data false utc text_timestamp_doc = Raise TypeError
  /\ ~ (exists out, process_data false utc text_timestamp_doc = Ok out).
Proof.
  split; [vm_compute; reflexivity|].
  assert (H : process_data false utc text_timestamp_doc = Raise TypeError)
    by (vm_compute; reflexivity).
  split; [exact H|]. intros [out Hout]. rewrite H in Hout. discriminate.
Qed.

(** C3, amended. In a zone whose offset stays within a day, the transformer
    returns, with one record per product and in the order of the products,
    for every document that is a mapping whose rows are missing or are a
    list of mappings in which each tsCreateTime is missing, falsy, [True],
    an int of milliseconds between 0001-01-04 and 9999-12-30 (UTC), or a
    float whose quotient by 1000 falls in a second of that range.  Each
    record is the one of its product: the six fields are the values under
    their source keys, the empty string for a missing one, and createdTime is
    the text [format_timestamp] returns, which is empty for a missing or
    falsy tsCreateTime. *)
Theorem process_data_succeeds (pad : bool) (tz : Z -> Z) (d : list (pystr * value))
  (rows : list value) :
  bounded_zone tz ->
  default (VList []) (dict_lookup (py "rows") d) = VList rows ->
  (forall p, In p rows ->
     exists r, p = VDict r
       /\ timestamp_fine (default VNone (dict_lookup (py "tsCreateTime") r))) ->
  exists out, process_data pad tz (VDict d) = Ok out
    /\ length out = length rows
    /\ Forall2 (fun p rec =>
         exists r s, p = VDict r
           /\ format_timestamp pad tz
                (default VNone (dict_lookup (py "tsCreateTime") r)) = Ok s
           /\ (truthy (default VNone (dict_lookup (py "tsCreateTime") r)) = false
               -> s = py "")
           /\ rec = record_of r s) rows out.
Proof.
  intros Htz Hrows Hfine. unfold process_data.
  rewrite get_dict, Hrows. cbn [bind iterate].
  pose proof (process_loop_spec pad tz rows []) as H.
  destruct (process_loop pad tz rows []) as [out|e].
  - destruct H as (rs & -> & HF). exists rs. split; [reflexivity|].
    split; [symmetry; exact (Forall2_length _ _ _ HF)|].
    cbn [app]. clear Hrows. induction HF as [|p rec ps recs Hp HF IH].
    + constructor.
    + constructor.
      * destruct (Hfine p) as (r & -> & _); [now left|].
        rewrite process_product_dict in Hp.
        destruct (format_timestamp pad tz _) as [s|e] eqn:Hs; [|discriminate].
        cbn [bind] in Hp. injection Hp as <-. exists r, s.
        split; [reflexivity|]. split; [exact Hs|]. split; [|reflexivity].
        intros Hfalse. unfold format_timestamp in Hs. rewrite Hfalse in Hs.
        now injection Hs as <-.
      * apply IH. intros q Hq. apply Hfine. now right.
  - exfalso. destruct H as (pre & p & post & -> & _ & Hp).
    destruct (Hfine p) as (r & -> & Hts).
    { apply in_or_app. right. now left. }
    rewrite process_product_dict in Hp.
    pose proof (format_timestamp_fine pad tz _ Htz Hts) as Hok.
    destruct (format_timestamp pad tz _); [discriminate Hp | discriminate Hok].
Qed.

Lemma process_data_succeeds_witness :
  exists out,
    process_data false utc (VDict [(py "rows", VList fine_rows)]) = Ok out
    /\ length out = length fine_rows
    /\ Forall2 (fun p rec =>
         exists r s, p = VDict r
           /\ format_timestamp false utc
                (default VNone (dict_lookup (py "tsCreateTime") r)) = Ok s
           /\ (truthy (default VNone (dict_lookup (py "tsCreateTime") r)) = false
               -> s = py "")
           /\ rec = record_of r s) fine_rows out.
Proof.
  apply (process_data_succeeds false utc [(py "rows", VList fine_rows)]
           fine_rows).
  - intros t. unfold utc. lia.
  - reflexivity.
  - intros p [<- | [<- | [<- | [<- | []]]]].
    + exists widget. split; [reflexivity|]. right. left.
      exists 1700000000000. split; [reflexivity | unfold representable; lia].
    + eexists. split; [reflexivity|]. left. reflexivity.
    + eexists. split; [reflexivity|]. right. right. left. reflexivity.
    + eexists. split; [reflexivity|]. right. right. right.
      exists half_past, 1700000000. split; [reflexivity|].
      split; [vm_compute; reflexivity | unfold in_range; lia].
Defined.

(** ** UTF-8 *)

Local Open Scope N_scope.

Ltac n_arith := zify; Z.to_euclidean_division_equations; lia.

Lemma utf8_char_round_trip c bs rest :
  utf8_encode_char c = Some bs ->
  utf8_decode (bs ++ rest) = let* s := utf8_decode rest in Ok (c :: s).
Proof.
  unfold utf8_encode_char.
  destruct (N.ltb_spec c 0x80) as [H1|H1].
  { intros [= <-]. cbn [app utf8_decode].
    destruct (N.ltb_spec c 0x80); [reflexivity | lia]. }
  destruct (N.ltb_spec c 0x800) as [H2|H2].
  { intros [= <-]. cbn [app utf8_decode].
    destruct (N.ltb_spec (0xC0 + c / 64) 0x80); [n_arith|].
    destruct (N.ltb_spec (0xC0 + c / 64) 0xC2); [n_arith|].
    destruct (N.ltb_spec (0xC0 + c / 64) 0xE0); [|n_arith].
    unfold is_cont.
    destruct (N.leb_spec 0x80 (0x80 + c mod 64)); [|n_arith].
    destruct (N.ltb_spec (0x80 + c mod 64) 0xC0); [|n_arith].
    cbn [andb].
    replace ((0xC0 + c / 64 - 0xC0) * 64 + (0x80 + c mod 64 - 0x80)) with c
      by n_arith.
    reflexivity. }
  destruct (N.ltb_spec c 0x10000) as [H3|H3].
  { unfold is_surrogate.
    destruct (N.leb_spec 0xD800 c) as [H4|H4];
      [destruct (N.leb_spec c 0xDFFF) as [H5|H5]|]; cbn [andb];
      try discriminate; intros [= <-]; cbn [app utf8_decode].
    all: destruct (N.ltb_spec (0xE0 + c / 4096) 0x80); [n_arith|].
    all: destruct (N.ltb_spec (0xE0 + c / 4096) 0xC2); [n_arith|].
    all: destruct (N.ltb_spec (0xE0 + c / 4096) 0xE0); [n_arith|].
    all: destruct (N.ltb_spec (0xE0 + c / 4096) 0xF0); [|n_arith].
    all: replace ((0xE0 + c / 4096 - 0xE0) * 4096
                  + (0x80 + c / 64 mod 64 - 0x80) * 64
                  + (0x80 + c mod 64 - 0x80)) with c by n_arith.
    all: unfold is_cont, is_surrogate.
    all: destruct (N.leb_spec 0x80 (0x80 + c / 64 mod 64)); [|n_arith].
    all: destruct (N.ltb_spec (0x80 + c / 64 mod 64) 0xC0); [|n_arith].
    all: destruct (N.leb_spec 0x80 (0x80 + c mod 64)); [|n_arith].
    all: destruct (N.ltb_spec (0x80 + c mod 64) 0xC0); [|n_arith].
    all: destruct (N.leb_spec 0x800 c); [|lia].
    all: destruct (N.leb_spec 0xD800 c); [|try lia];
      try (destruct (N.leb_spec c 0xDFFF); [lia|]); reflexivity. }
  destruct (N.ltb_spec c 0x110000) as [H4|H4]; [|discriminate].
  intros [= <-]. cbn [app utf8_decode].
  destruct (N.ltb_spec (0xF0 + c / 262144) 0x80); [n_arith|].
  destruct (N.ltb_spec (0xF0 + c / 262144) 0xC2); [n_arith|].
  destruct (N.ltb_spec (0xF0 + c / 262144) 0xE0); [n_arith|].
  destruct (N.ltb_spec (0xF0 + c / 262144) 0xF0); [n_arith|].
  destruct (N.ltb_spec (0xF0 + c / 262144) 0xF5); [|n_arith].
  replace ((0xF0 + c / 262144 - 0xF0) * 262144
           + (0x80 + c / 4096 mod 64 - 0x80) * 4096
           + (0x80 + c / 64 mod 64 - 0x80) * 64
           + (0x80 + c mod 64 - 0x80)) with c by n_arith.
  unfold is_cont.
  destruct (N.leb_spec 0x80 (0x80 + c / 4096 mod 64)); [|n_arith].
  destruct (N.ltb_spec (0x80 + c / 4096 mod 64) 0xC0); [|n_arith].
  destruct (N.leb_spec 0x80 (0x80 + c / 64 mod 64)); [|n_arith].
  destruct (N.ltb_spec (0x80 + c / 64 mod 64) 0xC0); [|n_arith].
  destruct (N.leb_spec 0x80 (0x80 + c mod 64)); [|n_arith].
  destruct (N.ltb_spec (0x80 + c mod 64) 0xC0); [|n_arith].
  destruct (N.leb_spec 0x10000 c); [|lia].
  destruct (N.ltb_spec c 0x110000); [|lia].
  reflexivity.
Qed.

(** Decoding the bytes of an encoded text gives the text back. *)
Lemma utf8_round_trip s b : utf8_encode s = Ok b -> utf8_decode b = Ok s.
Proof.
  revert b. induction s as [|c s IH]; intros b; cbn [utf8_encode].
  - now intros [= <-].
  - destruct (utf8_encode_char c) as [bs|] eqn:Hc; [|discriminate].
    destruct (utf8_encode s) as [b'|]; cbn [bind]; [|discriminate].
    intros [= <-]. rewrite (utf8_char_round_trip _ _ _ Hc).
    now rewrite (IH b' eq_refl).
Qed.

(** ** Strings *)

Lemma below_32 c : c < 32 -> In c (map N.of_nat (seq 0 32)).
Proof.
  intros H. apply in_map_iff. exists (N.to_nat c). split; [lia|].
  apply in_seq. lia.
Qed.

(** Scanning an escaped character gives the character back. *)
Lemma scanstring_escape_char c tail :
  scanstring (escape_char c ++ tail)
  = let* '(str, rest) := scanstring tail in Ok (c :: str, rest).
Proof.
  destruct (N.ltb_spec c 32) as [Hlow|Hhigh].
  - apply below_32 in Hlow. cbn in Hlow.
    repeat (destruct Hlow as [<- | Hlow]; [reflexivity|]). destruct Hlow.
  - unfold escape_char.
    destruct (N.eqb_spec c 34) as [->|H34]; [reflexivity|].
    destruct (N.eqb_spec c 92) as [->|H92]; [reflexivity|].
    destruct (N.eqb_spec c 10); [lia|]. destruct (N.eqb_spec c 13); [lia|].
    destruct (N.eqb_spec c 9); [lia|]. destruct (N.eqb_spec c 8); [lia|].
    destruct (N.eqb_spec c 12); [lia|].
    destruct (N.ltb_spec c 32); [lia|].
    cbn [app scanstring].
    destruct (N.eqb_spec c 34); [contradiction|].
    destruct (N.eqb_spec c 92); [contradiction|].
    destruct (N.ltb_spec c 32); [lia|]. reflexivity.
Qed.

Lemma scanstring_escaped s rest :
  scanstring (flat_map escape_char s ++ 34 :: rest) = Ok (s, rest).
Proof.
  induction s as [|c s IH]; [reflexivity|].
  cbn [flat_map]. rewrite <- app_assoc, scanstring_escape_char, IH.
  reflexivity.
Qed.

(** ** Integers *)

Lemma is_digit_cases c :
  is_digit c = true -> In c [48; 49; 50; 51; 52; 53; 54; 55; 56; 57].
Proof.
  unfold is_digit. rewrite andb_true_iff, !N.leb_le. intros [H1 H2].
  assert (H : In (N.to_nat c) (seq 48 10)) by (apply in_seq; lia).
  apply (in_map N.of_nat) in H. rewrite N2Nat.id in H. exact H.
Qed.

Lemma uint_of_chars_chars u : uint_of_chars (uint_chars u) = u.
Proof. induction u; cbn; now f_equal. Qed.

Lemma uint_chars_digits u : forallb is_digit (uint_chars u) = true.
Proof. induction u; cbn; auto. Qed.

Lemma span_digits_chars u rest :
  match rest with [] => True | c :: _ => is_digit c = false end ->
  span_digits (uint_chars u ++ rest) = (uint_chars u, rest).
Proof.
  intros Hrest. induction u; cbn; try (rewrite IHu; reflexivity).
  destruct rest as [|c r]; [reflexivity|]. cbn. now rewrite Hrest.
Qed.

Lemma nzhead_not_D0 u x : Decimal.nzhead u <> Decimal.D0 x.
Proof. induction u; cbn; try discriminate. exact IHu. Qed.

(** The decimal digits of a positive number do not start with a zero. *)
Lemma to_uint_head p :
  exists c cs, uint_chars (Pos.to_uint p) = c :: cs
    /\ is_digit c = true /\ c <> 48.
Proof.
  pose proof (DecimalPos.Unsigned.to_of (Pos.to_uint p)) as H.
  rewrite DecimalPos.Unsigned.of_to in H. cbn [N.to_uint] in H.
  pose proof (DecimalPos.Unsigned.to_uint_nonnil p) as Hnil.
  destruct (Pos.to_uint p) as [|u|u|u|u|u|u|u|u|u|u] eqn:E;
    try (cbn; eexists _, _; split; [reflexivity|]; split; [reflexivity|lia]).
  { now destruct Hnil. }
  exfalso. rewrite DecimalFacts.unorm_D0 in H. unfold Decimal.unorm in H.
  destruct (Decimal.nzhead u) eqn:En; try discriminate.
  - injection H as Hu. subst u.
    now apply (DecimalPos.Unsigned.to_uint_nonzero p).
  - now apply (nzhead_not_D0 u u0).
Qed.

Lemma delimited_not_digit rest :
  delimited rest -> match rest with [] => True | c :: _ => is_digit c = false end.
Proof. destruct rest as [|c r]; [easy|]. intros [-> | ->]; reflexivity. Qed.

Lemma match_frac_delimited rest : delimited rest -> match_frac rest = None.
Proof.
  destruct rest as [|c [|d r]]; try reflexivity.
  intros [-> | ->]; reflexivity.
Qed.

Lemma match_exp_delimited rest : delimited rest -> match_exp rest = None.
Proof.
  destruct rest as [|c [|d r]]; try reflexivity.
  intros [-> | ->]; reflexivity.
Qed.

Lemma uint_chars_length u : length (uint_chars u) = Decimal.nb_digits u.
Proof. induction u; cbn; now f_equal. Qed.

Lemma match_number_digits p rest :
  delimited rest -> int_fits (Z.pos p) = true ->
  match_number (uint_chars (Pos.to_uint p) ++ rest) = Ok (VInt (Z.pos p), rest)
  /\ match_number (45 :: uint_chars (Pos.to_uint p) ++ rest)
     = Ok (VInt (Z.neg p), rest).
Proof.
  intros Hrest Hfit.
  destruct (to_uint_head p) as (c & cs & Hcs & Hd & Hnz).
  pose proof (span_digits_chars (Pos.to_uint p) rest
                (delimited_not_digit _ Hrest)) as Hspan.
  assert (Hval : digits_value_of (uint_chars (Pos.to_uint p)) = Z.pos p).
  { unfold digits_value_of. rewrite uint_of_chars_chars. unfold Z.of_uint.
    now rewrite DecimalPos.Unsigned.of_to. }
  assert (Hlen : (int_max_str_digits <? length (uint_chars (Pos.to_uint p)))%nat
                 = false).
  { rewrite uint_chars_length. apply Nat.ltb_ge.
    unfold int_fits in Hfit. cbn [Z.abs_N N.to_uint] in Hfit.
    now apply Nat.leb_le in Hfit. }
  assert (H45 : c <> 45).
  { intros ->. discriminate Hd. }
  rewrite Hcs in *. unfold match_number, match_int, number_tail. cbn [app].
  destruct (N.eqb_spec c 45); [contradiction|].
  destruct (N.eqb_spec 45 45); [|contradiction].
  destruct (N.eqb_spec c 48); [contradiction|].
  rewrite Hd. cbn [app] in Hspan. rewrite Hspan.
  rewrite (match_frac_delimited _ Hrest), (match_exp_delimited _ Hrest).
  rewrite Hlen, Hval. split; reflexivity.
Qed.

Lemma match_number_int_repr z rest :
  delimited rest -> int_fits z = true ->
  match_number (int_repr z ++ rest) = Ok (VInt z, rest).
Proof.
  intros Hrest Hfit. destruct z as [|p|p].
  - unfold match_number, match_int, number_tail.
    cbn [int_repr Z.to_int uint_chars N.to_uint app].
    cbn [N.eqb Pos.eqb].
    rewrite (match_frac_delimited _ Hrest), (match_exp_delimited _ Hrest).
    reflexivity.
  - apply (match_number_digits p rest Hrest Hfit).
  - apply (match_number_digits p rest Hrest). exact Hfit.
Qed.

(** The first character of a number: a digit, or a minus sign before a
    digit. *)
Lemma int_repr_head z :
  exists c cs, int_repr z = c :: cs
    /\ (is_digit c = true
        \/ (c = 45 /\ exists d ds, cs = d :: ds /\ is_digit d = true)).
Proof.
  destruct z as [|p|p].
  - exists 48, []. split; [reflexivity | now left].
  - destruct (to_uint_head p) as (c & cs & Hcs & Hd & _).
    exists c, cs. split; [exact Hcs | now left].
  - destruct (to_uint_head p) as (c & cs & Hcs & Hd & _).
    exists 45, (c :: cs). split; [unfold int_repr; cbn; now rewrite Hcs|].
    right. split; [reflexivity|]. now exists c, cs.
Qed.

Lemma scan_once_number n c cs :
  is_digit c = true
  \/ (c = 45 /\ exists d ds, cs = d :: ds /\ is_digit d = true) ->
  scan_once (S n) (c :: cs) = match_number (c :: cs).
Proof.
  intros [Hd | (-> & d & ds & -> & Hd)].
  - apply is_digit_cases in Hd. cbn in Hd.
    repeat (destruct Hd as [<- | Hd]; [reflexivity|]). destruct Hd.
  - apply is_digit_cases in Hd. cbn in Hd.
    repeat (destruct Hd as [<- | Hd]; [reflexivity|]). destruct Hd.
Qed.

(** ** Floats *)

Lemma float_same_eq a b : float_same a b = true -> a = b.
Proof.
  destruct a as [sa|sa| |sa ma ea], b as [sb|sb| |sb mb eb]; cbn;
    try discriminate; try reflexivity.
  - intros H. apply Bool.eqb_prop in H. now subst.
  - intros H. apply Bool.eqb_prop in H. now subst.
  - rewrite !andb_true_iff. intros [[H1 H2] H3].
    apply Bool.eqb_prop in H1. apply Pos.eqb_eq in H2. apply Z.eqb_eq in H3.
    now subst.
Qed.

(** What the matcher of numbers reads does not depend on the delimiter
    that follows the number. *)
Lemma span_digits_frame t rest :
  match rest with [] => True | c :: _ => is_digit c = false end ->
  span_digits (t ++ rest) = (fst (span_digits t), snd (span_digits t) ++ rest).
Proof.
  intros Hr. induction t as [|c t IH]; cbn [app span_digits].
  - destruct rest as [|x r]; [reflexivity|]. cbn. now rewrite Hr.
  - destruct (is_digit c); [|reflexivity]. rewrite IH.
    destruct (span_digits t). reflexivity.
Qed.

Lemma match_int_frame t rest :
  delimited rest ->
  match_int (t ++ rest) = (fst (match_int t), snd (match_int t) ++ rest).
Proof.
  intros Hrest. destruct t as [|c t].
  - destruct rest as [|x r]; [reflexivity|].
    destruct Hrest as [-> | ->]; reflexivity.
  - unfold match_int. cbn [app]. destruct (c =? 48); [reflexivity|].
    destruct (is_digit c); [|reflexivity].
    change (c :: t ++ rest) with ((c :: t) ++ rest).
    apply span_digits_frame. now apply delimited_not_digit.
Qed.

Lemma match_frac_frame r rest :
  delimited rest ->
  match_frac (r ++ rest)
  = option_map (fun p => (fst p, snd p ++ rest)) (match_frac r).
Proof.
  intros Hrest. destruct r as [|c [|d r]].
  - now apply match_frac_delimited.
  - destruct rest as [|x rest']; [reflexivity|]. cbn.
    destruct Hrest as [-> | ->]; cbn; now rewrite andb_false_r.
  - cbn [app match_frac]. destruct ((c =? 46) && is_digit d); [|reflexivity].
    cbn [option_map]. f_equal.
    change (d :: r ++ rest) with ((d :: r) ++ rest).
    apply span_digits_frame. now apply delimited_not_digit.
Qed.

Lemma match_exp_frame r rest :
  delimited rest ->
  match_exp (r ++ rest)
  = option_map (fun p => (fst p, snd p ++ rest)) (match_exp r).
Proof.
  intros Hrest.
  pose proof (delimited_not_digit _ Hrest) as Hnd.
  destruct r as [|c [|c1 r]].
  - now apply match_exp_delimited.
  - destruct rest as [|x rest']; [reflexivity|]. cbn.
    destruct ((c =? 101) || (c =? 69)); [|reflexivity].
    destruct Hrest as [-> | ->]; reflexivity.
  - cbn [app match_exp]. destruct ((c =? 101) || (c =? 69)); [|reflexivity].
    destruct r as [|y r].
    + cbn [app]. rewrite andb_false_r. destruct rest as [|x rest'].
      * rewrite andb_false_r.
        destruct (span_digits [c1]) as [[|? ?] ?]; cbn [option_map fst snd];
          rewrite ?app_nil_r; reflexivity.
      * rewrite andb_true_r.
        destruct ((c1 =? 45) || (c1 =? 43)) eqn:Hsign.
        -- assert (Hc1 : is_digit c1 = false).
           { apply orb_true_iff in Hsign.
             destruct Hsign as [H | H]; apply N.eqb_eq in H; now subst. }
           cbn [span_digits]. rewrite Hnd, Hc1. reflexivity.
        -- change (c1 :: x :: rest') with ([c1] ++ x :: rest').
           rewrite span_digits_frame by exact Hnd.
           now destruct (span_digits [c1]) as [[|? ?] ?].
    + cbn [app]. rewrite !andb_true_r.
      destruct ((c1 =? 45) || (c1 =? 43)).
      * change (y :: r ++ rest) with ((y :: r) ++ rest).
        rewrite span_digits_frame by exact Hnd.
        now destruct (span_digits (y :: r)) as [[|? ?] ?].
      * change (c1 :: y :: r ++ rest) with ((c1 :: y :: r) ++ rest).
        rewrite span_digits_frame by exact Hnd.
        now destruct (span_digits (c1 :: y :: r)) as [[|? ?] ?].
Qed.

Lemma number_tail_frame neg ds r rest v r' :
  delimited rest -> number_tail neg ds r = Ok (v, r') ->
  number_tail neg ds (r ++ rest) = Ok (v, r' ++ rest).
Proof.
  intros Hrest. unfold number_tail.
  rewrite (match_frac_frame r rest Hrest), (match_exp_frame r rest Hrest).
  destruct (match_frac r) as [[fs r1]|]; cbn [option_map fst snd].
  - rewrite (match_exp_frame r1 rest Hrest).
    destruct (match_exp r1) as [[[eneg es] r2]|]; cbn [option_map fst snd];
      now intros [= <- <-].
  - destruct (match_exp r) as [[[eneg es] r2]|]; cbn [option_map fst snd].
    + now intros [= <- <-].
    + destruct (_ <? _)%nat; [discriminate|]. now intros [= <- <-].
Qed.

Lemma match_number_frame t rest v r :
  delimited rest -> match_number t = Ok (v, r) ->
  match_number (t ++ rest) = Ok (v, r ++ rest).
Proof.
  intros Hrest. unfold match_number.
  assert (Hcore : forall neg s1,
    (let '(ds, rest0) := match_int s1 in
     match ds with [] => Raise JSONDecodeError | _ => number_tail neg ds rest0 end)
    = Ok (v, r) ->
    (let '(ds, rest0) := match_int (s1 ++ rest) in
     match ds with [] => Raise JSONDecodeError | _ => number_tail neg ds rest0 end)
    = Ok (v, r ++ rest)).
  { intros neg s1. rewrite (match_int_frame s1 rest Hrest).
    destruct (match_int s1) as [[|d ds] r0]; cbn [fst snd]; [discriminate|].
    now apply number_tail_frame. }
  destruct t as [|c t]; [discriminate|]. cbn [app].
  destruct (c =? 45); [apply Hcore|]. apply (Hcore false (c :: t)).
Qed.

(** A text the matcher of numbers accepts starts with a digit, or with a
    minus sign before a digit. *)
Lemma match_number_head t v r :
  match_number t = Ok (v, r) ->
  exists c cs, t = c :: cs
    /\ (is_digit c = true
        \/ (c = 45 /\ exists d ds, cs = d :: ds /\ is_digit d = true)).
Proof.
  unfold match_number, match_int. destruct t as [|c t]; [discriminate|].
  intros H. exists c, t. split; [reflexivity|].
  destruct (N.eqb_spec c 45) as [-> | Hc].
  - right. split; [reflexivity|]. destruct t as [|d t]; [discriminate|].
    exists d, t. split; [reflexivity|].
    destruct (N.eqb_spec d 48) as [-> | _]; [reflexivity|].
    destruct (is_digit d); [reflexivity | discriminate].
  - left. destruct (N.eqb_spec c 48) as [-> | _]; [reflexivity|].
    destruct (is_digit c); [reflexivity | discriminate].
Qed.

(** The digits of a float are digits, one at least. *)
Lemma float_digits_digits x :
  exists c cs, fst (float_digits x) = c :: cs
    /\ forallb is_digit (c :: cs) = true.
Proof.
  destruct x as [s|s| |s m e]; try (exists 48, []; split; reflexivity).
  unfold float_digits. destruct (shortest _ _ _ _ _ _ _) as [dg sg].
  destruct (strip_zeros 17 dg sg) as [d s']. cbn [fst].
  destruct (to_uint_head (Z.to_pos d)) as (c & cs & Hcs & _).
  exists c, cs. split; [exact Hcs|]. rewrite <- Hcs. apply uint_chars_digits.
Qed.

Lemma number_char_digits cs :
  forallb is_digit cs = true -> forallb number_char cs = true.
Proof.
  induction cs as [|c cs IH]; [reflexivity|]. cbn [forallb].
  rewrite !andb_true_iff. intros [Hc Hcs]. split; [|now apply IH].
  unfold number_char. now rewrite Hc.
Qed.

Lemma forallb_take {A} (f : A -> bool) n l :
  forallb f l = true -> forallb f (take n l) = true.
Proof.
  revert n. induction l as [|a l IH]; intros [|n]; cbn; try reflexivity.
  rewrite !andb_true_iff. intros [Ha Hl]. split; [exact Ha | now apply IH].
Qed.

Lemma forallb_drop {A} (f : A -> bool) n l :
  forallb f l = true -> forallb f (drop n l) = true.
Proof.
  revert n. induction l as [|a l IH]; intros [|n]; cbn; try reflexivity;
    try (intros H; exact H).
  rewrite !andb_true_iff. intros [Ha Hl]. now apply IH.
Qed.

Lemma forallb_repeat {A} (f : A -> bool) a n :
  f a = true -> forallb f (repeat a n) = true.
Proof. intros Ha. induction n as [|n IH]; cbn; [reflexivity|]. now rewrite Ha. Qed.

Lemma forallb_app_true {A} (f : A -> bool) l1 l2 :
  forallb f l1 = true -> forallb f l2 = true -> forallb f (l1 ++ l2) = true.
Proof. intros H1 H2. rewrite forallb_app, H1, H2. reflexivity. Qed.

Lemma forallb_cons_true {A} (f : A -> bool) a l :
  f a = true -> forallb f l = true -> forallb f (a :: l) = true.
Proof. intros H1 H2. cbn. now rewrite H1, H2. Qed.

Ltac number_text :=
  repeat match goal with
    | |- forallb number_char (_ ++ _) = true => apply forallb_app_true
    | |- forallb number_char ((if ?b then _ else _) :: _) = true => destruct b
    | |- forallb number_char (_ :: _) = true =>
        apply forallb_cons_true; [reflexivity|]
    | |- forallb number_char (take _ _) = true => apply forallb_take
    | |- forallb number_char (drop _ _) = true => apply forallb_drop
    | |- forallb number_char (repeat _ _) = true =>
        apply forallb_repeat; reflexivity
    | |- forallb number_char (uint_chars _) = true =>
        apply number_char_digits, uint_chars_digits
    | |- forallb number_char (if ?b then _ else _) = true => destruct b
    | |- forallb number_char [] = true => reflexivity
    | |- _ => assumption
    end.

(** The text of a float that is a number is made of digits, signs, a
    point and the letter e, and starts with a digit or a minus sign. *)
Lemma float_repr_chars x :
  is_nan x = false -> (forall s, x <> S754_infinity s) ->
  forallb number_char (float_repr x) = true
  /\ exists c cs, float_repr x = c :: cs /\ (is_digit c = true \/ c = 45).
Proof.
  intros Hnan Hinf. destruct x as [s|s| |s m e];
    [| now destruct (Hinf s) | discriminate |].
  - destruct s; (split; [reflexivity|]); eexists _, _;
      (split; [reflexivity|]); [now right | now left].
  - destruct (float_digits_digits (S754_finite s m e)) as (c & cs & Hds & Hdig).
    unfold float_repr. destruct (float_digits (S754_finite s m e)) as [ds decpt].
    cbn [fst] in Hds. subst ds.
    pose proof (number_char_digits _ Hdig) as Hnum.
    assert (Hc : is_digit c = true).
    { cbn [forallb] in Hdig. now apply andb_true_iff in Hdig. }
    split.
    + unfold sign_text, exponent_text. number_text.
    + unfold sign_text. destruct s; [eexists _, _; split; [reflexivity | now right]|].
      cbn [app]. destruct ((decpt <=? -4)%Z || (16 <? decpt)%Z).
      { eexists _, _. split; [reflexivity | now left]. }
      destruct (Z.leb_spec decpt 0) as [|Hpos].
      { eexists _, _. split; [reflexivity | now left]. }
      destruct (_ <=? _)%Z.
      { eexists _, _. split; [reflexivity | now left]. }
      destruct (Z.to_nat decpt) as [|n] eqn:Hn; [lia|].
      eexists _, _. split; [reflexivity | now left].
Qed.

Lemma float_text_head f :
  exists c cs, float_text f = c :: cs /\ In c value_heads.
Proof.
  destruct f as [s|[]| |s m e];
    try (eexists _, _; split; [reflexivity | cbn; tauto]).
  - destruct s; eexists _, _; (split; [reflexivity | cbn; tauto]).
  - destruct (float_repr_chars (S754_finite s m e) eq_refl ltac:(discriminate))
      as (_ & c & cs & Hx & Hc).
    exists c, cs. split; [exact Hx|]. destruct Hc as [Hd | ->]; [|cbn; tauto].
    apply is_digit_cases in Hd. cbn in Hd |- *. tauto.
Qed.

(** The decoder reads a float that reads back from its text, whatever
    delimited text follows. *)
Lemma scan_once_float f rest n :
  float_reads_back f = true -> delimited rest ->
  scan_once (S n) (float_text f ++ rest) = Ok (VFloat f, rest).
Proof.
  intros Hf Hrest.
  assert (Hnum : match match_number (float_repr f) with
                 | Ok (VFloat g, []) => float_same g f
                 | _ => false
                 end = true ->
                 scan_once (S n) (float_repr f ++ rest) = Ok (VFloat f, rest)).
  { destruct (match_number (float_repr f)) as [[v r]|] eqn:Hm; [|discriminate].
    destruct v as [ | | |g| | |]; try discriminate.
    destruct r as [|? ?]; [|discriminate]. intros Hg.
    apply float_same_eq in Hg. subst g.
    pose proof (match_number_frame _ rest _ _ Hrest Hm) as Hfr.
    cbn [app] in Hfr. destruct (match_number_head _ _ _ Hm) as (c & cs & Ht & Hhead).
    refine (eq_trans _ Hfr). rewrite Ht. cbn [app]. apply scan_once_number.
    destruct Hhead as [Hd | (-> & d & ds & -> & Hd)]; [now left|].
    right. split; [reflexivity|]. now exists d, (ds ++ rest). }
  destruct f as [s|[]| |s m e]; try discriminate; try reflexivity;
    now apply Hnum.
Qed.

(** ** Structure of the text *)

Lemma value_ind' (P : value -> Prop) :
  P VNone -> (forall b, P (VBool b)) -> (forall z, P (VInt z)) ->
  (forall f, P (VFloat f)) -> (forall s, P (VStr s)) ->
  (forall l, Forall P l -> P (VList l)) ->
  (forall d, Forall (fun kv => P (snd kv)) d -> P (VDict d)) ->
  forall v, P v.
Proof.
  intros HN HB HI HF HS HL HD.
  fix IH 1. intros [ |b|z|f|s|l|d].
  - exact HN.
  - apply HB.
  - apply HI.
  - apply HF.
  - apply HS.
  - apply HL. induction l as [|x l IHl]; constructor; [apply IH | exact IHl].
  - apply HD. induction d as [|[k x] d IHd]; constructor;
      [apply IH | exact IHd].
Qed.

Lemma encode_head lvl v :
  exists c cs, encode lvl v = c :: cs /\ In c value_heads.
Proof.
  destruct v as [ |[]|z|f|s|[|x l]|[|[k x] d]];
    try (eexists _, _; split; [reflexivity | cbn; tauto]).
  - cbn [encode]. destruct (int_repr_head z) as (c & cs & -> & [Hd | [-> _]]).
    + exists c, cs. split; [reflexivity|].
      apply is_digit_cases in Hd. cbn in Hd |- *. tauto.
    + eexists _, _. split; [reflexivity | cbn; tauto].
  - apply float_text_head.
Qed.

Lemma skip_ws_head c s : is_ws c = false -> skip_ws (c :: s) = c :: s.
Proof. intros H. cbn. now rewrite H. Qed.

Lemma skip_ws_newline_indent k s :
  skip_ws (newline_indent k ++ s) = skip_ws s.
Proof.
  unfold newline_indent. cbn [app skip_ws is_ws N.eqb Pos.eqb orb].
  induction (2 * k)%nat as [|n IH]; [reflexivity | exact IH].
Qed.

Lemma value_heads_facts c :
  In c value_heads ->
  is_ws c = false /\ (c =? 93) = false /\ (c =? 125) = false
  /\ (c =? 0xFEFF) = false /\ c <> 13.
Proof.
  intros H. cbn in H.
  repeat (destruct H as [<- | H]; [repeat split; easy|]). destruct H.
Qed.

Lemma skip_ws_encode lvl v t : skip_ws (encode lvl v ++ t) = encode lvl v ++ t.
Proof.
  destruct (encode_head lvl v) as (c & cs & -> & Hc).
  apply skip_ws_head. now apply value_heads_facts.
Qed.

Lemma encode_list lvl x xs :
  encode lvl (VList (x :: xs))
  = 91 :: newline_indent (S lvl) ++ encode (S lvl) x
    ++ flat_map (item_text lvl) xs ++ newline_indent lvl ++ [93].
Proof. reflexivity. Qed.

Lemma encode_dict lvl k v kvs :
  encode lvl (VDict ((k, v) :: kvs))
  = 123 :: newline_indent (S lvl) ++ encode_basestring k
    ++ 58 :: 32 :: encode (S lvl) v
    ++ flat_map (entry_text lvl) kvs ++ newline_indent lvl ++ [125].
Proof. reflexivity. Qed.

Lemma parse_array_encoded xs : forall x acc lvl rest fuel,
  Forall reads_back (x :: xs) ->
  (list_sum (map (fun y => S (need y)) (x :: xs)) <= fuel)%nat ->
  parse_array fuel
    (encode (S lvl) x ++ flat_map (item_text lvl) xs
     ++ newline_indent lvl ++ 93 :: rest) acc
  = Ok (VList (acc ++ x :: xs), rest).
Proof.
  induction xs as [|y ys IH]; intros x acc lvl rest fuel HF Hfuel;
    inversion HF as [|? ? Hx HF']; subst; simpl in Hfuel;
    (destruct fuel as [|n]; [lia|]); cbn [parse_array flat_map].
  - rewrite Hx; [|lia|now left]. cbn [bind app].
    rewrite skip_ws_newline_indent. cbn. reflexivity.
  - unfold item_text at 1. cbn [app]. rewrite <- !app_assoc.
    rewrite Hx; [|lia|now right]. cbn [bind].
    cbn [skip_ws is_ws N.eqb Pos.eqb orb].
    rewrite skip_ws_newline_indent, skip_ws_encode.
    rewrite IH; [|exact HF'|simpl; lia].
    now rewrite <- app_assoc.
Qed.

Lemma distinct_NoDup ks : distinct ks = true <-> NoDup ks.
Proof.
  induction ks as [|k ks IH]; cbn.
  - split; [constructor | reflexivity].
  - rewrite andb_true_iff, negb_true_iff, IH, NoDup_cons. 
    assert (H : existsb (pystr_eqb k) ks = false <-> k ∉ ks); [|tauto].
    rewrite <- not_true_iff_false, existsb_exists. split.
    + intros Hn Hin. apply Hn. exists k. split; [|apply pystr_eqb_refl].
      now apply list_elem_of_In.
    + intros Hn (x & Hx & Heq). apply pystr_eqb_eq in Heq. subst x.
      apply Hn. now apply list_elem_of_In.
Qed.

Lemma dict_set_fresh k v acc :
  k ∉ map fst acc -> dict_set k v acc = acc ++ [(k, v)].
Proof.
  induction acc as [|[k' v'] acc IH]; cbn; [reflexivity|].
  rewrite not_elem_of_cons. intros [Hne Hnin].
  rewrite pystr_eqb_neq by exact Hne. now rewrite IH.
Qed.

Lemma parse_object_encoded kvs : forall k v acc lvl rest fuel,
  Forall (fun kv => reads_back (snd kv)) ((k, v) :: kvs) ->
  NoDup (map fst acc ++ k :: map fst kvs) ->
  (list_sum (map (fun kv => S (need (snd kv))) ((k, v) :: kvs)) <= fuel)%nat ->
  parse_object fuel
    (encode_basestring k ++ 58 :: 32 :: encode (S lvl) v
     ++ flat_map (entry_text lvl) kvs ++ newline_indent lvl ++ 125 :: rest) acc
  = Ok (VDict (acc ++ (k, v) :: kvs), rest).
Proof.
  induction kvs as [|[k' v'] kvs IH]; intros k v acc lvl rest fuel HF Hnd Hfuel;
    inversion HF as [|? ? Hv HF']; subst; simpl in Hfuel, Hv;
    (destruct fuel as [|n]; [lia|]);
    assert (Hfresh : k ∉ map fst acc)
      by (apply NoDup_app in Hnd; destruct Hnd as (_ & Hd & _);
          intros Hin; apply (Hd k Hin); now left);
    unfold encode_basestring; cbn [parse_object flat_map app N.eqb Pos.eqb];
    rewrite <- app_assoc; cbn [app]; rewrite scanstring_escaped; cbn [bind app];
    cbn [skip_ws is_ws N.eqb Pos.eqb orb].
  - rewrite skip_ws_encode, Hv; [|lia|now left]. cbn [bind].
    rewrite skip_ws_newline_indent. cbn [skip_ws is_ws N.eqb Pos.eqb orb].
    now rewrite dict_set_fresh.
  - unfold entry_text at 1. cbn [fst snd app]. rewrite <- !app_assoc.
    cbn [app].
    rewrite skip_ws_encode, Hv; [|lia|now right]. cbn [bind].
    cbn [skip_ws is_ws N.eqb Pos.eqb orb].
    rewrite skip_ws_newline_indent.
    rewrite dict_set_fresh by exact Hfresh.
    assert (Hq : forall t, skip_ws (encode_basestring k' ++ t)
                           = encode_basestring k' ++ t)
      by (intros t; now apply skip_ws_head).
    rewrite Hq.
    rewrite IH; [now rewrite <- app_assoc | exact HF' | | simpl; lia].
    rewrite map_app. cbn [map fst]. rewrite <- app_assoc. exact Hnd.
Qed.

(** The decoder reads back from its text every value whose dicts have no
    key twice, whose ints are within the digit limit and whose floats read
    back. *)
Lemma scan_once_encode v :
  keys_unique v = true -> digits_ok v = true -> floats_read_back v = true ->
  reads_back v.
Proof.
  induction v as [ |b|z|f|s|l IHl|d IHd] using value_ind';
    intros Hk Hdg Hfl lvl rest fuel Hfuel Hrest;
    (destruct fuel as [|n]; [cbn in Hfuel; lia|]).
  - reflexivity.
  - destruct b; reflexivity.
  - cbn [encode]. cbn [digits_ok] in Hdg.
    destruct (int_repr_head z) as (c & cs & Hz & Hhead).
    refine (eq_trans _ (match_number_int_repr z rest Hrest Hdg)).
    rewrite Hz. cbn [app]. apply scan_once_number.
    destruct Hhead as [Hd | (-> & d & ds & -> & Hd)]; [now left|].
    right. split; [reflexivity|]. now exists d, (ds ++ rest).
  - cbn [encode]. now apply scan_once_float.
  - cbn [encode]. unfold encode_basestring.
    cbn [app scan_once N.eqb Pos.eqb]. rewrite <- app_assoc. cbn [app].
    now rewrite scanstring_escaped.
  - destruct l as [|x xs]; [reflexivity|].
    rewrite encode_list. cbn [app scan_once N.eqb Pos.eqb].
    rewrite <- !app_assoc. cbn [app].
    rewrite skip_ws_newline_indent, skip_ws_encode.
    destruct (encode_head (S lvl) x) as (c & cs & Hx & Hc).
    apply value_heads_facts in Hc. destruct Hc as (_ & Hc & _).
    rewrite Hx at 1. cbn [app]. rewrite Hc.
    change (c :: cs ++ ?t) with ((c :: cs) ++ t). rewrite <- Hx.
    cbn [need] in Hfuel. cbn [keys_unique] in Hk.
    cbn [digits_ok] in Hdg. cbn [floats_read_back] in Hfl.
    rewrite parse_array_encoded; [reflexivity| |lia].
    rewrite Forall_forall in IHl |- *. intros y Hy.
    rewrite forallb_forall in Hk, Hdg, Hfl.
    apply list_elem_of_In in Hy as Hy'.
    apply IHl; [exact Hy | now apply Hk | now apply Hdg | now apply Hfl].
  - destruct d as [|[k v] kvs]; [reflexivity|].
    rewrite encode_dict. cbn [app scan_once N.eqb Pos.eqb].
    rewrite <- !app_assoc. cbn [app].
    rewrite skip_ws_newline_indent.
    unfold encode_basestring at 1. cbn [app skip_ws is_ws N.eqb Pos.eqb orb].
    change (34 :: (flat_map escape_char k ++ [34]) ++ ?t)
      with (encode_basestring k ++ t).
    cbn [need] in Hfuel. cbn [keys_unique] in Hk.
    cbn [digits_ok] in Hdg. cbn [floats_read_back] in Hfl.
    apply andb_true_iff in Hk. destruct Hk as [Hnd Hk].
    rewrite <- !app_assoc. cbn [app].
    rewrite (parse_object_encoded kvs k v []); [reflexivity| | |lia].
    + rewrite Forall_forall in IHd |- *. intros kv Hkv.
      rewrite forallb_forall in Hk, Hdg, Hfl.
      apply list_elem_of_In in Hkv as Hkv'.
      apply IHd; [exact Hkv | now apply Hk | now apply Hdg | now apply Hfl].
    + apply distinct_NoDup in Hnd. exact Hnd.
Qed.

Lemma list_sum_cons a l : list_sum (a :: l) = (a + list_sum l)%nat.
Proof. reflexivity. Qed.

Lemma need_length v : forall lvl, (need v <= length (encode lvl v))%nat.
Proof.
  induction v as [ |b|z|f|s|l IHl|d IHd] using value_ind'; intros lvl.
  - cbn. lia.
  - destruct b; cbn; lia.
  - destruct (encode_head lvl (VInt z)) as (c & cs & -> & _). cbn. lia.
  - destruct (encode_head lvl (VFloat f)) as (c & cs & -> & _). cbn. lia.
  - cbn. lia.
  - destruct l as [|x xs]; [cbn; lia|].
    rewrite encode_list. cbn [need map length]. rewrite list_sum_cons.
    rewrite !length_app. cbn [newline_indent length].
    inversion IHl as [|? ? Hx Hxs]; subst. specialize (Hx (S lvl)).
    assert (Hsum : (list_sum (map (fun y => S (need y)) xs)
                    <= length (flat_map (item_text lvl) xs))%nat).
    { clear Hx IHl. induction Hxs as [|y ys Hy Hys IH]; [cbn; lia|].
      cbn [map flat_map]. rewrite list_sum_cons, length_app.
      unfold item_text at 1. cbn [length]. rewrite length_app.
      specialize (Hy (S lvl)). lia. }
    lia.
  - destruct d as [|[k v] kvs]; [cbn; lia|].
    rewrite encode_dict. cbn [need map length snd]. rewrite list_sum_cons.
    rewrite !length_app. cbn [newline_indent length]. rewrite !length_app.
    inversion IHd as [|? ? Hv Hkvs]; subst. cbn [snd] in Hv.
    specialize (Hv (S lvl)).
    assert (Hsum : (list_sum (map (fun kv => S (need (snd kv))) kvs)
                    <= length (flat_map (entry_text lvl) kvs))%nat).
    { clear Hv IHd. induction Hkvs as [|y ys Hy Hys IH]; [cbn; lia|].
      cbn [map flat_map]. rewrite list_sum_cons, length_app.
      unfold entry_text at 1. cbn [length]. rewrite !length_app. cbn [length].
      specialize (Hy (S lvl)). lia. }
    lia.
Qed.

(** [json.loads] undoes [json.dumps]. *)
Lemma loads_dumps v :
  keys_unique v = true -> digits_ok v = true -> floats_read_back v = true ->
  loads (dumps v) = Ok v.
Proof.
  intros Hk Hdg Hfl. unfold loads, dumps.
  destruct (encode_head 0 v) as (c & cs & Hv & Hc).
  apply value_heads_facts in Hc. destruct Hc as (Hws & _ & _ & Hbom & _).
  assert (Hstart : starts_with [0xFEFF] (encode 0 v) = false).
  { rewrite Hv. unfold starts_with. cbn. rewrite Hbom. reflexivity. }
  rewrite Hstart.
  assert (Hskip : skip_ws (encode 0 v) = encode 0 v).
  { rewrite Hv. now apply skip_ws_head. }
  rewrite Hskip.
  pose proof (scan_once_encode v Hk Hdg Hfl 0%nat []
                (2 * S (length (encode 0 v)))%nat) as H.
  rewrite app_nil_r in H. rewrite H; [reflexivity| |exact I].
  pose proof (need_length v 0). lia.
Qed.

(** ** Values that come out of the decoder and of the transformer *)

Lemma dict_set_distinct k v acc :
  distinct (map fst acc) = true -> distinct (map fst (dict_set k v acc)) = true.
Proof.
  rewrite !distinct_NoDup.
  induction acc as [|[k' v'] acc IH]; cbn [dict_set map fst].
  - intros _. apply NoDup_singleton.
  - rewrite NoDup_cons. intros [Hnin Hnd].
    destruct (pystr_eqb k k') eqn:E; cbn [map fst].
    + now apply NoDup_cons.
    + apply NoDup_cons. split; [|now apply IH].
      assert (Hne : k <> k').
      { intros ->. now rewrite pystr_eqb_refl in E. }
      clear IH Hnd E. induction acc as [|[k2 v2] acc IH2]; cbn [dict_set map fst].
      * rewrite list_elem_of_singleton. congruence.
      * cbn [map fst] in Hnin. rewrite not_elem_of_cons in Hnin.
        destruct Hnin as [Hn1 Hn2].
        destruct (pystr_eqb k k2); cbn [map fst]; rewrite not_elem_of_cons;
          (split; [exact Hn1|]); [exact Hn2 | now apply IH2].
Qed.

Lemma dict_set_values k v acc :
  keys_unique v = true ->
  forallb (fun kv => keys_unique (snd kv)) acc = true ->
  forallb (fun kv => keys_unique (snd kv)) (dict_set k v acc) = true.
Proof.
  intros Hv. induction acc as [|[k' v'] acc IH]; cbn [dict_set forallb snd].
  - intros _. now rewrite Hv.
  - rewrite andb_true_iff. intros [Hv' Hacc].
    destruct (pystr_eqb k k'); cbn [forallb snd].
    + now rewrite Hv, Hacc.
    + now rewrite Hv', IH.
Qed.

Lemma nb_digits_uint_of_chars ds :
  Decimal.nb_digits (uint_of_chars ds) = length ds.
Proof.
  induction ds as [|c ds IH]; [reflexivity|]. cbn [uint_of_chars length].
  repeat destruct (c =? _); cbn [Decimal.nb_digits]; now f_equal.
Qed.

(** An int written on no more digits than the limit is within it. *)
Lemma int_fits_digits (neg : bool) ds :
  (length ds <= int_max_str_digits)%nat ->
  int_fits (if neg then (- digits_value_of ds)%Z else digits_value_of ds)
  = true.
Proof.
  intros Hlen. unfold int_fits, digits_value_of, Z.of_uint.
  assert (Habs : Z.abs_N (if neg then (- Z.of_N (Pos.of_uint (uint_of_chars ds)))%Z
                          else Z.of_N (Pos.of_uint (uint_of_chars ds)))
                 = N.of_uint (uint_of_chars ds)).
  { destruct neg; rewrite ?Zabs2N.inj_opp, Zabs2N.id; reflexivity. }
  rewrite Habs, DecimalN.Unsigned.to_of. apply Nat.leb_le.
  destruct ds as [|c ds]; [cbn; unfold int_max_str_digits; lia|].
  etransitivity; [apply DecimalFacts.nb_digits_unorm|].
  - cbn [uint_of_chars]. repeat destruct (c =? _); discriminate.
  - now rewrite nb_digits_uint_of_chars.
Qed.

(** What the matcher of numbers returns: an int within the digit limit, or
    a float. *)
Lemma match_number_atom s v rest :
  match_number s = Ok (v, rest) ->
  (exists z, v = VInt z /\ int_fits z = true) \/ (exists f, v = VFloat f).
Proof.
  unfold match_number.
  destruct (match s with [] => _ | _ => _ end) as [neg s1].
  destruct (match_int s1) as [[|d ds] rest']; [discriminate|].
  unfold number_tail.
  destruct (match_frac rest') as [[fs r1]|].
  { destruct (match match_exp r1 with Some _ => _ | None => _ end) as [ex r2].
    intros [= <- _]. right. eauto. }
  destruct (match_exp rest') as [[[eneg es] r2]|].
  { intros [= <- _]. right. eauto. }
  destruct (Nat.ltb_spec int_max_str_digits (length (d :: ds)));
    [discriminate|].
  intros [= <- _]. left. eexists. split; [reflexivity|].
  now apply int_fits_digits.
Qed.

Lemma match_number_keys_unique s v rest :
  match_number s = Ok (v, rest) -> keys_unique v = true.
Proof.
  intros H. apply match_number_atom in H.
  destruct H as [(z & -> & _) | (f & ->)]; reflexivity.
Qed.

Lemma match_number_digits_ok s v rest :
  match_number s = Ok (v, rest) -> digits_ok v = true.
Proof.
  intros H. apply match_number_atom in H.
  destruct H as [(z & -> & Hz) | (f & ->)]; [exact Hz | reflexivity].
Qed.

Lemma scan_keys_unique fuel :
  (forall s v rest, scan_once fuel s = Ok (v, rest) -> keys_unique v = true)
  /\ (forall s acc v rest, forallb keys_unique acc = true ->
        parse_array fuel s acc = Ok (v, rest) -> keys_unique v = true)
  /\ (forall s acc v rest, keys_unique (VDict acc) = true ->
        parse_object fuel s acc = Ok (v, rest) -> keys_unique v = true).
Proof.
  induction fuel as [|n (IHs & IHa & IHo)]; [repeat split; discriminate|].
  split; [|split].
  - intros s v rest. cbn [scan_once]. destruct s as [|c r]; [discriminate|].
    destruct (c =? 34).
    { destruct (scanstring r) as [[str rest']|]; cbn [bind]; [|discriminate].
      now intros [= <- _]. }
    destruct (c =? 123).
    { destruct (skip_ws r) as [|c' r']; [discriminate|].
      destruct (c' =? 125); [now intros [= <- _]|]. now apply IHo. }
    destruct (c =? 91).
    { destruct (skip_ws r) as [|c' r']; [discriminate|].
      destruct (c' =? 93); [now intros [= <- _]|]. now apply IHa. }
    do 6 (destruct (starts_with _ _); [now intros [= <- _]|]).
    apply match_number_keys_unique.
  - intros s acc v rest Hacc. cbn [parse_array].
    destruct (scan_once n s) as [[val rest']|] eqn:Hval; cbn [bind];
      [|discriminate].
    apply IHs in Hval.
    assert (Hacc' : forallb keys_unique (acc ++ [val]) = true).
    { rewrite forallb_app, Hacc. cbn. now rewrite Hval. }
    destruct (skip_ws rest') as [|c r]; [discriminate|].
    destruct (c =? 93); [now intros [= <- _]|].
    destruct (c =? 44); [|discriminate]. now apply IHa.
  - intros s acc v rest Hacc. cbn [parse_object].
    destruct s as [|c r]; [discriminate|].
    destruct (c =? 34); [|discriminate].
    destruct (scanstring r) as [[key rest1]|]; cbn [bind]; [|discriminate].
    destruct (skip_ws rest1) as [|c1 r1]; [discriminate|].
    destruct (c1 =? 58); [|discriminate].
    destruct (scan_once n (skip_ws r1)) as [[val rest2]|] eqn:Hval;
      cbn [bind]; [|discriminate].
    apply IHs in Hval.
    assert (Hacc' : keys_unique (VDict (dict_set key val acc)) = true).
    { cbn [keys_unique] in *. apply andb_true_iff in Hacc.
      destruct Hacc as [Hd Hv]. apply andb_true_iff. split.
      - now apply dict_set_distinct.
      - now apply dict_set_values. }
    destruct (skip_ws rest2) as [|c2 r2]; [discriminate|].
    destruct (c2 =? 125); [now intros [= <- _]|].
    destruct (c2 =? 44); [|discriminate]. now apply IHo.
Qed.

(** Every value [json.loads] returns has the invariant of Python dicts. *)
Lemma loads_keys_unique s v : loads s = Ok v -> keys_unique v = true.
Proof.
  unfold loads. destruct (starts_with _ _); [discriminate|].
  destruct (scan_once _ _) as [[obj rest]|] eqn:H; cbn [bind]; [|discriminate].
  destruct (skip_ws rest); [|discriminate]. intros [= <-].
  eapply (proj1 (scan_keys_unique _)). exact H.
Qed.

Lemma dict_set_digits_ok k v acc :
  digits_ok v = true ->
  forallb (fun kv => digits_ok (snd kv)) acc = true ->
  forallb (fun kv => digits_ok (snd kv)) (dict_set k v acc) = true.
Proof.
  intros Hv. induction acc as [|[k' v'] acc IH]; cbn [dict_set forallb snd].
  - intros _. now rewrite Hv.
  - rewrite andb_true_iff. intros [Hv' Hacc].
    destruct (pystr_eqb k k'); cbn [forallb snd].
    + now rewrite Hv, Hacc.
    + now rewrite Hv', IH.
Qed.

Lemma scan_digits_ok fuel :
  (forall s v rest, scan_once fuel s = Ok (v, rest) -> digits_ok v = true)
  /\ (forall s acc v rest, forallb digits_ok acc = true ->
        parse_array fuel s acc = Ok (v, rest) -> digits_ok v = true)
  /\ (forall s acc v rest, digits_ok (VDict acc) = true ->
        parse_object fuel s acc = Ok (v, rest) -> digits_ok v = true).
Proof.
  induction fuel as [|n (IHs & IHa & IHo)]; [repeat split; discriminate|].
  split; [|split].
  - intros s v rest. cbn [scan_once]. destruct s as [|c r]; [discriminate|].
    destruct (c =? 34).
    { destruct (scanstring r) as [[str rest']|]; cbn [bind]; [|discriminate].
      now intros [= <- _]. }
    destruct (c =? 123).
    { destruct (skip_ws r) as [|c' r']; [discriminate|].
      destruct (c' =? 125); [now intros [= <- _]|]. now apply IHo. }
    destruct (c =? 91).
    { destruct (skip_ws r) as [|c' r']; [discriminate|].
      destruct (c' =? 93); [now intros [= <- _]|]. now apply IHa. }
    do 6 (destruct (starts_with _ _); [now intros [= <- _]|]).
    apply match_number_digits_ok.
  - intros s acc v rest Hacc. cbn [parse_array].
    destruct (scan_once n s) as [[val rest']|] eqn:Hval; cbn [bind];
      [|discriminate].
    apply IHs in Hval.
    assert (Hacc' : forallb digits_ok (acc ++ [val]) = true).
    { rewrite forallb_app, Hacc. cbn. now rewrite Hval. }
    destruct (skip_ws rest') as [|c r]; [discriminate|].
    destruct (c =? 93); [now intros [= <- _]|].
    destruct (c =? 44); [|discriminate]. now apply IHa.
  - intros s acc v rest Hacc. cbn [parse_object].
    destruct s as [|c r]; [discriminate|].
    destruct (c =? 34); [|discriminate].
    destruct (scanstring r) as [[key rest1]|]; cbn [bind]; [|discriminate].
    destruct (skip_ws rest1) as [|c1 r1]; [discriminate|].
    destruct (c1 =? 58); [|discriminate].
    destruct (scan_once n (skip_ws r1)) as [[val rest2]|] eqn:Hval;
      cbn [bind]; [|discriminate].
    apply IHs in Hval.
    assert (Hacc' : digits_ok (VDict (dict_set key val acc)) = true).
    { cbn [digits_ok] in *. now apply dict_set_digits_ok. }
    destruct (skip_ws rest2) as [|c2 r2]; [discriminate|].
    destruct (c2 =? 125); [now intros [= <- _]|].
    destruct (c2 =? 44); [|discriminate]. now apply IHo.
Qed.

(** Every int [json.loads] returns is within the digit limit. *)
Lemma loads_digits_ok s v : loads s = Ok v -> digits_ok v = true.
Proof.
  unfold loads. destruct (starts_with _ _); [discriminate|].
  destruct (scan_once _ _) as [[obj rest]|] eqn:H; cbn [bind]; [|discriminate].
  destruct (skip_ws rest); [|discriminate]. intros [= <-].
  eapply (proj1 (scan_digits_ok _)). exact H.
Qed.

Lemma dict_lookup_keys_unique k d v :
  keys_unique (VDict d) = true -> dict_lookup k d = Some v ->
  keys_unique v = true.
Proof.
  cbn [keys_unique]. rewrite andb_true_iff. intros [_ Hd].
  induction d as [|[k' v'] d IH]; cbn [dict_lookup forallb snd] in *;
    [discriminate|].
  apply andb_true_iff in Hd. destruct Hd as [Hv' Hd].
  destruct (pystr_eqb k k'); [now intros [= <-] | now apply IH].
Qed.

Lemma field_keys_unique d k :
  keys_unique (VDict d) = true -> keys_unique (field d k) = true.
Proof.
  intros Hd. unfold field. destruct (dict_lookup k d) eqn:E; [|reflexivity].
  cbn [default]. eapply dict_lookup_keys_unique; eassumption.
Qed.

Lemma dict_lookup_digits_ok k d v :
  digits_ok (VDict d) = true -> dict_lookup k d = Some v ->
  digits_ok v = true.
Proof.
  cbn [digits_ok].
  induction d as [|[k' v'] d IH]; cbn [dict_lookup forallb snd] in *;
    [discriminate|].
  rewrite andb_true_iff. intros [Hv' Hd].
  destruct (pystr_eqb k k'); [now intros [= <-] | now apply IH].
Qed.

Lemma field_digits_ok d k :
  digits_ok (VDict d) = true -> digits_ok (field d k) = true.
Proof.
  intros Hd. unfold field. destruct (dict_lookup k d) eqn:E; [|reflexivity].
  cbn [default]. eapply dict_lookup_digits_ok; eassumption.
Qed.

Lemma process_product_keys_unique pad tz p r :
  keys_unique p = true -> process_product pad tz p = Ok r ->
  keys_unique (VDict r) = true.
Proof.
  intros Hp. destruct p as [ | | | | | |d]; try discriminate.
  rewrite process_product_dict.
  destruct (format_timestamp pad tz _); cbn [bind]; [|discriminate].
  intros [= <-]. cbn [keys_unique map fst snd forallb].
  rewrite !(field_keys_unique d) by exact Hp. reflexivity.
Qed.

(** The records the transformer makes from such a document have it too. *)
Lemma process_data_keys_unique pad tz data products :
  keys_unique data = true -> process_data pad tz data = Ok products ->
  keys_unique (VList (map VDict products)) = true.
Proof.
  intros Hdata. unfold process_data.
  destruct data as [ | | | | | |d]; try discriminate. rewrite get_dict.
  cbn [bind].
  assert (Hrows : keys_unique (default (VList []) (dict_lookup (py "rows") d))
                  = true).
  { destruct (dict_lookup (py "rows") d) eqn:E; [|reflexivity].
    eapply dict_lookup_keys_unique; eassumption. }
  destruct (iterate _) as [items|] eqn:Hit; cbn [bind]; [|discriminate].
  assert (Hitems : forallb keys_unique items = true).
  { destruct (default _ _) as [ | | | |s|l|d']; try discriminate;
      injection Hit as <-; [| exact Hrows |].
    - clear Hrows. induction s as [|c s IH]; [reflexivity | exact IH].
    - clear Hrows. induction d' as [|kv d' IH]; [reflexivity | exact IH]. }
  pose proof (process_loop_spec pad tz items []) as H.
  destruct (process_loop pad tz items []) as [out|]; [|discriminate].
  intros [= <-]. destruct H as (rs & -> & HF). cbn [app keys_unique].
  clear Hit. induction HF as [|p r ps rs Hp _ IH]; [reflexivity|].
  cbn [forallb map] in *. apply andb_true_iff in Hitems.
  destruct Hitems as [Hkp Hkps]. rewrite IH by exact Hkps.
  now rewrite (process_product_keys_unique pad tz p r Hkp Hp).
Qed.

Lemma process_product_digits_ok pad tz p r :
  digits_ok p = true -> process_product pad tz p = Ok r ->
  digits_ok (VDict r) = true.
Proof.
  intros Hp. destruct p as [ | | | | | |d]; try discriminate.
  rewrite process_product_dict.
  destruct (format_timestamp pad tz _); cbn [bind]; [|discriminate].
  intros [= <-]. cbn [digits_ok map fst snd forallb].
  rewrite !(field_digits_ok d) by exact Hp. reflexivity.
Qed.

(** The ints of the records are those of the document, so they are within
    the digit limit when the document was read by [json.load]. *)
Lemma process_data_digits_ok pad tz data products :
  digits_ok data = true -> process_data pad tz data = Ok products ->
  digits_ok (VList (map VDict products)) = true.
Proof.
  intros Hdata. unfold process_data.
  destruct data as [ | | | | | |d]; try discriminate. rewrite get_dict.
  cbn [bind].
  assert (Hrows : digits_ok (default (VList []) (dict_lookup (py "rows") d))
                  = true).
  { destruct (dict_lookup (py "rows") d) eqn:E; [|reflexivity].
    eapply dict_lookup_digits_ok; eassumption. }
  destruct (iterate _) as [items|] eqn:Hit; cbn [bind]; [|discriminate].
  assert (Hitems : forallb digits_ok items = true).
  { destruct (default _ _) as [ | | | |s|l|d']; try discriminate;
      injection Hit as <-; [| exact Hrows |].
    - clear Hrows. induction s as [|c s IH]; [reflexivity | exact IH].
    - clear Hrows. induction d' as [|kv d' IH]; [reflexivity | exact IH]. }
  pose proof (process_loop_spec pad tz items []) as H.
  destruct (process_loop pad tz items []) as [out|]; [|discriminate].
  intros [= <-]. destruct H as (rs & -> & HF). cbn [app digits_ok].
  clear Hit. induction HF as [|p r ps rs Hp _ IH]; [reflexivity|].
  cbn [forallb map] in *. apply andb_true_iff in Hitems.
  destruct Hitems as [Hkp Hkps]. rewrite IH by exact Hkps.
  now rewrite (process_product_digits_ok pad tz p r Hkp Hp).
Qed.

(** ** The text on disk *)

Lemma escape_char_clean c :
  encodable_char c = true -> forallb clean (escape_char c) = true.
Proof.
  intros Hc. destruct (N.ltb_spec c 32) as [Hlow|Hhigh].
  - apply below_32 in Hlow. cbn in Hlow.
    repeat (destruct Hlow as [<- | Hlow]; [reflexivity|]). destruct Hlow.
  - unfold escape_char.
    destruct (N.eqb_spec c 34); [reflexivity|].
    destruct (N.eqb_spec c 92); [reflexivity|].
    destruct (N.eqb_spec c 10); [lia|]. destruct (N.eqb_spec c 13); [lia|].
    destruct (N.eqb_spec c 9); [lia|]. destruct (N.eqb_spec c 8); [lia|].
    destruct (N.eqb_spec c 12); [lia|].
    destruct (N.ltb_spec c 32); [lia|].
    cbn [forallb]. unfold clean. rewrite Hc.
    destruct (N.eqb_spec c 13); [lia | reflexivity].
Qed.

Lemma basestring_clean s :
  forallb encodable_char s = true ->
  forallb clean (encode_basestring s) = true.
Proof.
  intros Hs. unfold encode_basestring. cbn [forallb].
  apply forallb_app_true; [|reflexivity].
  induction s as [|c s IH]; [reflexivity|]. cbn [forallb flat_map] in *.
  apply andb_true_iff in Hs. destruct Hs as [Hc Hs].
  apply forallb_app_true; [now apply escape_char_clean | now apply IH].
Qed.

Lemma digits_clean cs : forallb is_digit cs = true -> forallb clean cs = true.
Proof.
  induction cs as [|c cs IH]; [reflexivity|]. cbn [forallb].
  rewrite !andb_true_iff. intros [Hc Hcs]. split; [|now apply IH].
  apply is_digit_cases in Hc. cbn in Hc.
  repeat (destruct Hc as [<- | Hc]; [reflexivity|]). destruct Hc.
Qed.

Lemma int_repr_clean z : forallb clean (int_repr z) = true.
Proof.
  unfold int_repr. destruct (Z.to_int z); cbn [forallb];
    rewrite ?digits_clean; auto using uint_chars_digits.
Qed.

Lemma newline_indent_clean k : forallb clean (newline_indent k) = true.
Proof.
  unfold newline_indent. cbn [forallb].
  induction (2 * k)%nat as [|n IH]; [reflexivity | exact IH].
Qed.

Ltac clean_text :=
  repeat match goal with
    | |- forallb clean (newline_indent _) = true => apply newline_indent_clean
    | |- forallb clean (encode_basestring _) = true =>
        apply basestring_clean; assumption
    | |- forallb clean (_ ++ _) = true => apply forallb_app_true
    | |- forallb clean (_ :: _) = true =>
        apply forallb_cons_true; [reflexivity|]
    | |- _ => assumption
    | |- _ => reflexivity
    end.

Lemma number_chars_clean cs :
  forallb number_char cs = true -> forallb clean cs = true.
Proof.
  induction cs as [|c cs IH]; [reflexivity|]. cbn [forallb].
  rewrite !andb_true_iff. intros [Hc Hcs]. split; [|now apply IH].
  unfold number_char in Hc. rewrite !orb_true_iff in Hc.
  destruct Hc as [[[[Hc | Hc] | Hc] | Hc] | Hc];
    try (apply N.eqb_eq in Hc; subst c; reflexivity).
  apply is_digit_cases in Hc. cbn in Hc.
  repeat (destruct Hc as [<- | Hc]; [reflexivity|]). destruct Hc.
Qed.

Lemma float_text_clean f : forallb clean (float_text f) = true.
Proof.
  destruct f as [s|[]| |s m e]; try reflexivity.
  - destruct s; reflexivity.
  - apply number_chars_clean.
    apply (float_repr_chars (S754_finite s m e) eq_refl). discriminate.
Qed.

Lemma encode_clean v : forall lvl,
  encodable v = true -> forallb clean (encode lvl v) = true.
Proof.
  induction v as [ |b|z|f|s|l IHl|d IHd] using value_ind'; intros lvl He.
  - reflexivity.
  - destruct b; reflexivity.
  - apply int_repr_clean.
  - apply float_text_clean.
  - now apply basestring_clean.
  - destruct l as [|x xs]; [reflexivity|].
    rewrite encode_list. cbn [encodable forallb] in He.
    apply andb_true_iff in He. destruct He as [Hx Hxs].
    inversion IHl as [|? ? IHx IHxs]; subst.
    specialize (IHx (S lvl) Hx).
    assert (Hitems : forallb clean (flat_map (item_text lvl) xs) = true).
    { clear IHl Hx IHx. induction IHxs as [|y ys IHy _ IH]; [reflexivity|].
      cbn [forallb flat_map] in *. apply andb_true_iff in Hxs.
      destruct Hxs as [Hy Hys]. specialize (IHy (S lvl) Hy).
      specialize (IH Hys). unfold item_text at 1. clean_text. }
    clean_text.
  - destruct d as [|[k v] kvs]; [reflexivity|].
    rewrite encode_dict. cbn [encodable forallb fst snd] in He.
    apply andb_true_iff in He. destruct He as [Hkv Hkvs].
    apply andb_true_iff in Hkv. destruct Hkv as [Hk Hv].
    inversion IHd as [|? ? IHv IHkvs]; subst. cbn [snd] in IHv.
    specialize (IHv (S lvl) Hv).
    assert (Hitems : forallb clean (flat_map (entry_text lvl) kvs) = true).
    { clear IHd Hk Hv IHv. induction IHkvs as [|y ys IHy _ IH]; [reflexivity|].
      cbn [forallb flat_map] in *. apply andb_true_iff in Hkvs.
      destruct Hkvs as [Hy Hys]. apply andb_true_iff in Hy.
      destruct Hy as [Hyk Hyv]. specialize (IHy (S lvl) Hyv).
      specialize (IH Hys). unfold entry_text at 1. clean_text. }
    clean_text.
Qed.

Lemma universal_newlines_clean s :
  forallb clean s = true -> universal_newlines s = s.
Proof.
  induction s as [|c s IH]; [reflexivity|]. cbn [forallb universal_newlines].
  rewrite andb_true_iff. unfold clean at 1. rewrite andb_true_iff.
  intros [[Hc _] Hs]. destruct (c =? 13); [discriminate|].
  now rewrite IH.
Qed.

Lemma utf8_encode_clean s :
  forallb clean s = true -> exists b, utf8_encode s = Ok b.
Proof.
  induction s as [|c s IH]; [now exists []|]. cbn [forallb utf8_encode].
  rewrite andb_true_iff. unfold clean at 1. rewrite andb_true_iff.
  intros [[_ Hc] Hs]. destruct (IH Hs) as [b ->].
  unfold encodable_char in Hc. apply andb_true_iff in Hc.
  destruct Hc as [Hmax Hsur]. apply negb_true_iff in Hsur.
  unfold utf8_encode_char. rewrite Hsur, Hmax.
  repeat destruct (_ <? _); eexists; reflexivity.
Qed.

(** ** The chunks of the encoder *)

Lemma join_chunks_app a b :
  join_chunks (a ++ b)
  = let* x := join_chunks a in let* y := join_chunks b in Ok (x ++ y).
Proof.
  induction a as [|c a IH]; cbn [app join_chunks bind].
  - now destruct (join_chunks b).
  - destruct c as [t|x]; cbn [bind]; [|reflexivity]. rewrite IH.
    destruct (join_chunks a) as [ta|]; cbn [bind]; [|reflexivity].
    destruct (join_chunks b) as [tb|]; cbn [bind]; [|reflexivity].
    now rewrite app_assoc.
Qed.

(** The chunk of a value that is no list and no dict is its text, or the
    exception of an int beyond the digit limit. *)
Lemma atom_text_spec lvl v :
  match atom_text v with
  | Some c =>
      c = (if digits_ok v then Ok (encode lvl v) else Raise ValueError)
      /\ iterencode lvl v = [c]
  | None => (exists l, v = VList l) \/ (exists d, v = VDict d)
  end.
Proof.
  destruct v as [ |[]|z|f|s|l|d]; cbn [atom_text digits_ok encode iterencode];
    try (split; reflexivity); [left | right]; eauto.
Qed.

(** The chunks joined are the text of the value; an int beyond the digit
    limit makes the encoder raise instead. *)
Lemma iterencode_join v : forall lvl,
  join_chunks (iterencode lvl v)
  = if digits_ok v then Ok (encode lvl v) else Raise ValueError.
Proof.
  induction v as [ |b|z|f|s|l IHl|d IHd] using value_ind'; intros lvl.
  - reflexivity.
  - destruct b; reflexivity.
  - cbn [iterencode atom_text join_chunks digits_ok encode].
    destruct (int_fits z); cbn [bind]; now rewrite ?app_nil_r.
  - cbn [iterencode atom_text join_chunks digits_ok encode bind].
    now rewrite app_nil_r.
  - cbn [iterencode atom_text join_chunks digits_ok encode bind].
    now rewrite app_nil_r.
  - destruct l as [|x xs]; [reflexivity|].
    assert (Hitem : forall buf y,
      join_chunks (iterencode (S lvl) y)
      = (if digits_ok y then Ok (encode (S lvl) y) else Raise ValueError) ->
      join_chunks (match atom_text y with
                   | Some c => [let* t := c in Ok (buf ++ t)]
                   | None => Ok buf :: iterencode (S lvl) y
                   end)
      = if digits_ok y then Ok (buf ++ encode (S lvl) y) else Raise ValueError).
    { intros buf y IHy.
      pose proof (atom_text_spec (S lvl) y) as Ha.
      destruct (atom_text y) as [c|].
      - destruct Ha as [-> _]. cbn [join_chunks].
        destruct (digits_ok y); cbn [bind]; [|reflexivity].
        now rewrite app_nil_r.
      - cbn [join_chunks bind]. rewrite IHy.
        now destruct (digits_ok y). }
    inversion IHl as [|? ? IHx IHxs]; subst.
    cbn [iterencode digits_ok forallb]. rewrite encode_list.
    rewrite join_chunks_app, (Hitem _ x (IHx (S lvl))).
    destruct (digits_ok x); cbn [bind andb]; [|reflexivity].
    rewrite join_chunks_app.
    match goal with
    | |- context [join_chunks (flat_map ?f xs)] =>
        assert (Hrest : join_chunks (flat_map f xs)
                        = if forallb digits_ok xs
                          then Ok (flat_map (item_text lvl) xs)
                          else Raise ValueError)
    end.
    { clear IHl IHx. induction IHxs as [|y ys IHy _ IH]; [reflexivity|].
      cbn [flat_map forallb]. rewrite join_chunks_app.
      rewrite (Hitem _ y (IHy (S lvl))).
      destruct (digits_ok y); cbn [bind andb]; [|reflexivity].
      rewrite IH. destruct (forallb digits_ok ys); reflexivity. }
    rewrite Hrest. destruct (forallb digits_ok xs); cbn [bind]; [|reflexivity].
    cbn [join_chunks bind]. rewrite app_nil_r.
    cbn [app]. rewrite <- !app_assoc. reflexivity.
  - destruct d as [|[k v] kvs]; [reflexivity|].
    assert (Hval : forall y,
      join_chunks (iterencode (S lvl) y)
      = (if digits_ok y then Ok (encode (S lvl) y) else Raise ValueError) ->
      join_chunks (match atom_text y with
                   | Some c => [c]
                   | None => iterencode (S lvl) y
                   end)
      = if digits_ok y then Ok (encode (S lvl) y) else Raise ValueError).
    { intros y IHy.
      pose proof (atom_text_spec (S lvl) y) as Ha.
      destruct (atom_text y) as [c|]; [|exact IHy].
      destruct Ha as [-> _]. cbn [join_chunks].
      destruct (digits_ok y); cbn [bind]; [|reflexivity].
      now rewrite app_nil_r. }
    inversion IHd as [|? ? IHv IHkvs]; subst. cbn [snd] in IHv.
    cbn [iterencode digits_ok forallb snd]. rewrite encode_dict.
    rewrite join_chunks_app. cbn [join_chunks bind].
    rewrite join_chunks_app, (Hval v (IHv (S lvl))).
    destruct (digits_ok v); cbn [bind andb]; [|reflexivity].
    rewrite join_chunks_app.
    match goal with
    | |- context [join_chunks (flat_map ?f kvs)] =>
        assert (Hrest : join_chunks (flat_map f kvs)
                        = if forallb (fun kv => digits_ok (snd kv)) kvs
                          then Ok (flat_map (entry_text lvl) kvs)
                          else Raise ValueError)
    end.
    { clear IHd IHv. induction IHkvs as [|kv kvs' IHkv _ IH]; [reflexivity|].
      cbn [flat_map forallb]. rewrite !join_chunks_app.
      cbn [join_chunks bind].
      rewrite (Hval (snd kv) (IHkv (S lvl))).
      destruct (digits_ok (snd kv)); cbn [bind andb]; [|reflexivity].
      rewrite IH.
      destruct (forallb _ kvs'); cbn [bind]; [|reflexivity].
      unfold entry_text. change (py ",") with [44]. change (py ": ") with [58; 32].
      cbn [app]. rewrite <- ?app_assoc. cbn [app]. rewrite <- ?app_assoc.
      reflexivity. }
    rewrite Hrest.
    destruct (forallb _ kvs); cbn [bind]; [|reflexivity].
    cbn [join_chunks bind]. rewrite ?app_nil_r.
    cbn [app]. rewrite <- !app_assoc. reflexivity.
Qed.

(** [json.dumps] gives the text of a value whose ints are within the
    digit limit. *)
Lemma json_dumps_text v :
  json_dumps v = if digits_ok v then Ok (dumps v) else Raise ValueError.
Proof. apply iterencode_join. Qed.

Lemma utf8_encode_app s t :
  utf8_encode (s ++ t)
  = let* a := utf8_encode s in let* b := utf8_encode t in Ok (a ++ b).
Proof.
  induction s as [|c s IH]; cbn [app utf8_encode bind].
  - now destruct (utf8_encode t).
  - destruct (utf8_encode_char c) as [bs|]; [|reflexivity]. rewrite IH.
    destruct (utf8_encode s) as [a|]; cbn [bind]; [|reflexivity].
    destruct (utf8_encode t) as [b|]; cbn [bind]; [|reflexivity].
    now rewrite app_assoc.
Qed.

(** Writing the chunks one after the other succeeds exactly when they can
    be joined and the text encoded at once, and then writes the same
    bytes. *)
Lemma write_chunks_join cs : forall written,
  match write_chunks cs written with
  | (Ok _, out) =>
      exists t b, join_chunks cs = Ok t /\ utf8_encode t = Ok b
        /\ out = written ++ b
  | (Raise x, out) =>
      (forall t, join_chunks cs = Ok t -> utf8_encode t = Raise x)
      /\ (forall y, join_chunks cs = Raise y ->
            x = y \/ x = UnicodeEncodeError)
      /\ exists b, out = written ++ b
  end.
Proof.
  induction cs as [|c cs IH]; intros written; cbn [write_chunks join_chunks].
  - exists [], []. now rewrite app_nil_r.
  - destruct c as [t1|x]; cbn [bind].
    + destruct (utf8_encode t1) as [b1|x1] eqn:H1.
      * specialize (IH (written ++ b1)).
        destruct (write_chunks cs (written ++ b1)) as [[[]|x] out].
        -- destruct IH as (t & b & -> & Hb & ->). cbn [bind].
           exists (t1 ++ t), (b1 ++ b). split; [reflexivity|].
           rewrite utf8_encode_app, H1, Hb. cbn [bind].
           now rewrite app_assoc.
        -- destruct IH as (Hok & Hraise & b & ->). split; [|split].
           ++ intros t. destruct (join_chunks cs) as [r|]; cbn [bind];
                [|discriminate].
              intros [= <-]. rewrite utf8_encode_app, H1. cbn [bind].
              now rewrite (Hok r eq_refl).
           ++ intros y. destruct (join_chunks cs) as [r|y']; cbn [bind];
                [discriminate|]. intros [= <-]. now apply Hraise.
           ++ exists (b1 ++ b). now rewrite app_assoc.
      * assert (Hx1 : x1 = UnicodeEncodeError).
        { clear -H1. revert x1 H1. induction t1 as [|c t1 IHt]; intros x1;
            cbn [utf8_encode]; [discriminate|].
          destruct (utf8_encode_char c); [|now intros [= <-]].
          destruct (utf8_encode t1); cbn [bind]; [discriminate|].
          intros [= <-]. now apply IHt. }
        split; [|split].
        -- intros t. destruct (join_chunks cs) as [r|]; cbn [bind];
             [|discriminate].
           intros [= <-]. rewrite utf8_encode_app, H1. reflexivity.
        -- intros y _. now right.
        -- exists []. now rewrite app_nil_r.
    + split; [|split].
      * discriminate.
      * intros y [= <-]. now left.
      * exists []. now rewrite app_nil_r.
Qed.

(** [json.dump] of a value succeeds exactly when its ints are within the
    digit limit and its text can be encoded; the file then holds the
    bytes of the text. *)
Lemma write_chunks_dump v b :
  write_chunks (iterencode 0 v) [] = (Ok tt, b)
  <-> digits_ok v = true /\ utf8_encode (dumps v) = Ok b.
Proof.
  pose proof (write_chunks_join (iterencode 0 v) []) as H.
  pose proof (iterencode_join v 0%nat) as Hj. split.
  - intros Hw. rewrite Hw in H. destruct H as (t & b' & Ht & Hb & ->).
    rewrite Ht in Hj. destruct (digits_ok v); [|discriminate].
    injection Hj as ->. now split.
  - intros [Hd Hb]. rewrite Hd in Hj.
    destruct (write_chunks (iterencode 0 v) []) as [[[]|x] out].
    + destruct H as (t & b' & Ht & Hb' & ->). rewrite Ht in Hj.
      injection Hj as ->. unfold dumps in Hb. rewrite Hb in Hb'.
      now injection Hb' as ->.
    + destruct H as (Hok & _). specialize (Hok _ Hj).
      unfold dumps in Hb. rewrite Hb in Hok. discriminate.
Qed.

(** A text that cannot be encoded makes the dump raise
    UnicodeEncodeError. *)
Lemma write_chunks_unencodable v :
  digits_ok v = true -> utf8_encode (dumps v) = Raise UnicodeEncodeError ->
  exists b, write_chunks (iterencode 0 v) [] = (Raise UnicodeEncodeError, b).
Proof.
  intros Hd Hb.
  pose proof (write_chunks_join (iterencode 0 v) []) as H.
  pose proof (iterencode_join v 0%nat) as Hj. rewrite Hd in Hj.
  destruct (write_chunks (iterencode 0 v) []) as [[[]|x] out].
  - destruct H as (t & b' & Ht & Hb' & _). rewrite Ht in Hj.
    injection Hj as ->. unfold dumps in Hb. rewrite Hb in Hb'. discriminate.
  - destruct H as (Hok & _). specialize (Hok _ Hj).
    unfold dumps in Hb. rewrite Hb in Hok. injection Hok as <-. now exists out.
Qed.

(** ** Running the script *)

(** What one call of [to_excel] does: the call is recorded, the workbook
    is written when nothing fails, and what the engine had stored is
    written when it fails on a cell. *)
Lemma to_excel_run e df path w :
  to_excel e df path w =
  let r := excel_outcome e (modules w) df path in
  (r, mk_world (excel_files e df path r (files w)) (modules w) (stdout w)
        (calls w ++ [ToExcel path])).
Proof.
  unfold to_excel, excel_outcome, excel_files, mbind, record_call,
    import_module, write_file, ret, raise.
  cbn [modules files stdout calls].
  destruct (fits_sheet df); [|reflexivity].
  destruct (bool_decide _); [|reflexivity].
  destruct (writable e path); [|reflexivity].
  destruct (engine_accepts e df); reflexivity.
Qed.

Lemma uint_chars_ascii u : ascii_text (uint_chars u) = true.
Proof. induction u; cbn; auto. Qed.

Lemma len_ascii {A} (l : list A) : ascii_text (len l) = true.
Proof.
  unfold len, int_repr. destruct (Z.to_int _); cbn [ascii_text forallb];
    apply uint_chars_ascii.
Qed.

Lemma print_ascii e s w :
  ascii_text s = true ->
  print e s w
  = (Ok tt, mk_world (files w) (modules w) (stdout w ++ [s]) (calls w)).
Proof. intros H. unfold print, printable. now rewrite H. Qed.

Lemma counted_ascii {A} (a b : string) (l : list A) :
  ascii_text (py a) = true -> ascii_text (py b) = true ->
  ascii_text (py a ++ len l ++ py b) = true.
Proof.
  intros Ha Hb. unfold ascii_text in *.
  rewrite !forallb_app, Ha, Hb. cbn [andb]. rewrite andb_true_r.
  apply len_ascii.
Qed.

Lemma save_to_excel_run e products path w :
  printable e (py "Excel file saved to: " ++ py path) = true ->
  save_to_excel e products path w =
  match excel_outcome e (modules w) (make_frame e products) path with
  | Ok _ =>
      (Ok tt, mk_world (<[path := Workbook (make_frame e products)]> (files w))
                (modules w)
                (stdout w ++ [py "Excel file saved to: " ++ py path])
                (calls w ++ [ToExcel path]))
  | Raise x =>
      (Raise x,
       mk_world (excel_files e (make_frame e products) path (Raise x) (files w))
         (modules w) (stdout w) (calls w ++ [ToExcel path]))
  end.
Proof.
  intros Hp. unfold save_to_excel, mbind. rewrite to_excel_run. cbv zeta.
  destruct (excel_outcome _ _ _ _) as [[]|x]; [|reflexivity].
  unfold print. rewrite Hp. reflexivity.
Qed.

Lemma save_to_json_run e products path w :
  printable e (py "JSON file saved to: " ++ py path) = true ->
  save_to_json e products path w =
  let w1 := mk_world (files w) (modules w) (stdout w)
              (calls w ++ [JsonDump path]) in
  if writable e path then
    match write_chunks (iterencode 0 (VList (map VDict products))) [] with
    | (Ok _, b) =>
        (Ok tt, mk_world (<[path := Text b]> (files w)) (modules w)
                  (stdout w ++ [py "JSON file saved to: " ++ py path])
                  (calls w ++ [JsonDump path]))
    | (Raise x, b) =>
        (Raise x, mk_world (<[path := Text b]> (files w)) (modules w)
                    (stdout w) (calls w ++ [JsonDump path]))
    end
  else (Raise PermissionError, w1).
Proof.
  intros Hp.
  unfold save_to_json, mbind, record_call, lift, write_file, print, ret, raise.
  cbn [modules files stdout calls].
  destruct (writable e path); [|reflexivity].
  destruct (write_chunks _ _) as [[[]|x] b]; [|reflexivity].
  cbn [modules files stdout calls]. rewrite Hp. reflexivity.
Qed.

(** Lines 67 to 74, when the first write raises ImportError. *)
Lemma save_to_excel_or_install_run e products w :
  save_to_excel_or_install e products w =
  match excel_outcome e (modules w) (make_frame e products) excel_output with
  | Raise ImportError =>
      let out := stdout w ++ [py "pandas or openpyxl not installed. Installing required packages..."] in
      let cs := calls w ++ [ToExcel excel_output; PipInstall] in
      match pip_install e (modules w) with
      | None => (Raise CalledProcessError, mk_world (files w) (modules w) out cs)
      | Some ms => save_to_excel e products excel_output
                     (mk_world (files w) ms out cs)
      end
  | _ => save_to_excel e products excel_output w
  end.
Proof.
  unfold save_to_excel_or_install, try_except_ImportError.
  rewrite save_to_excel_run by reflexivity.
  destruct (excel_outcome _ _ _ _) as [[]|x] eqn:E; [reflexivity|].
  destruct x; try reflexivity. cbn [excel_files].
  unfold mbind at 1. rewrite print_ascii by reflexivity.
  cbv [mbind check_call_pip record_call].
  cbn [modules files stdout calls]. rewrite <- app_assoc. cbn [app].
  destruct (pip_install e (modules w)); reflexivity.
Qed.

(** Lines 58 to 61: the two lines of the summary are ASCII, the sample is
    the text of the first product. *)
Lemma print_summary_run e products w :
  digits_ok (VList (map VDict products)) = true ->
  print_summary e products w =
  if sample_printable e products then
    (Ok tt, mk_world (files w) (modules w) (stdout w ++ summary products)
              (calls w))
  else
    (Raise UnicodeEncodeError,
     mk_world (files w) (modules w)
       (stdout w ++ [py "Processed " ++ len products ++ py " products";
                     10%N :: py "Sample product data:"])
       (calls w)).
Proof.
  intros Hd. unfold print_summary, mbind at 1.
  rewrite print_ascii by (now apply counted_ascii).
  unfold mbind at 1. rewrite print_ascii by reflexivity.
  cbn [modules files stdout calls]. rewrite <- app_assoc. cbn [app].
  unfold summary, sample_printable.
  destruct products as [|first rest].
  - reflexivity.
  - cbn [map digits_ok forallb] in Hd. apply andb_true_iff in Hd.
    destruct Hd as [Hfirst _].
    unfold mbind, lift. rewrite json_dumps_text.
    change (digits_ok (VDict first)) with
      (forallb (fun kv => digits_ok (snd kv)) first).
    cbn [digits_ok] in Hfirst. rewrite Hfirst.
    unfold print. cbn [modules files stdout calls].
    destruct (printable e _); [|reflexivity].
    rewrite <- app_assoc. reflexivity.
Qed.

(** The records [process_products] returns come from [json.load]: no key
    twice in a dict, no int beyond the digit limit. *)
Lemma process_products_loaded e path w products w' :
  process_products e path w = (Ok products, w') ->
  keys_unique (VList (map VDict products)) = true
  /\ digits_ok (VList (map VDict products)) = true.
Proof.
  unfold process_products. intros [= H _].
  destruct (json_load w path) as [data|] eqn:Hload; [|discriminate].
  cbn [bind] in H. unfold json_load in Hload.
  destruct (read_text w path) as [s|]; [|discriminate]. cbn [bind] in Hload.
  split.
  - apply (process_data_keys_unique (pads_year e) (tz e) data); [|exact H].
    now apply (loads_keys_unique s).
  - apply (process_data_digits_ok (pads_year e) (tz e) data); [|exact H].
    now apply (loads_digits_ok s).
Qed.

Lemma main_run e w :
  main e w =
  match process_products e input_file w with
  | (Ok products, _) =>
      match print_summary e products w with
      | (Ok _, w1) =>
          match save_to_excel_or_install e products w1 with
          | (Ok _, w2) =>
              match save_to_json e products json_output w2 with
              | (Ok _, w3) =>
                  (Ok tt,
                   mk_world (files w3) (modules w3)
                     (stdout w3
                      ++ [10%N :: py "Total products processed: "
                                  ++ len products])
                     (calls w3))
              | (Raise x, w3) => (Raise x, w3)
              end
          | (Raise x, w2) => (Raise x, w2)
          end
      | (Raise x, w1) => (Raise x, w1)
      end
  | (Raise x, _) => (Raise x, w)
  end.
Proof.
  unfold main, process_products. unfold mbind at 1.
  destruct (bind _ _) as [products|x]; [|reflexivity].
  unfold mbind at 1.
  destruct (print_summary e products w) as [[[]|x] w1]; [|reflexivity].
  unfold mbind at 1.
  destruct (save_to_excel_or_install e products w1) as [[[]|x] w2];
    [|reflexivity].
  unfold mbind.
  destruct (save_to_json e products json_output w2) as [[[]|x] w3];
    [|reflexivity].
  apply print_ascii.
  change (ascii_text ((10%N :: py "Total products processed: ")
                      ++ len products) = true).
  unfold ascii_text. rewrite forallb_app. apply andb_true_iff.
  split; [reflexivity | apply len_ascii].
Qed.

Lemma script_run e w :
  script e w =
  if bool_decide ("pandas" ∈ modules w) then main e w
  else (Raise ImportError, w).
Proof.
  unfold script, mbind, import_module.
  destruct (bool_decide _); reflexivity.
Qed.

Lemma json_load_missing w path :
  files w !! path = None -> json_load w path = Raise FileNotFoundError.
Proof. intros H. unfold json_load, read_text. now rewrite H. Qed.

(** C7. When the input path is missing, or holds bytes that are not UTF-8
    or a text that is not a JSON document, the script ends with the
    exception of the read (after the import of pandas, which must succeed
    first) and leaves the world as it found it: no file is written,
    nothing is printed, nothing is called. *)
Theorem script_aborts_on_bad_input (e : env) (w : world) (err : exn) :
  json_load w input_file = Raise err ->
  In err [FileNotFoundError; UnicodeDecodeError; JSONDecodeError] ->
  script e w
  = (Raise (if bool_decide ("pandas" ∈ modules w) then err else ImportError),
     w).
Proof.
  intros Hload _. rewrite script_run. destruct (bool_decide _); [|reflexivity].
  rewrite main_run. unfold process_products. now rewrite Hload.
Qed.

(** C8. When the products are read, the summary is printed and openpyxl
    cannot be imported, the first write of the workbook raises ImportError
    (provided the frame fits a sheet, which is checked before the import:
    otherwise the script ends with ValueError, pip not called), and the
    script calls pip exactly once.  If pip fails, the script ends with
    CalledProcessError, the write having been tried once.  Otherwise the
    write is tried exactly once more, with the modules pip left: an
    exception of that second try, ImportError included, ends the script,
    with no file changed unless the exception comes from the engine, which
    leaves the workbook it had stored; a success leaves the workbook and
    lets the script go on to the JSON file. *)
Theorem import_error_recovery (e : env) (w : world)
  (products : list (list (pystr * value))) :
  "pandas" ∈ modules w -> "openpyxl" ∉ modules w ->
  process_products e input_file w = (Ok products, w) ->
  sample_printable e products = true ->
  if fits_sheet (make_frame e products) then
    match pip_install e (modules w) with
    | None =>
        exists w', script e w = (Raise CalledProcessError, w')
          /\ calls w' = calls w ++ [ToExcel excel_output; PipInstall]
          /\ files w' = files w
    | Some ms =>
        match excel_outcome e ms (make_frame e products) excel_output with
        | Raise x =>
            exists w', script e w = (Raise x, w')
              /\ calls w' = calls w ++ [ToExcel excel_output; PipInstall;
                                        ToExcel excel_output]
              /\ files w'
                 = match x with
                   | BackendError =>
                       <[excel_output :=
                           Workbook (engine_stored e (make_frame e products))]>
                         (files w)
                   | _ => files w
                   end
        | Ok _ =>
            exists r w', script e w = (r, w')
              /\ calls w' = calls w ++ [ToExcel excel_output; PipInstall;
                                        ToExcel excel_output; JsonDump json_output]
              /\ files w' !! excel_output = Some (Workbook (make_frame e products))
        end
    end
  else
    exists w', script e w = (Raise ValueError, w')
      /\ calls w' = calls w ++ [ToExcel excel_output]
      /\ files w' = files w.
Proof.
  intros Hpandas Hno Hproc Hsample.
  destruct (process_products_loaded _ _ _ _ _ Hproc) as [_ Hdig].
  rewrite script_run, bool_decide_eq_true_2 by exact Hpandas.
  rewrite main_run, Hproc, (print_summary_run _ _ _ Hdig), Hsample.
  rewrite save_to_excel_or_install_run. cbn [modules files stdout calls].
  assert (Hfirst : excel_outcome e (modules w) (make_frame e products)
                     excel_output
                   = if fits_sheet (make_frame e products)
                     then Raise ImportError else Raise ValueError).
  { unfold excel_outcome. now rewrite bool_decide_eq_false_2. }
  rewrite Hfirst. destruct (fits_sheet (make_frame e products)) eqn:Hfit.
  - cbv zeta. destruct (pip_install e (modules w)) as [ms|].
    + rewrite save_to_excel_run by reflexivity.
      cbn [modules files stdout calls].
      destruct (excel_outcome e ms _ _) as [[]|x].
      * rewrite save_to_json_run by reflexivity.
        cbn [modules files stdout calls].
        assert (Hne : json_output <> excel_output) by discriminate.
        destruct (writable e json_output);
          [destruct (write_chunks _ _) as [[[]|?] b]|]; eexists _, _;
          (split; [reflexivity|]);
          cbn [modules files stdout calls]; rewrite <- ?app_assoc; cbn [app];
          (split; [reflexivity|]);
          rewrite ?lookup_insert_ne by exact Hne; apply lookup_insert_eq.
      * eexists. split; [reflexivity|]. cbn [modules files stdout calls].
        rewrite <- app_assoc. split; [reflexivity|]. now destruct x.
    + eexists. split; [reflexivity|]. split; reflexivity.
  - rewrite save_to_excel_run by reflexivity.
    cbn [modules files stdout calls]. rewrite Hfirst.
    eexists. split; [reflexivity|]. split; reflexivity.
Qed.

Lemma process_data_no_rows pad tz d :
  dict_lookup (py "rows") d = None \/ dict_lookup (py "rows") d = Some (VList []) ->
  process_data pad tz (VDict d) = Ok [].
Proof.
  intros [H|H]; unfold process_data; rewrite get_dict, H; reflexivity.
Qed.

Lemma script_no_products e w :
  "pandas" ∈ modules w ->
  process_products e input_file w = (Ok [], w) ->
  excel_outcome e (modules w) (make_frame e []) excel_output = Ok tt ->
  exists r w', script e w = (r, w')
    /\ files w' !! excel_output = Some (Workbook (mk_frame [] []))
    /\ (writable e json_output = true ->
        r = Ok tt /\ files w' !! json_output = Some (Text (py "[]"))).
Proof.
  intros Hpandas Hproc Hexcel.
  rewrite script_run, bool_decide_eq_true_2 by exact Hpandas.
  rewrite main_run, Hproc, print_summary_run by reflexivity.
  cbn [sample_printable].
  rewrite save_to_excel_or_install_run. cbn [modules files stdout calls].
  rewrite Hexcel, save_to_excel_run by reflexivity.
  cbn [modules files stdout calls].
  rewrite Hexcel, save_to_json_run by reflexivity.
  cbn [modules files stdout calls]. cbv zeta.
  assert (Hne : json_output <> excel_output) by discriminate.
  change (write_chunks (iterencode 0 (VList (map VDict []))) [])
    with (Ok tt, py "[]").
  destruct (writable e json_output); eexists _, _; (split; [reflexivity|]);
    cbn [modules files stdout calls].
  - rewrite lookup_insert_ne by exact Hne. rewrite !lookup_insert_eq.
    now repeat split.
  - rewrite lookup_insert_eq. split; [reflexivity | discriminate].
Qed.

(** C4 as stated does not hold, the workbook of an empty input has no
    header row with the seven field names: for the document whose rows are
    the empty list the script succeeds and the sheet of the workbook has
    no column, hence no header cell. *)
Lemma empty_rows_workbook_has_no_header :
  let w := world_with_input empty_rows_bytes {["pandas"; "openpyxl"]} in
  json_load w input_file = Ok (VDict [(py "rows", VList [])])
  /\ fst (script permissive w) = Ok tt
  /\ files (snd (script permissive w)) !! excel_output
     = Some (Workbook (mk_frame [] []))
  /\ files (snd (script permissive w)) !! excel_output
     <> Some (Workbook (mk_frame output_fields [])).
Proof.
  cbv zeta.
  assert (H : files (snd (script permissive
                (world_with_input empty_rows_bytes {["pandas"; "openpyxl"]})))
              !! excel_output = Some (Workbook (mk_frame [] [])))
    by (vm_compute; reflexivity).
  repeat split; try (vm_compute; reflexivity).
  rewrite H. discriminate.
Qed.

(** C4, amended. For a document without rows key, and for one whose rows
    are the empty list, the transformer returns the empty list; when
    pandas is importable and the write of the workbook succeeds, the
    workbook is produced and its sheet has no column and no row (so no
    header cell either); when the JSON path is writable the script
    succeeds and the JSON file holds an empty list. *)
Theorem empty_rows_artifacts (e : env) (w : world) (d : list (pystr * value)) :
  json_load w input_file = Ok (VDict d) ->
  dict_lookup (py "rows") d = None
  \/ dict_lookup (py "rows") d = Some (VList []) ->
  "pandas" ∈ modules w ->
  excel_outcome e (modules w) (make_frame e []) excel_output = Ok tt ->
  process_data (pads_year e) (tz e) (VDict d) = Ok []
  /\ exists r w', script e w = (r, w')
       /\ files w' !! excel_output = Some (Workbook (mk_frame [] []))
       /\ (writable e json_output = true ->
           r = Ok tt /\ files w' !! json_output = Some (Text (py "[]"))).
Proof.
  intros Hload Hrows Hpandas Hexcel.
  pose proof (process_data_no_rows (pads_year e) (tz e) d Hrows) as Hdata.
  split; [exact Hdata|].
  apply script_no_products; try assumption.
  unfold process_products. rewrite Hload. cbn [bind]. now rewrite Hdata.
Qed.

Lemma script_aborts_on_bad_input_witness :
  script permissive (mk_world ∅ {["pandas"]} [] [])
  = (Raise FileNotFoundError, mk_world ∅ {["pandas"]} [] [])
  /\ script permissive (world_with_input broken_bytes {["pandas"]})
     = (Raise JSONDecodeError, world_with_input broken_bytes {["pandas"]}).
Proof.
  split.
  - refine (eq_trans (script_aborts_on_bad_input permissive
                        (mk_world ∅ {["pandas"]} [] []) FileNotFoundError _ _) _).
    + apply json_load_missing. reflexivity.
    + simpl. tauto.
    + vm_compute. reflexivity.
  - refine (eq_trans (script_aborts_on_bad_input permissive
                        (world_with_input broken_bytes {["pandas"]})
                        JSONDecodeError _ _) _).
    + vm_compute. reflexivity.
    + simpl. tauto.
    + vm_compute. reflexivity.
Defined.

Lemma import_error_recovery_witness :
  exists r w',
    script permissive (world_with_input empty_rows_bytes {["pandas"]}) = (r, w')
    /\ calls w' = [ToExcel excel_output; PipInstall; ToExcel excel_output;
                   JsonDump json_output]
    /\ files w' !! excel_output = Some (Workbook (make_frame permissive [])).
Proof.
  assert (H1 : "pandas" ∈ modules (world_with_input empty_rows_bytes {["pandas"]}))
    by compute_done.
  assert (H2 : "openpyxl" ∉ modules (world_with_input empty_rows_bytes {["pandas"]}))
    by compute_done.
  assert (H3 : process_products permissive input_file
                 (world_with_input empty_rows_bytes {["pandas"]})
               = (Ok [], world_with_input empty_rows_bytes {["pandas"]}))
    by (vm_compute; reflexivity).
  pose proof (import_error_recovery permissive
                (world_with_input empty_rows_bytes {["pandas"]}) [] H1 H2 H3
                eq_refl)
    as H.
  vm_compute in H. vm_compute. exact H.
Defined.

Lemma empty_rows_artifacts_witness :
  process_data false utc (VDict [(py "rows", VList [])]) = Ok []
  /\ exists r w',
       script permissive
         (world_with_input empty_rows_bytes {["pandas"; "openpyxl"]}) = (r, w')
       /\ files w' !! excel_output = Some (Workbook (mk_frame [] []))
       /\ (writable permissive json_output = true ->
           r = Ok tt /\ files w' !! json_output = Some (Text (py "[]"))).
Proof.
  refine (empty_rows_artifacts permissive
            (world_with_input empty_rows_bytes {["pandas"; "openpyxl"]})
            [(py "rows", VList [])] _ _ _ _).
  - vm_compute. reflexivity.
  - right. reflexivity.
  - compute_done.
  - vm_compute. reflexivity.
Defined.

Lemma json_load_written w path b s :
  files w !! path = Some (Text b) -> utf8_decode b = Ok s ->
  json_load w path = loads (universal_newlines s).
Proof. intros Hf Hb. unfold json_load, read_text. now rewrite Hf, Hb. Qed.


(** Writing records whose text is clean and reading the file back. *)
Lemma save_then_load e w products path :
  writable e path = true ->
  printable e (py "JSON file saved to: " ++ py path) = true ->
  keys_unique (VList (map VDict products)) = true ->
  encodable (VList (map VDict products)) = true ->
  digits_ok (VList (map VDict products)) = true ->
  floats_read_back (VList (map VDict products)) = true ->
  exists w', save_to_json e products path w = (Ok tt, w')
    /\ json_load w' path = Ok (VList (map VDict products)).
Proof.
  intros Hw Hp Hk He Hd Hf. rewrite save_to_json_run by exact Hp. cbv zeta.
  rewrite Hw.
  pose proof (encode_clean _ 0%nat He) as Hclean.
  destruct (utf8_encode_clean _ Hclean) as [b Hb].
  fold (dumps (VList (map VDict products))) in Hb, Hclean.
  rewrite (proj2 (write_chunks_dump _ b) (conj Hd Hb)).
  eexists. split; [reflexivity|].
  rewrite (json_load_written _ path b (dumps (VList (map VDict products)))).
  - rewrite universal_newlines_clean by exact Hclean. now apply loads_dumps.
  - cbn [files]. apply lookup_insert_eq.
  - now apply utf8_round_trip.
Qed.

(** The records the script makes from an input file need no assumption on
    their keys and their ints: when their strings can be encoded and their
    floats read back, the JSON file gives them back. *)
Corollary products_round_trip e w data products :
  json_load w input_file = Ok data ->
  process_data (pads_year e) (tz e) data = Ok products ->
  writable e json_output = true ->
  encodable (VList (map VDict products)) = true ->
  floats_read_back (VList (map VDict products)) = true ->
  exists w', save_to_json e products json_output w = (Ok tt, w')
    /\ json_load w' json_output = Ok (VList (map VDict products)).
Proof.
  intros Hload Hdata Hw He Hf.
  assert (Hproc : process_products e input_file w = (Ok products, w)).
  { unfold process_products. rewrite Hload. cbn [bind]. now rewrite Hdata. }
  destruct (process_products_loaded _ _ _ _ _ Hproc) as [Hk Hd].
  apply save_then_load; try assumption. reflexivity.
Qed.



(** * Further properties *)

Local Open Scope Z_scope.

(** ** Timestamps *)

Lemma civil_from_days_late z : 2932897 <= z ->
  MAXYEAR < fst (fst (civil_from_days z)).
Proof.
  intros H. unfold civil_from_days, MAXYEAR. cbn zeta.
  remember (z + 719468) as z' eqn:Hz'.
  remember (z' / 146097) as era eqn:Hera.
  remember (z' - era * 146097) as doe eqn:Hdoe.
  remember ((doe - doe / 1460 + doe / 36524 - doe / 146096) / 365)
    as yoe eqn:Hyoe.
  remember (doe - (365 * yoe + yoe / 4 - yoe / 100)) as doy eqn:Hdoy.
  remember ((5 * doy + 2) / 153) as mp eqn:Hmp.
  cbn [fst].
  destruct (mp <? 10) eqn:E1; destruct (_ <=? 2) eqn:E2;
    (apply Z.ltb_lt in E1 || apply Z.ltb_ge in E1);
    (apply Z.leb_le in E2 || apply Z.leb_gt in E2);
    Z.div_mod_to_equations; lia.
Qed.

Lemma civil_from_days_early z : z < -719162 ->
  fst (fst (civil_from_days z)) < MINYEAR.
Proof.
  intros H. unfold civil_from_days, MINYEAR. cbn zeta.
  remember (z + 719468) as z' eqn:Hz'.
  remember (z' / 146097) as era eqn:Hera.
  remember (z' - era * 146097) as doe eqn:Hdoe.
  remember ((doe - doe / 1460 + doe / 36524 - doe / 146096) / 365)
    as yoe eqn:Hyoe.
  remember (doe - (365 * yoe + yoe / 4 - yoe / 100)) as doy eqn:Hdoy.
  remember ((5 * doy + 2) / 153) as mp eqn:Hmp.
  cbn [fst].
  destruct (mp <? 10) eqn:E1; destruct (_ <=? 2) eqn:E2;
    (apply Z.ltb_lt in E1 || apply Z.ltb_ge in E1);
    (apply Z.leb_le in E2 || apply Z.leb_gt in E2);
    Z.div_mod_to_equations; lia.
Qed.

(** Before the year 1 and after the year 9999 there is no [datetime]. *)
Lemma broken_down_out_of_range secs :
  secs < -62135596800 \/ 253402300800 <= secs ->
  year_in_range (broken_down secs) = false.
Proof.
  intros H. unfold year_in_range, broken_down.
  pose proof (civil_from_days_late (secs / 86400)) as Hl.
  pose proof (civil_from_days_early (secs / 86400)) as He.
  destruct (civil_from_days (secs / 86400)) as [[y m] d]. cbn in *.
  apply andb_false_iff. destruct H as [H|H].
  - left. apply Z.leb_gt. apply He. Z.div_mod_to_equations; lia.
  - right. apply Z.leb_gt. apply Hl. Z.div_mod_to_equations; lia.
Qed.

(** What [format_timestamp] computes on an int that is not zero. *)
Lemma format_timestamp_nonzero pad tz ms : ms <> 0 ->
  format_timestamp pad tz (VInt ms)
  = let* t := fromtimestamp tz (Exact ms) in Ok (strftime pad t).
Proof.
  intros H. unfold format_timestamp. cbn [truthy truediv_1000 bind].
  destruct (Z.eqb_spec ms 0); [contradiction | reflexivity].
Qed.

Lemma format_timestamp_text pad tz ms s : ms <> 0 ->
  format_timestamp pad tz (VInt ms) = Ok s ->
  s = strftime pad (broken_down (local_second tz ms)).
Proof.
  intros H E. now apply (format_timestamp_int pad tz ms s H) in E.
Qed.

Lemma digit_zero x : x = 0 -> digit x = 48%N.
Proof. now intros ->. Qed.

(** The year as a library that does not pad writes it, and the zeros it
    leaves out. *)
Lemma year_text_padded pad y :
  0 <= y <= 9999 ->
  repeat 48%N (4 - length (year_text pad y)) ++ year_text pad y = zfill4 y
  /\ (1 <= length (year_text pad y) <= 4)%nat
  /\ (pad = true \/ 1000 <= y -> year_text pad y = zfill4 y)
  /\ (pad = false -> y < 1000 -> (length (year_text pad y) < 4)%nat).
Proof.
  intros Hy. split; [|split; [|split]].
  - unfold year_text, zfill4, zfill2. destruct pad; [reflexivity|].
    destruct (Z.ltb_spec y 10); [|destruct (Z.ltb_spec y 100);
      [|destruct (Z.ltb_spec y 1000)]];
      cbn [length Nat.sub repeat app];
      rewrite ?(digit_zero (y / 1000 mod 10)),
              ?(digit_zero (y / 100 mod 10)),
              ?(digit_zero (y / 10 mod 10)) by (Z.div_mod_to_equations; lia);
      reflexivity.
  - unfold year_text, zfill4, zfill2. destruct pad; [cbn [length]; lia|].
    repeat destruct (_ <? _); cbn [length]; lia.
  - apply year_text_four.
  - intros -> Hlt. unfold year_text, zfill2.
    destruct (Z.ltb_spec y 10); [cbn [length]; lia|].
    destruct (Z.ltb_spec y 100); [cbn [length]; lia|].
    destruct (Z.ltb_spec y 1000); [cbn [length]; lia | lia].
Qed.

(** Where the C library does not pad the year, putting the zeros back
    gives the text of a library that pads; the text is shorter by the
    zeros left out. *)
Lemma zero_padded_strftime pad t :
  0 <= tm_year t <= 9999 ->
  zero_padded (strftime pad t) = strftime true t
  /\ (16 <= length (strftime pad t) <= 19)%nat
  /\ (pad = true \/ 1000 <= tm_year t -> strftime pad t = strftime true t)
  /\ (pad = false -> tm_year t < 1000 -> (length (strftime pad t) < 19)%nat).
Proof.
  intros Hy.
  destruct (year_text_padded pad (tm_year t) Hy) as (Hz & Hlen & Hsame & Hshort).
  unfold zero_padded, strftime.
  set (rest := py "-" ++ zfill2 (tm_mon t) ++ py "-" ++ zfill2 (tm_mday t)
               ++ py " " ++ zfill2 (tm_hour t) ++ py ":" ++ zfill2 (tm_min t)
               ++ py ":" ++ zfill2 (tm_sec t)).
  assert (Hrest : length rest = 15%nat) by reflexivity.
  rewrite length_app, Hrest.
  replace (19 - (length (year_text pad (tm_year t)) + 15))%nat
    with (4 - length (year_text pad (tm_year t)))%nat by lia.
  split; [|split; [|split]].
  - rewrite app_assoc, Hz. reflexivity.
  - lia.
  - intros Hp. now rewrite (Hsame Hp).
  - intros Hp Hlt. specialize (Hshort Hp Hlt). lia.
Qed.

(** The text of a date of the calendar, zeros put back, is a display of
    that date. *)
Lemma strftime_shown pad t :
  1 <= tm_year t <= 9999 -> valid_tm t ->
  is_display (zero_padded (strftime pad t)) = true
  /\ display_fields (zero_padded (strftime pad t)) = t.
Proof.
  intros Hy Hv.
  destruct (zero_padded_strftime pad t) as (-> & _); [lia|].
  apply strftime_valid; [now left | exact Hy | exact Hv].
Qed.

(** X1. In a zone whose offset stays within a day, every int of
    milliseconds other than zero between 0001-01-04 and 9999-12-30 (UTC)
    is formatted, whether the C library pads the year or not, to the text
    of a date of the calendar and a time of the day: the local time of the
    second the milliseconds fall in.  The part below the second is
    dropped, rounding down, also before 1970.  The text has the shape
    YYYY-MM-DD HH:MM:SS, on nineteen characters, when the year is padded
    or has four digits; before the year 1000 a library that does not pad
    gives a shorter text, which is of that shape once the zeros are put
    back. *)
Theorem format_timestamp_second_precision (pad : bool) (tz : Z -> Z) (ms : Z) :
  bounded_zone tz -> representable ms -> ms <> 0 ->
  exists s, format_timestamp pad tz (VInt ms) = Ok s
    /\ is_display (zero_padded s) = true
    /\ valid_tm (display_fields (zero_padded s))
    /\ seconds_of_tm (display_fields (zero_padded s))
       = ms / 1000 + tz (ms / 1000)
    /\ s = strftime pad (display_fields (zero_padded s))
    /\ (16 <= length s <= 19)%nat
    /\ (pad = true \/ 1000 <= tm_year (display_fields (zero_padded s)) ->
        zero_padded s = s /\ is_display s = true)
    /\ (pad = false -> tm_year (display_fields (zero_padded s)) < 1000 ->
        (length s < 19)%nat /\ is_display s = false).
Proof.
  intros Htz Hms Hnz.
  assert (Hs : format_timestamp pad tz (VInt ms)
               = Ok (strftime pad (localtime tz (ms / 1000)))).
  { rewrite format_timestamp_nonzero by exact Hnz.
    now rewrite fromtimestamp_representable. }
  eexists. split; [exact Hs|].
  destruct (format_timestamp_int pad tz ms _ Hnz Hs) as (_ & Hy & Hv & Hsec).
  set (t := localtime tz (ms / 1000)) in *.
  destruct (strftime_shown pad t Hy Hv) as [Hd Hf].
  destruct (zero_padded_strftime pad t) as (Hz & Hlen & Hsame & Hshort); [lia|].
  rewrite Hf. split; [exact Hd|]. split; [exact Hv|]. split; [exact Hsec|].
  split; [reflexivity|]. split; [exact Hlen|]. split.
  - intros Hp. split.
    + rewrite Hz. symmetry. now apply Hsame.
    + rewrite (Hsame Hp), <- Hz. exact Hd.
  - intros Hp Hyear. specialize (Hshort Hp Hyear). split; [exact Hshort|].
    unfold is_display.
    destruct (Nat.eqb_spec (length (strftime pad t)) 19); [lia | reflexivity].
Qed.

Lemma format_timestamp_second_precision_witness :
  exists s, format_timestamp false utc (VInt (-61000000000001)) = Ok s
    /\ is_display (zero_padded s) = true
    /\ valid_tm (display_fields (zero_padded s))
    /\ seconds_of_tm (display_fields (zero_padded s))
       = -61000000000001 / 1000 + utc (-61000000000001 / 1000)
    /\ s = strftime false (display_fields (zero_padded s))
    /\ (16 <= length s <= 19)%nat
    /\ (false = true \/ 1000 <= tm_year (display_fields (zero_padded s)) ->
        zero_padded s = s /\ is_display s = true)
    /\ (false = false -> tm_year (display_fields (zero_padded s)) < 1000 ->
        (length s < 19)%nat /\ is_display s = false).
Proof.
  apply (format_timestamp_second_precision false utc (-61000000000001)).
  - intros t. unfold utc. lia.
  - unfold representable. lia.
  - lia.
Defined.

(** The text tells the dates of the calendar apart, whether the year is
    padded or not. *)
Lemma strftime_inj pad t1 t2 :
  1 <= tm_year t1 <= 9999 -> valid_tm t1 ->
  1 <= tm_year t2 <= 9999 -> valid_tm t2 ->
  strftime pad t1 = strftime pad t2 -> t1 = t2.
Proof.
  intros Hy1 Hv1 Hy2 Hv2 H.
  rewrite <- (proj2 (strftime_shown pad t1 Hy1 Hv1)).
  rewrite <- (proj2 (strftime_shown pad t2 Hy2 Hv2)). now rewrite H.
Qed.

(** X2. Two ints of milliseconds, neither zero, that are both formatted
    get the same text exactly when they fall in the same second of the
    local clock.  So the text tells the instants of a zone with a constant
    offset apart, to the second, and it does not tell apart the two
    instants that show the same local time where the clocks are set
    back. *)
Theorem format_timestamp_same_text (pad : bool) (tz : Z -> Z) (ms1 ms2 : Z)
  (s1 s2 : pystr) :
  ms1 <> 0 -> ms2 <> 0 ->
  format_timestamp pad tz (VInt ms1) = Ok s1 ->
  format_timestamp pad tz (VInt ms2) = Ok s2 ->
  (s1 = s2 <-> local_second tz ms1 = local_second tz ms2).
Proof.
  intros H1 H2 E1 E2.
  pose proof (format_timestamp_int pad tz ms1 s1 H1 E1) as (-> & Y1 & V1 & S1).
  pose proof (format_timestamp_int pad tz ms2 s2 H2 E2) as (-> & Y2 & V2 & S2).
  unfold local_second in *. split.
  - intros Heq. apply strftime_inj in Heq; try assumption.
    now rewrite <- S1, <- S2, Heq.
  - intros Heq. unfold localtime. now rewrite Heq.
Qed.

Lemma format_timestamp_same_text_witness :
  py "2023-10-29 02:30:00" = py "2023-10-29 02:30:00"
  <-> local_second fall_back 1698539400000
      = local_second fall_back 1698543000000.
Proof.
  apply (format_timestamp_same_text false fall_back 1698539400000 1698543000000).
  - lia.
  - lia.
  - vm_compute. reflexivity.
  - vm_compute. reflexivity.
Defined.

(** X3. A product whose tsCreateTime is truthy and is neither an int, a
    bool nor a float (a text that is not empty, digits included, a list or
    a dict that is not empty) cannot be formatted: the division raises
    TypeError, and so does the transformer on that product. *)
Theorem text_timestamp_raises (pad : bool) (tz : Z -> Z) (d : list (pystr * value))
  (v : value) :
  dict_lookup (py "tsCreateTime") d = Some v ->
  truthy v = true -> (forall z, v <> VInt z) -> (forall b, v <> VBool b) ->
  (forall f, v <> VFloat f) ->
  format_timestamp pad tz v = Raise TypeError
  /\ process_product pad tz (VDict d) = Raise TypeError.
Proof.
  intros Hd Ht Hi Hb Hf.
  pose proof (format_timestamp_not_number pad tz v Ht Hi Hb Hf) as H.
  split; [exact H|]. rewrite process_product_dict, Hd.
  change (default VNone (Some v)) with v. rewrite H. reflexivity.
Qed.

Lemma text_timestamp_raises_witness :
  format_timestamp false utc (VStr (py "1700000000000")) = Raise TypeError
  /\ process_product false utc
       (VDict [(py "id", VInt 7);
               (py "tsCreateTime", VStr (py "1700000000000"))])
     = Raise TypeError.
Proof.
  apply (text_timestamp_raises false utc
           [(py "id", VInt 7); (py "tsCreateTime", VStr (py "1700000000000"))]
           (VStr (py "1700000000000"))).
  - reflexivity.
  - reflexivity.
  - discriminate.
  - discriminate.
  - discriminate.
Defined.

(** X4. In a zone whose offset stays within a day, an int of milliseconds
    before 0001-01-01 or from 10000-01-02 on (UTC) is not formatted: the
    conversion to a date raises.  A count of microseconds of the present
    time is such an int. *)
Theorem format_timestamp_out_of_range (pad : bool) (tz : Z -> Z) (ms : Z) :
  bounded_zone tz ->
  ms < -62135596800000 \/ 253402387200000 <= ms ->
  format_timestamp pad tz (VInt ms) = Raise RangeError.
Proof.
  intros Htz Hms. rewrite format_timestamp_nonzero by lia.
  unfold fromtimestamp, localtime, max_fold_seconds.
  cbn [timestamp_second bind]. cbv zeta.
  set (t := ms / 1000).
  pose proof (Htz t) as H1. pose proof (Htz (t - 86400)) as H2.
  destruct Hms as [Hms|Hms].
  - assert (Ht : t < -62135596800) by (unfold t; Z.div_mod_to_equations; lia).
    rewrite (broken_down_out_of_range (t - 86400 + tz (t - 86400))) by lia.
    rewrite andb_false_r. reflexivity.
  - assert (Ht : 253402387200 <= t) by (unfold t; Z.div_mod_to_equations; lia).
    rewrite (broken_down_out_of_range (t + tz t)) by lia. reflexivity.
Qed.

Lemma format_timestamp_out_of_range_witness :
  format_timestamp false utc (VInt 1700000000000000) = Raise RangeError.
Proof.
  apply (format_timestamp_out_of_range false utc 1700000000000000).
  - intros t. unfold utc. lia.
  - right. lia.
Defined.

(** ** Documents the transformer refuses *)

(** X5. When the input file holds a JSON document whose top level is not
    an object (a list of products, say), the transformer raises
    AttributeError and the script ends with it, nothing printed and
    nothing written. *)
Theorem top_level_must_be_a_dict (e : env) (w : world) (data : value) :
  json_load w input_file = Ok data ->
  (forall d, data <> VDict d) ->
  "pandas" ∈ modules w ->
  process_data (pads_year e) (tz e) data = Raise AttributeError
  /\ script e w = (Raise AttributeError, w).
Proof.
  intros Hload Hnd Hp.
  assert (H : process_data (pads_year e) (tz e) data = Raise AttributeError).
  { unfold process_data.
    destruct data; try reflexivity. now destruct (Hnd d). }
  split; [exact H|].
  rewrite script_run, bool_decide_eq_true_2 by exact Hp.
  rewrite main_run. unfold process_products. rewrite Hload. cbn [bind].
  now rewrite H.
Qed.

Lemma top_level_must_be_a_dict_witness :
  process_data false (tz permissive) (VList [VDict []]) = Raise AttributeError
  /\ script permissive (world_with_input list_bytes {["pandas"]})
     = (Raise AttributeError, world_with_input list_bytes {["pandas"]}).
Proof.
  apply (top_level_must_be_a_dict permissive
           (world_with_input list_bytes {["pandas"]}) (VList [VDict []])).
  - vm_compute. reflexivity.
  - discriminate.
  - compute_done.
Defined.

(** X6. When the document has a rows key, its value decides: null, a
    bool, an int or a float cannot be iterated and raise TypeError (the default of
    [.get] is for a missing key only); an empty text and an empty object
    give no record; a text or an object that is not empty is iterated, and
    its first item, a str, has no [.get], which raises AttributeError; a
    list goes through the loop. *)
Theorem rows_must_be_a_list (pad : bool) (tz : Z -> Z) (d : list (pystr * value))
  (v : value) :
  dict_lookup (py "rows") d = Some v ->
  process_data pad tz (VDict d)
  = match v with
    | VNone | VBool _ | VInt _ | VFloat _ => Raise TypeError
    | VStr [] | VDict [] => Ok []
    | VStr (_ :: _) | VDict (_ :: _) => Raise AttributeError
    | VList rows => process_loop pad tz rows []
    end.
Proof.
  intros H. unfold process_data. rewrite get_dict, H. cbn [default bind].
  destruct v as [ | | | |[|c s]|l|[|[k x] d']]; reflexivity.
Qed.

Lemma rows_must_be_a_list_witness :
  process_data false utc (VDict [(py "rows", VNone)]) = Raise TypeError.
Proof.
  apply (rows_must_be_a_list false utc [(py "rows", VNone)] VNone). reflexivity.
Defined.

Lemma Forall2_In_l {A B} (P : A -> B -> Prop) l rs a :
  Forall2 P l rs -> In a l -> exists b, In b rs /\ P a b.
Proof.
  induction 1 as [|x y l rs Hxy _ IH]; [intros []|].
  intros [<- | Hin].
  - exists y. split; [now left | exact Hxy].
  - destruct (IH Hin) as (b & Hb & Hab). exists b. split; [now right | exact Hab].
Qed.

(** X7. One product the transformer cannot make a record of is enough for
    the whole run to raise: no record is returned for the others, and the
    bad product is not skipped. *)
Theorem one_bad_product_fails_all (pad : bool) (tz : Z -> Z) (data : value)
  (rows : list value) (p : value) (e : exn) :
  get data (py "rows") (VList []) = Ok (VList rows) ->
  In p rows -> process_product pad tz p = Raise e ->
  exists e', process_data pad tz data = Raise e'.
Proof.
  intros Hget Hin Hp. unfold process_data. rewrite Hget. cbn [bind iterate].
  pose proof (process_loop_spec pad tz rows []) as H.
  destruct (process_loop pad tz rows []) as [out|e']; [|now exists e'].
  destruct H as (rs & _ & HF). exfalso.
  destruct (Forall2_In_l _ _ _ _ HF Hin) as (r & _ & Hr). congruence.
Qed.

Lemma one_bad_product_fails_all_witness :
  exists e', process_data false utc (rows_doc [VDict widget; VInt 3; VDict []])
             = Raise e'.
Proof.
  apply (one_bad_product_fails_all false utc
           (rows_doc [VDict widget; VInt 3; VDict []])
           [VDict widget; VInt 3; VDict []] (VInt 3) AttributeError).
  - reflexivity.
  - right. left. reflexivity.
  - reflexivity.
Defined.

(** ** The records the transformer returns *)

Lemma format_timestamp_empty_or_display pad tz v s :
  format_timestamp pad tz v = Ok s ->
  s = [] \/ ((16 <= length s <= 19)%nat
             /\ is_display (zero_padded s) = true
             /\ valid_tm (display_fields (zero_padded s))).
Proof.
  intros H. apply format_timestamp_value in H.
  destruct H as [[_ ->] | (q & sec & _ & _ & _ & -> & Hy & Hv & _)];
    [now left | right].
  destruct (strftime_shown pad _ Hy Hv) as [Hd Hf].
  destruct (zero_padded_strftime pad (localtime tz sec)) as (_ & Hlen & _);
    [lia|].
  rewrite Hf. split; [exact Hlen|]. split; [exact Hd | exact Hv].
Qed.

Lemma process_product_shape pad tz p r :
  process_product pad tz p = Ok r -> record_shape r.
Proof.
  intros H. destruct p as [ | | | | | |d]; try discriminate.
  rewrite process_product_dict in H.
  destruct (format_timestamp pad tz _) as [s|] eqn:Hs; cbn [bind] in H;
    [|discriminate].
  injection H as <-. split; [reflexivity|].
  exists s. split; [reflexivity|].
  exact (format_timestamp_empty_or_display pad tz _ s Hs).
Qed.

Lemma process_data_shape pad tz data out :
  process_data pad tz data = Ok out -> Forall record_shape out.
Proof.
  unfold process_data.
  destruct (get data _ _) as [v|]; cbn [bind]; [|discriminate].
  destruct (iterate v) as [items|]; cbn [bind]; [|discriminate].
  intros H. pose proof (process_loop_spec pad tz items []) as Hs.
  rewrite H in Hs. destruct Hs as (rs & -> & HF). cbn [app]. clear H.
  induction HF as [|p r ps rs' Hp _ IH]; constructor.
  - exact (process_product_shape pad tz p r Hp).
  - exact IH.
Qed.

(** X8. Whatever the document and whether the C library pads the year or
    not, every record the transformer returns has the seven fields, in
    their order, and under createdTime a str: the empty one, or sixteen to
    nineteen characters that show a date of the calendar and a time of the
    day, of the shape YYYY-MM-DD HH:MM:SS once the zeros left out before
    the year are put back. *)
Theorem process_data_record_shape (pad : bool) (tz : Z -> Z) (data : value)
  (out : list (list (pystr * value))) :
  process_data pad tz data = Ok out -> Forall record_shape out.
Proof. exact (process_data_shape pad tz data out). Qed.

Lemma process_data_record_shape_witness :
  Forall record_shape
    [widget_record (py "2023-11-14 22:13:20");
     map (fun k => (k, VStr (py ""))) output_fields;
     map (fun k => (k, VStr (py ""))) (take 6 output_fields)
       ++ [(py "createdTime", VStr (py "999-12-31 23:59:59"))]].
Proof.
  apply (process_data_record_shape false utc
           (rows_doc [VDict widget; VDict [];
                      VDict [(py "tsCreateTime", VInt (-30610224000001))]])).
  vm_compute. reflexivity.
Defined.

Lemma process_loop_acc pad tz items : forall acc,
  process_loop pad tz items acc
  = let* rs := process_loop pad tz items [] in Ok (acc ++ rs).
Proof.
  induction items as [|p items IH]; intros acc; cbn [process_loop bind].
  - now rewrite app_nil_r.
  - destruct (process_product pad tz p) as [r|e]; cbn [bind]; [|reflexivity].
    rewrite (IH (acc ++ [r])), (IH ([] ++ [r])).
    destruct (process_loop pad tz items []) as [rs|e]; cbn [bind]; [|reflexivity].
    now rewrite <- app_assoc.
Qed.

Lemma process_loop_app pad tz a b :
  process_loop pad tz (a ++ b) []
  = let* x := process_loop pad tz a [] in
    let* y := process_loop pad tz b [] in Ok (x ++ y).
Proof.
  induction a as [|p a IH]; cbn [app process_loop bind].
  - destruct (process_loop pad tz b []); reflexivity.
  - destruct (process_product pad tz p) as [r|e]; cbn [bind]; [|reflexivity].
    rewrite (process_loop_acc pad tz (a ++ b)), (process_loop_acc pad tz a), IH.
    destruct (process_loop pad tz a []) as [x|e]; cbn [bind]; [|reflexivity].
    destruct (process_loop pad tz b []) as [y|e]; cbn [bind]; [|reflexivity].
    now rewrite app_assoc.
Qed.

(** X9. The transformer works page by page: the records of the rows of
    two pages put end to end are the records of the first page followed
    by those of the second, and the exception is the one of the first
    page that raises. *)
Theorem process_data_app (pad : bool) (tz : Z -> Z) (a b : list value) :
  process_data pad tz (rows_doc (a ++ b))
  = let* x := process_data pad tz (rows_doc a) in
    let* y := process_data pad tz (rows_doc b) in Ok (x ++ y).
Proof. exact (process_loop_app pad tz a b). Qed.

(** X10. The zone of the machine shows in createdTime only: the records
    two machines make of the same document agree, one by one, on the six
    fields before it. *)
Theorem zone_changes_createdTime_only (pad : bool) (tz1 tz2 : Z -> Z) (data : value)
  (out1 out2 : list (list (pystr * value))) :
  process_data pad tz1 data = Ok out1 -> process_data pad tz2 data = Ok out2 ->
  Forall2 (fun r1 r2 => take 6 r1 = take 6 r2) out1 out2.
Proof.
  unfold process_data.
  destruct (get data _ _) as [v|]; cbn [bind]; [|discriminate].
  destruct (iterate v) as [items|]; cbn [bind]; [|discriminate].
  intros H1 H2.
  pose proof (process_loop_spec pad tz1 items []) as S1. rewrite H1 in S1.
  pose proof (process_loop_spec pad tz2 items []) as S2. rewrite H2 in S2.
  destruct S1 as (rs1 & -> & F1). destruct S2 as (rs2 & -> & F2).
  cbn [app]. clear H1 H2. revert rs2 F2.
  induction F1 as [|p r1 ps rs1 Hp1 _ IH]; intros rs2 F2;
    inversion F2 as [|? r2 ? rs2' Hp2 F2']; subst; constructor.
  - destruct p as [ | | | | | |d]; try discriminate.
    rewrite process_product_dict in Hp1, Hp2.
    destruct (format_timestamp pad tz1 _); [|discriminate].
    destruct (format_timestamp pad tz2 _); [|discriminate].
    cbn [bind] in Hp1, Hp2. injection Hp1 as <-. injection Hp2 as <-.
    reflexivity.
  - now apply IH.
Qed.

Lemma zone_changes_createdTime_only_witness :
  Forall2 (fun r1 r2 => take 6 r1 = take 6 r2)
    [widget_record (py "2023-11-14 22:13:20")]
    [widget_record (py "2023-11-15 00:13:20")].
Proof.
  apply (zone_changes_createdTime_only false utc (fun _ => 7200)
           (rows_doc [VDict widget])).
  - vm_compute. reflexivity.
  - vm_compute. reflexivity.
Defined.

(** ** The workbook of the records *)

Lemma frame_columns_same (records : list (list (pystr * value))) :
  forall cols,
  Forall (fun r => map fst r = output_fields) records ->
  cols = [] \/ cols = output_fields ->
  fold_left (fun cols r => fold_left add_column (map fst r) cols) records cols
  = match records with [] => cols | _ => output_fields end.
Proof.
  induction records as [|r records IH]; intros cols HF Hc; [reflexivity|].
  inversion HF as [|? ? Hr HF']; subst. cbn [fold_left]. rewrite Hr.
  assert (Hs : fold_left add_column output_fields cols = output_fields)
    by (destruct Hc as [-> | ->]; reflexivity).
  rewrite Hs, IH by (assumption || now right).
  now destruct records.
Qed.

(** The row of a record that has the seven fields: a cell per field, in
    their order, empty where the value is missing. *)
Lemma row_of_record (r : list (pystr * value)) (f : pystr -> value -> value) :
  map fst r = output_fields ->
  map (fun c => option_map (f c) (cell r c)) output_fields
  = map (fun kv => if is_na (snd kv) then None
                   else Some (f (fst kv) (snd kv))) r.
Proof.
  intros H.
  do 7 (destruct r as [|[? ?] r]; [discriminate|]).
  destruct r; [|discriminate]. cbn [map fst] in H.
  injection H as -> -> -> -> -> -> ->.
  unfold cell, output_fields. cbn [map fst snd].
  repeat match goal with
         | |- context [dict_lookup ?k ?d] =>
             let x := eval vm_compute in (dict_lookup k d) in
             change (dict_lookup k d) with x
         end.
  cbv beta iota.
  repeat match goal with
         | |- context [is_na ?v] => destruct (is_na v)
         end; reflexivity.
Qed.

(** X11. The frame [save_to_excel] makes of the records of the
    transformer, when there is at least one: its columns are the seven
    fields in their order, it has one row per record in the order of the
    records, and the cell of a field is empty exactly when the value of
    the field is missing ([None], NaN).  The value of a cell that is not
    empty is the one pandas infers in its column; where pandas keeps the
    values and none is missing, every cell holds the value of its
    field. *)
Theorem workbook_of_records (e : env) (pad : bool) (tz : Z -> Z) (data : value)
  (out : list (list (pystr * value))) :
  process_data pad tz data = Ok out -> out <> [] ->
  columns (make_frame e out) = output_fields
  /\ length (cells (make_frame e out)) = length out
  /\ Forall2 (fun r row =>
                Forall2 (fun kv x => x = None <-> is_na (snd kv) = true) r row)
             out (cells (make_frame e out))
  /\ ((forall col v, inferred e col v = v) ->
      Forall (Forall (fun kv => is_na (snd kv) = false)) out ->
      make_frame e out = table out).
Proof.
  intros H Hne. apply process_data_shape in H.
  assert (HF : Forall (fun r => map fst r = output_fields) out).
  { clear Hne. induction H as [|r rs [Hr _] _ IH]; constructor; assumption. }
  assert (Hcols : frame_columns out = output_fields).
  { unfold frame_columns. rewrite (frame_columns_same out [] HF) by now left.
    now destruct out. }
  assert (Hrows : forall f : pystr -> value -> value,
    Forall2 (fun r row =>
               Forall2 (fun kv x => x = None <-> is_na (snd kv) = true) r row)
      out (map (fun r => map (fun c => option_map (f c) (cell r c))
                           output_fields) out)).
  { intros f. clear H Hne Hcols.
    induction HF as [|r rs Hr _ IH]; constructor; [|exact IH].
    rewrite (row_of_record r f Hr). clear Hr.
    induction r as [|kv r IHr]; constructor; [|exact IHr].
    destruct (is_na (snd kv)); split; congruence. }
  assert (Hsame : forall f : pystr -> value -> value,
    (forall c v, f c v = v) ->
    Forall (Forall (fun kv => is_na (snd kv) = false)) out ->
    map (fun r => map (fun c => option_map (f c) (cell r c)) output_fields) out
    = map (fun r => map (fun kv => Some (snd kv)) r) out).
  { intros f Hid Hna. clear H Hne Hcols Hrows.
    induction HF as [|r rs Hr _ IH]; [reflexivity|].
    inversion Hna as [|? ? Hr' Hrs']; subst.
    cbn [map]. rewrite (IH Hrs'), (row_of_record r f Hr). f_equal.
    clear Hr IH Hna. induction Hr' as [|kv r Hkv _ IHr]; [reflexivity|].
    cbn [map]. now rewrite Hkv, IHr, Hid. }
  unfold make_frame, table. rewrite Hcols. cbn [columns cells].
  split; [reflexivity|]. split; [now rewrite length_map|].
  split; [exact (Hrows (fun c => inferred e (raw_column out c)))|].
  intros Hid Hna. f_equal.
  apply (Hsame (fun c => inferred e (raw_column out c))); [|exact Hna].
  intros c v. apply Hid.
Qed.

Lemma workbook_of_records_witness :
  columns (make_frame permissive missing_id_records) = output_fields
  /\ length (cells (make_frame permissive missing_id_records)) = 2%nat
  /\ Forall2 (fun r row =>
                Forall2 (fun kv x => x = None <-> is_na (snd kv) = true) r row)
             missing_id_records (cells (make_frame permissive missing_id_records))
  /\ ((forall col v, inferred permissive col v = v) ->
      Forall (Forall (fun kv => is_na (snd kv) = false)) missing_id_records ->
      make_frame permissive missing_id_records = table missing_id_records).
Proof.
  apply (workbook_of_records permissive false utc
           (rows_doc [VDict widget;
                      VDict [(py "id", VNone);
                             (py "tsCreateTime", VInt 1700000000000)]])).
  - vm_compute. reflexivity.
  - discriminate.
Defined.

(** ** The text read and the text written *)

(** X12. An input file that starts with the UTF-8 byte order mark is
    never accepted: the file is opened as UTF-8, which keeps the mark, and
    [json.load] refuses a text that starts with it (or the bytes after the
    mark are not UTF-8, and reading raises).  The script ends with the
    exception, nothing printed and nothing written. *)
Theorem byte_order_mark_rejected (e : env) (w : world) (b : list N) :
  files w !! input_file = Some (Text (bom ++ b)) ->
  json_load w input_file
  = match utf8_decode b with
    | Ok _ => Raise JSONDecodeError
    | Raise x => Raise x
    end
  /\ exists x, script e w = (Raise x, w).
Proof.
  intros Hf.
  assert (H : json_load w input_file
              = match utf8_decode b with
                | Ok _ => Raise JSONDecodeError
                | Raise x => Raise x
                end).
  { unfold json_load, read_text. rewrite Hf.
    change (utf8_decode (bom ++ b))
      with (let* s := utf8_decode b in Ok (0xFEFF%N :: s)).
    destruct (utf8_decode b) as [s|x]; reflexivity. }
  split; [exact H|].
  rewrite script_run. destruct (bool_decide _); [|now eexists].
  rewrite main_run. unfold process_products. rewrite H.
  destruct (utf8_decode b); now eexists.
Qed.

Lemma byte_order_mark_rejected_witness :
  json_load (world_with_input (bom ++ py "{}") {["pandas"]}) input_file
  = Raise JSONDecodeError.
Proof.
  exact (proj1 (byte_order_mark_rejected permissive
                  (world_with_input (bom ++ py "{}") {["pandas"]}) (py "{}")
                  eq_refl)).
Defined.

Lemma escape_char_plain c : escape_char c = [c] <-> plain_char c = true.
Proof.
  unfold plain_char. destruct (N.ltb_spec c 32) as [Hlow|Hhigh].
  - assert (Hf : (32 <=? c)%N = false) by (apply N.leb_gt; exact Hlow).
    rewrite Hf. cbn [andb]. split; [|discriminate].
    apply below_32 in Hlow. cbn in Hlow.
    repeat (destruct Hlow as [<- | Hlow]; [discriminate|]). destruct Hlow.
  - assert (Ht : (32 <=? c)%N = true) by (apply N.leb_le; exact Hhigh).
    rewrite Ht. cbn [andb]. unfold escape_char.
    destruct (N.eqb_spec c 34) as [->|]; [split; discriminate|].
    destruct (N.eqb_spec c 92) as [->|]; [split; discriminate|].
    destruct (N.eqb_spec c 10); [lia|]. destruct (N.eqb_spec c 13); [lia|].
    destruct (N.eqb_spec c 9); [lia|]. destruct (N.eqb_spec c 8); [lia|].
    destruct (N.eqb_spec c 12); [lia|].
    destruct (N.ltb_spec c 32); [lia|]. split; reflexivity.
Qed.

(** X13. With [ensure_ascii] off, a character is written as itself
    exactly when it is not a control character, the quote or the
    backslash; so a str made of such characters, whatever their script,
    is written between two quotes as it is, with no escape. *)
Theorem plain_text_written_verbatim (s : pystr) :
  (forall c, escape_char c = [c] <-> plain_char c = true)
  /\ (forallb plain_char s = true -> dumps (VStr s) = (34 :: s ++ [34])%N).
Proof.
  split; [exact escape_char_plain|]. intros H.
  unfold dumps. cbn [encode]. unfold encode_basestring. do 2 f_equal.
  induction s as [|c s IH]; [reflexivity|]. cbn [forallb flat_map] in *.
  apply andb_true_iff in H. destruct H as [Hc Hs].
  apply escape_char_plain in Hc. rewrite Hc, IH by exact Hs. reflexivity.
Qed.

Lemma plain_text_written_verbatim_witness :
  dumps (VStr [233; 0x1F600; 47]%N) = [34; 233; 0x1F600; 47; 34]%N.
Proof.
  apply (proj2 (plain_text_written_verbatim [233; 0x1F600; 47]%N)).
  reflexivity.
Defined.

(** No carriage return is written: the ones of a str are escaped. *)
Lemma escape_char_not_cr c : forallb not_cr (escape_char c) = true.
Proof.
  destruct (N.ltb_spec c 32) as [Hlow|Hhigh].
  - apply below_32 in Hlow. cbn in Hlow.
    repeat (destruct Hlow as [<- | Hlow]; [reflexivity|]). destruct Hlow.
  - unfold escape_char.
    destruct (N.eqb_spec c 34); [reflexivity|].
    destruct (N.eqb_spec c 92); [reflexivity|].
    destruct (N.eqb_spec c 10); [lia|]. destruct (N.eqb_spec c 13); [lia|].
    destruct (N.eqb_spec c 9); [lia|]. destruct (N.eqb_spec c 8); [lia|].
    destruct (N.eqb_spec c 12); [lia|].
    destruct (N.ltb_spec c 32); [lia|].
    cbn [forallb]. unfold not_cr.
    destruct (N.eqb_spec c 13); [lia | reflexivity].
Qed.

Lemma basestring_not_cr s : forallb not_cr (encode_basestring s) = true.
Proof.
  unfold encode_basestring. cbn [forallb].
  apply forallb_app_true; [|reflexivity].
  induction s as [|c s IH]; [reflexivity|]. cbn [flat_map].
  apply forallb_app_true; [apply escape_char_not_cr | exact IH].
Qed.

Lemma clean_not_cr s : forallb clean s = true -> forallb not_cr s = true.
Proof.
  induction s as [|c s IH]; [reflexivity|]. cbn [forallb].
  rewrite !andb_true_iff. unfold clean at 1. rewrite andb_true_iff.
  intros [[Hc _] Hs]. split; [exact Hc | now apply IH].
Qed.

Ltac not_cr_text :=
  repeat match goal with
    | |- forallb not_cr (newline_indent _) = true =>
        apply clean_not_cr, newline_indent_clean
    | |- forallb not_cr (encode_basestring _) = true => apply basestring_not_cr
    | |- forallb not_cr (_ ++ _) = true => apply forallb_app_true
    | |- forallb not_cr (_ :: _) = true =>
        apply forallb_cons_true; [reflexivity|]
    | |- _ => assumption
    | |- _ => reflexivity
    end.

Lemma encode_not_cr v : forall lvl, forallb not_cr (encode lvl v) = true.
Proof.
  induction v as [ |b|z|f|s|l IHl|d IHd] using value_ind'; intros lvl.
  - reflexivity.
  - destruct b; reflexivity.
  - apply clean_not_cr, int_repr_clean.
  - apply clean_not_cr, float_text_clean.
  - apply basestring_not_cr.
  - destruct l as [|x xs]; [reflexivity|].
    rewrite encode_list.
    inversion IHl as [|? ? IHx IHxs]; subst.
    specialize (IHx (S lvl)).
    assert (Hitems : forallb not_cr (flat_map (item_text lvl) xs) = true).
    { clear IHl IHx. induction IHxs as [|y ys IHy _ IH]; [reflexivity|].
      cbn [flat_map]. specialize (IHy (S lvl)).
      unfold item_text at 1. not_cr_text. }
    not_cr_text.
  - destruct d as [|[k v] kvs]; [reflexivity|].
    rewrite encode_dict.
    inversion IHd as [|? ? IHv IHkvs]; subst. cbn [snd] in IHv.
    specialize (IHv (S lvl)).
    assert (Hitems : forallb not_cr (flat_map (entry_text lvl) kvs) = true).
    { clear IHd IHv. induction IHkvs as [|y ys IHy _ IH]; [reflexivity|].
      cbn [flat_map]. specialize (IHy (S lvl)).
      unfold entry_text at 1. not_cr_text. }
    not_cr_text.
Qed.

(** What the encoder of the file accepted can be encoded. *)
Lemma utf8_encode_encodable s b :
  utf8_encode s = Ok b -> forallb encodable_char s = true.
Proof.
  revert b. induction s as [|c s IH]; intros b; [reflexivity|].
  cbn [utf8_encode forallb].
  destruct (utf8_encode_char c) as [bs|] eqn:Hc; [|discriminate].
  destruct (utf8_encode s) as [b'|]; cbn [bind]; [|discriminate]. intros _.
  rewrite (IH b' eq_refl), andb_true_r.
  unfold utf8_encode_char in Hc. unfold encodable_char.
  destruct (c <? 128)%N eqn:E1.
  - unfold is_surrogate.
    apply N.ltb_lt in E1.
    destruct (N.ltb_spec c 0x110000); [|lia].
    destruct (N.leb_spec 0xD800 c); [lia|]. reflexivity.
  - destruct (c <? 2048)%N eqn:E2.
    + apply N.ltb_lt in E2. unfold is_surrogate.
      destruct (N.ltb_spec c 0x110000); [|lia].
      destruct (N.leb_spec 0xD800 c); [lia|]. reflexivity.
    + destruct (c <? 65536)%N eqn:E3.
      * destruct (is_surrogate c); [discriminate|].
        apply N.ltb_lt in E3.
        destruct (N.ltb_spec c 0x110000); [|lia]. reflexivity.
      * destruct (c <? 1114112)%N eqn:E4; [|discriminate].
        cbn [andb]. unfold is_surrogate.
        apply N.ltb_ge in E3.
        destruct (N.leb_spec c 0xDFFF); [lia|].
        now rewrite andb_false_r.
Qed.

Lemma written_text_clean v b :
  utf8_encode (dumps v) = Ok b -> forallb clean (dumps v) = true.
Proof.
  intros H. apply utf8_encode_encodable in H.
  pose proof (encode_not_cr v 0%nat) as Hn. fold (dumps v) in Hn.
  revert H Hn. generalize (dumps v). intros s.
  induction s as [|c s IH]; [reflexivity|]. cbn [forallb].
  rewrite !andb_true_iff. intros [Hc Hs] [Hc' Hs'].
  split; [|now apply IH]. unfold clean. unfold not_cr in Hc'.
  now rewrite Hc, Hc'.
Qed.

(** What [save_to_json] has done when it returns. *)
Lemma save_to_json_written e products path w w' :
  save_to_json e products path w = (Ok tt, w') ->
  exists b, digits_ok (VList (map VDict products)) = true
    /\ utf8_encode (dumps (VList (map VDict products))) = Ok b
    /\ files w' = <[path := Text b]> (files w)
    /\ modules w' = modules w
    /\ stdout w' = stdout w ++ [py "JSON file saved to: " ++ py path]
    /\ calls w' = calls w ++ [JsonDump path].
Proof.
  unfold save_to_json, mbind, record_call, lift, write_file, print, ret, raise.
  cbn [modules files stdout calls].
  destruct (writable e path); [|discriminate].
  destruct (write_chunks _ _) as [[[]|x] b] eqn:Hw; [|discriminate].
  cbn [modules files stdout calls].
  destruct (printable e _); [|discriminate].
  apply write_chunks_dump in Hw. destruct Hw as [Hd Hb].
  intros [= <-]. exists b. cbn [modules files stdout calls]. now repeat split.
Qed.

Lemma save_to_json_reads_back e w w' products path :
  keys_unique (VList (map VDict products)) = true ->
  floats_read_back (VList (map VDict products)) = true ->
  save_to_json e products path w = (Ok tt, w') ->
  json_load w' path = Ok (VList (map VDict products)).
Proof.
  intros Hk Hfl Hs. apply save_to_json_written in Hs.
  destruct Hs as (b & Hd & Hb & Hf & _).
  rewrite (json_load_written w' path b (dumps (VList (map VDict products)))).
  - rewrite universal_newlines_clean by exact (written_text_clean _ b Hb).
    now apply loads_dumps.
  - rewrite Hf. apply lookup_insert_eq.
  - now apply utf8_round_trip.
Qed.

(** X14. Whenever [save_to_json] returns, the file it wrote is read back
    by [json.load] as the records it was given (dicts, so without a key
    twice), provided their floats are equal to what the decoder reads from
    their text (so none is NaN); there is no assumption on their strings
    and their ints: what could not be written made the call raise. *)
Theorem saved_json_reads_back (e : env) (w w' : world)
  (products : list (list (pystr * value))) (path : string) :
  keys_unique (VList (map VDict products)) = true ->
  floats_read_back (VList (map VDict products)) = true ->
  save_to_json e products path w = (Ok tt, w') ->
  json_load w' path = Ok (VList (map VDict products)).
Proof. exact (save_to_json_reads_back e w w' products path). Qed.

Lemma saved_json_reads_back_witness :
  json_load
    (snd (save_to_json permissive round_trip_records json_output
            (world_with_input [] ∅)))
    json_output
  = Ok (VList (map VDict round_trip_records)).
Proof.
  apply (saved_json_reads_back permissive (world_with_input [] ∅) _
           round_trip_records json_output).
  - vm_compute. reflexivity.
  - vm_compute. reflexivity.
  - vm_compute. reflexivity.
Defined.

(** ** Runs of the script *)

Lemma script_success_run e w products b :
  "pandas" ∈ modules w -> "openpyxl" ∈ modules w ->
  process_products e input_file w = (Ok products, w) ->
  sample_printable e products = true ->
  fits_sheet (make_frame e products) = true ->
  writable e excel_output = true ->
  engine_accepts e (make_frame e products) = true ->
  writable e json_output = true ->
  utf8_encode (dumps (VList (map VDict products))) = Ok b ->
  script e w
  = (Ok tt,
     mk_world (<[json_output := Text b]>
                 (<[excel_output := Workbook (make_frame e products)]> (files w)))
       (modules w) (stdout w ++ success_output products)
       (calls w ++ [ToExcel excel_output; JsonDump json_output])).
Proof.
  intros Hpandas Hxl Hproc Hsample Hfit Hwx Hacc Hwj Hb.
  destruct (process_products_loaded _ _ _ _ _ Hproc) as [_ Hdig].
  rewrite script_run, bool_decide_eq_true_2 by exact Hpandas.
  rewrite main_run, Hproc, (print_summary_run _ _ _ Hdig), Hsample.
  rewrite save_to_excel_or_install_run. cbn [modules files stdout calls].
  assert (Hx : excel_outcome e (modules w) (make_frame e products) excel_output
               = Ok tt).
  { unfold excel_outcome. now rewrite Hfit, bool_decide_eq_true_2, Hwx, Hacc. }
  rewrite Hx, save_to_excel_run by reflexivity.
  cbn [modules files stdout calls]. rewrite Hx.
  rewrite save_to_json_run by reflexivity.
  cbn [modules files stdout calls]. cbv zeta.
  rewrite Hwj, (proj2 (write_chunks_dump _ b) (conj Hdig Hb)).
  cbn [modules files stdout calls]. unfold success_output.
  rewrite <- !app_assoc. reflexivity.
Qed.

(** X15. When both packages can be imported, the products are read, the
    sample can be printed, the frame fits a sheet, both outputs can be
    written, the engine stores the frame and the text of the records can
    be encoded, the script succeeds: the workbook holds the frame of the records, the JSON file
    the bytes of their text, standard output gets the summary, the two
    messages of the writes and the total, in this order, and the calls are
    one write of the workbook and one dump, without [pip]. *)
Theorem script_succeeds (e : env) (w : world)
  (products : list (list (pystr * value))) (b : list N) :
  "pandas" ∈ modules w -> "openpyxl" ∈ modules w ->
  process_products e input_file w = (Ok products, w) ->
  sample_printable e products = true ->
  fits_sheet (make_frame e products) = true ->
  writable e excel_output = true ->
  engine_accepts e (make_frame e products) = true ->
  writable e json_output = true ->
  utf8_encode (dumps (VList (map VDict products))) = Ok b ->
  script e w
  = (Ok tt,
     mk_world (<[json_output := Text b]>
                 (<[excel_output := Workbook (make_frame e products)]> (files w)))
       (modules w) (stdout w ++ success_output products)
       (calls w ++ [ToExcel excel_output; JsonDump json_output])).
Proof. exact (script_success_run e w products b). Qed.

Lemma script_succeeds_witness :
  exists w',
    script permissive (world_with_input widget_bytes {["pandas"; "openpyxl"]})
    = (Ok tt, w')
    /\ stdout w' = success_output [widget_record (py "2023-11-14 22:13:20")]
    /\ calls w' = [ToExcel excel_output; JsonDump json_output].
Proof.
  eexists. split.
  - refine (script_succeeds permissive
              (world_with_input widget_bytes {["pandas"; "openpyxl"]})
              [widget_record (py "2023-11-14 22:13:20")] _ _ _ _ _ _ _ _ _ _).
    + compute_done.
    + compute_done.
    + vm_compute. reflexivity.
    + vm_compute. reflexivity.
    + reflexivity.
    + reflexivity.
    + reflexivity.
    + reflexivity.
    + vm_compute. reflexivity.
  - split; reflexivity.
Defined.

(** X16. An exception of the first write of the workbook other than
    ImportError is not handled: the script ends with it after the
    summary, [pip] is not called, and the JSON file is not attempted.
    When the frame is too large for a sheet or the destination cannot be
    written, no file is changed; when the engine cannot store a cell, the
    destination, opened before, holds the workbook of what the engine had
    stored, in place of what it held. *)
Theorem excel_failure_stops_the_script (e : env) (w : world)
  (products : list (list (pystr * value))) (x : exn) :
  "pandas" ∈ modules w ->
  process_products e input_file w = (Ok products, w) ->
  sample_printable e products = true ->
  excel_outcome e (modules w) (make_frame e products) excel_output = Raise x ->
  x <> ImportError ->
  script e w
  = (Raise x,
     mk_world
       (match x with
        | BackendError =>
            <[excel_output := Workbook (engine_stored e (make_frame e products))]>
              (files w)
        | _ => files w
        end)
       (modules w) (stdout w ++ summary products)
       (calls w ++ [ToExcel excel_output]))
  /\ In x [ValueError; PermissionError; BackendError].
Proof.
  intros Hpandas Hproc Hsample Hx Hne.
  destruct (process_products_loaded _ _ _ _ _ Hproc) as [_ Hdig].
  rewrite script_run, bool_decide_eq_true_2 by exact Hpandas.
  rewrite main_run, Hproc, (print_summary_run _ _ _ Hdig), Hsample.
  rewrite save_to_excel_or_install_run. cbn [modules files stdout calls].
  rewrite Hx.
  assert (Hs : save_to_excel e products excel_output
                 (mk_world (files w) (modules w) (stdout w ++ summary products)
                    (calls w))
               = (Raise x,
                  mk_world (excel_files e (make_frame e products) excel_output
                              (Raise x) (files w))
                    (modules w) (stdout w ++ summary products)
                    (calls w ++ [ToExcel excel_output]))).
  { rewrite save_to_excel_run by reflexivity.
    cbn [modules files stdout calls]. now rewrite Hx. }
  assert (Hin : In x [ValueError; PermissionError; BackendError]).
  { unfold excel_outcome in Hx. cbn.
    destruct (fits_sheet _); [|injection Hx as <-; tauto].
    destruct (bool_decide _); [|injection Hx as <-; contradiction].
    destruct (writable e excel_output); [|injection Hx as <-; tauto].
    destruct (engine_accepts e _); [discriminate | injection Hx as <-; tauto]. }
  split; [|exact Hin].
  destruct x; try (rewrite Hs; reflexivity). contradiction.
Qed.

Lemma excel_failure_stops_the_script_witness :
  script read_only_desktop
    (world_with_input empty_rows_bytes {["pandas"; "openpyxl"]})
  = (Raise PermissionError,
     mk_world {[ input_file := Text empty_rows_bytes ]}
       {["pandas"; "openpyxl"]} (summary [])
       [ToExcel excel_output]).
Proof.
  refine (eq_trans (proj1 (excel_failure_stops_the_script read_only_desktop
            (world_with_input empty_rows_bytes {["pandas"; "openpyxl"]})
            [] PermissionError _ _ _ _ _)) _).
  - compute_done.
  - vm_compute. reflexivity.
  - reflexivity.
  - vm_compute. reflexivity.
  - discriminate.
  - reflexivity.
Defined.

(** X17. When the workbook is written and the JSON destination cannot be
    opened, the script ends with PermissionError after the message of the
    workbook: the workbook stays, nothing is undone, and the total is not
    printed. *)
Theorem json_failure_keeps_the_workbook (e : env) (w : world)
  (products : list (list (pystr * value))) :
  "pandas" ∈ modules w ->
  process_products e input_file w = (Ok products, w) ->
  sample_printable e products = true ->
  excel_outcome e (modules w) (make_frame e products) excel_output = Ok tt ->
  writable e json_output = false ->
  script e w
  = (Raise PermissionError,
     mk_world (<[excel_output := Workbook (make_frame e products)]> (files w))
       (modules w)
       (stdout w ++ summary products
        ++ [py "Excel file saved to: " ++ py excel_output])
       (calls w ++ [ToExcel excel_output; JsonDump json_output])).
Proof.
  intros Hpandas Hproc Hsample Hx Hwj.
  destruct (process_products_loaded _ _ _ _ _ Hproc) as [_ Hdig].
  rewrite script_run, bool_decide_eq_true_2 by exact Hpandas.
  rewrite main_run, Hproc, (print_summary_run _ _ _ Hdig), Hsample.
  rewrite save_to_excel_or_install_run. cbn [modules files stdout calls].
  rewrite Hx, save_to_excel_run by reflexivity.
  cbn [modules files stdout calls]. rewrite Hx.
  rewrite save_to_json_run by reflexivity.
  cbn [modules files stdout calls]. cbv zeta. rewrite Hwj.
  rewrite <- !app_assoc. reflexivity.
Qed.

Lemma json_failure_keeps_the_workbook_witness :
  fst (script json_locked
         (world_with_input empty_rows_bytes {["pandas"; "openpyxl"]}))
  = Raise PermissionError.
Proof.
  refine (f_equal fst (json_failure_keeps_the_workbook json_locked
            (world_with_input empty_rows_bytes {["pandas"; "openpyxl"]})
            [] _ _ _ _ _)).
  - compute_done.
  - vm_compute. reflexivity.
  - reflexivity.
  - vm_compute. reflexivity.
  - vm_compute. reflexivity.
Defined.

Ltac extends_leaf :=
  unfold extends; cbn [snd modules files stdout calls];
  split; [reflexivity|];
  split; [eexists; split;
          [rewrite <- ?app_assoc; first [reflexivity | symmetry; apply app_nil_r]
          | repeat constructor; discriminate]|];
  split; [eexists; rewrite <- ?app_assoc;
          first [reflexivity | symmetry; apply app_nil_r]|];
  intros p Hp1 Hp2; rewrite ?lookup_insert_ne by congruence; reflexivity.

(** X18. When openpyxl can be imported, a run of the script, however it
    ends, never calls [pip], leaves the importable modules as they were,
    only adds to standard output, and changes no path but its two
    outputs; the input file in particular is never written. *)
Theorem script_touches_outputs_only (e : env) (w : world) :
  "openpyxl" ∈ modules w -> extends w (snd (script e w)).
Proof.
  intros Hxl. rewrite script_run.
  destruct (bool_decide _); [|extends_leaf].
  rewrite main_run.
  destruct (process_products e input_file w) as [[products|x] w0] eqn:Hproc;
    [|extends_leaf].
  destruct (process_products_loaded _ _ _ _ _ Hproc) as [_ Hdig].
  rewrite (print_summary_run _ _ _ Hdig).
  destruct (sample_printable e products); [|extends_leaf].
  rewrite save_to_excel_or_install_run. cbn [modules files stdout calls].
  assert (Hx : excel_outcome e (modules w) (make_frame e products) excel_output
               <> Raise ImportError).
  { unfold excel_outcome. rewrite bool_decide_eq_true_2 by exact Hxl.
    destruct (fits_sheet _); [|discriminate].
    destruct (writable e excel_output); [|discriminate].
    destruct (engine_accepts e _); discriminate. }
  rewrite save_to_excel_run by reflexivity.
  cbn [modules files stdout calls].
  destruct (excel_outcome e (modules w) (make_frame e products) excel_output)
    as [[]|x] eqn:E.
  - rewrite save_to_json_run by reflexivity.
    cbn [modules files stdout calls]. cbv zeta.
    destruct (writable e json_output); [|extends_leaf].
    destruct (write_chunks _ _) as [[[]|?] b]; extends_leaf.
  - destruct x; cbn [excel_files]; try extends_leaf. contradiction.
Qed.

Lemma script_touches_outputs_only_witness :
  extends (world_with_input widget_bytes {["pandas"; "openpyxl"]})
    (snd (script permissive
            (world_with_input widget_bytes {["pandas"; "openpyxl"]}))).
Proof.
  apply (script_touches_outputs_only permissive
           (world_with_input widget_bytes {["pandas"; "openpyxl"]})).
  compute_done.
Defined.

(** What [process_products] returns comes from the decoder: the world is
    the one it was given, and no dict has a key twice. *)
Lemma process_products_result e w products w0 :
  process_products e input_file w = (Ok products, w0) ->
  w0 = w /\ keys_unique (VList (map VDict products)) = true.
Proof.
  unfold process_products. intros [= H <-]. split; [reflexivity|].
  destruct (json_load w input_file) as [data|] eqn:Hload; [|discriminate].
  cbn [bind] in H.
  apply (process_data_keys_unique (pads_year e) (tz e) data); [|exact H].
  unfold json_load in Hload.
  destruct (read_text w input_file) as [s|]; [|discriminate].
  now apply (loads_keys_unique s).
Qed.

(** X19. Whenever the script succeeds, with or without the detour by
    [pip], the input file was read and transformed to records, the
    workbook holds the frame of these records, the JSON file holds the
    bytes of their text, the input file is as it was, and the last line
    printed is the total with their number.  When the floats of the
    records are equal to what the decoder reads from their text (none is
    NaN), [json.load] reads the JSON file back as these records. *)
Theorem successful_run_artifacts (e : env) (w w' : world) :
  script e w = (Ok tt, w') ->
  exists products b,
    process_products e input_file w = (Ok products, w)
    /\ files w' !! excel_output = Some (Workbook (make_frame e products))
    /\ utf8_encode (dumps (VList (map VDict products))) = Ok b
    /\ files w' !! json_output = Some (Text b)
    /\ (floats_read_back (VList (map VDict products)) = true ->
        json_load w' json_output = Ok (VList (map VDict products)))
    /\ files w' !! input_file = files w !! input_file
    /\ last (stdout w')
       = Some (10%N :: py "Total products processed: " ++ len products).
Proof.
  rewrite script_run. destruct (bool_decide _); [|discriminate].
  rewrite main_run.
  destruct (process_products e input_file w) as [[products|x] w0] eqn:Hproc;
    [|discriminate].
  destruct (process_products_result e w products w0 Hproc) as [-> Hk].
  destruct (process_products_loaded _ _ _ _ _ Hproc) as [_ Hdig].
  destruct (print_summary e products w) as [[[]|x] w1] eqn:Hsum; [|discriminate].
  assert (Hw1 : files w1 = files w).
  { rewrite (print_summary_run _ _ _ Hdig) in Hsum.
    destruct (sample_printable e products); [|discriminate].
    now injection Hsum as <-. }
  destruct (save_to_excel_or_install e products w1) as [[[]|x] w2] eqn:Hx;
    [|discriminate].
  assert (Hw2 : files w2
                = <[excel_output := Workbook (make_frame e products)]> (files w)).
  { rewrite save_to_excel_or_install_run in Hx. rewrite <- Hw1.
    destruct (excel_outcome e (modules w1) _ _) as [[]|x] eqn:E.
    - rewrite save_to_excel_run in Hx by reflexivity. rewrite E in Hx.
      now injection Hx as <-.
    - assert (Hfail : fst (save_to_excel e products excel_output w1) = Raise x).
      { rewrite save_to_excel_run by reflexivity. now rewrite E. }
      destruct x; try (rewrite Hx in Hfail; discriminate).
      cbv zeta in Hx. destruct (pip_install e (modules w1)) as [ms|];
        [|discriminate].
      rewrite save_to_excel_run in Hx by reflexivity.
      cbn [modules files stdout calls] in Hx.
      destruct (excel_outcome e ms _ _) as [[]|]; [|discriminate].
      now injection Hx as <-. }
  destruct (save_to_json e products json_output w2) as [[[]|x] w3] eqn:Hj;
    [|discriminate].
  intros [= <-]. cbn [modules files stdout calls].
  pose proof (fun Hfl =>
                save_to_json_reads_back e w2 w3 products json_output Hk Hfl Hj)
    as Hload.
  apply save_to_json_written in Hj. destruct Hj as (b & _ & Hb & Hf & _).
  exists products, b.
  split; [reflexivity|]. split; [|split; [|split; [|split; [|split]]]].
  - rewrite Hf, Hw2, lookup_insert_ne by discriminate. apply lookup_insert_eq.
  - exact Hb.
  - rewrite Hf. apply lookup_insert_eq.
  - intros Hfl. unfold json_load, read_text in *. cbn [files].
    exact (Hload Hfl).
  - rewrite Hf, Hw2, !lookup_insert_ne by discriminate. reflexivity.
  - apply last_snoc.
Qed.

Lemma successful_run_artifacts_witness :
  exists products b,
    process_products permissive input_file
      (world_with_input widget_bytes {["pandas"]})
    = (Ok products, world_with_input widget_bytes {["pandas"]})
    /\ files (snd (script permissive (world_with_input widget_bytes {["pandas"]})))
         !! excel_output = Some (Workbook (make_frame permissive products))
    /\ utf8_encode (dumps (VList (map VDict products))) = Ok b
    /\ files (snd (script permissive (world_with_input widget_bytes {["pandas"]})))
         !! json_output = Some (Text b)
    /\ (floats_read_back (VList (map VDict products)) = true ->
        json_load (snd (script permissive
                          (world_with_input widget_bytes {["pandas"]})))
          json_output = Ok (VList (map VDict products)))
    /\ files (snd (script permissive (world_with_input widget_bytes {["pandas"]})))
         !! input_file
       = files (world_with_input widget_bytes {["pandas"]}) !! input_file
    /\ last (stdout (snd (script permissive
                            (world_with_input widget_bytes {["pandas"]}))))
       = Some (10%N :: py "Total products processed: " ++ len products).
Proof.
  apply (successful_run_artifacts permissive
           (world_with_input widget_bytes {["pandas"]})).
  vm_compute. reflexivity.
Defined.

(** What held in a run that succeeded without [pip]. *)
Lemma script_success_conditions e w w' :
  "openpyxl" ∈ modules w -> script e w = (Ok tt, w') ->
  exists products b,
    "pandas" ∈ modules w
    /\ process_products e input_file w = (Ok products, w)
    /\ sample_printable e products = true
    /\ fits_sheet (make_frame e products) = true
    /\ writable e excel_output = true
    /\ engine_accepts e (make_frame e products) = true
    /\ writable e json_output = true
    /\ utf8_encode (dumps (VList (map VDict products))) = Ok b.
Proof.
  intros Hxl. rewrite script_run.
  destruct (bool_decide ("pandas" ∈ modules w)) eqn:Hp; [|discriminate].
  apply bool_decide_eq_true_1 in Hp.
  rewrite main_run.
  destruct (process_products e input_file w) as [[products|x] w0] eqn:Hproc;
    [|discriminate].
  assert (w0 = w) as -> by (unfold process_products in Hproc; congruence).
  destruct (process_products_loaded _ _ _ _ _ Hproc) as [_ Hdig].
  rewrite (print_summary_run _ _ _ Hdig).
  destruct (sample_printable e products) eqn:Hs; [|discriminate].
  rewrite save_to_excel_or_install_run. cbn [modules files stdout calls].
  destruct (excel_outcome e (modules w) (make_frame e products) excel_output)
    as [[]|x] eqn:Hx.
  - rewrite save_to_excel_run by reflexivity.
    cbn [modules files stdout calls]. rewrite Hx.
    rewrite save_to_json_run by reflexivity.
    cbn [modules files stdout calls]. cbv zeta.
    destruct (writable e json_output) eqn:Hwj; [|discriminate].
    destruct (write_chunks _ _) as [[[]|?] b] eqn:Hw; [|discriminate].
    apply write_chunks_dump in Hw. destruct Hw as [_ Hb].
    intros _. exists products, b.
    unfold excel_outcome in Hx.
    destruct (fits_sheet _); [|discriminate].
    destruct (bool_decide _); [|discriminate].
    destruct (writable e excel_output); [|discriminate].
    destruct (engine_accepts e _); [|discriminate].
    now repeat split.
  - assert (Hne : x <> ImportError).
    { intros ->. unfold excel_outcome in Hx.
      rewrite bool_decide_eq_true_2 in Hx by exact Hxl.
      destruct (fits_sheet _); [|discriminate].
      destruct (writable e excel_output); [|discriminate].
      destruct (engine_accepts e _); discriminate. }
    assert (Hfail : fst (save_to_excel e products excel_output
                (mk_world (files w) (modules w) (stdout w ++ summary products)
                   (calls w))) = Raise x).
    { rewrite save_to_excel_run by reflexivity.
      cbn [modules files stdout calls]. now rewrite Hx. }
    destruct x; try contradiction;
      destruct (save_to_excel _ _ _ _) as [r w2]; cbn [fst] in Hfail;
      subst r; discriminate.
Qed.

(** X20. The script can be run again: after a run that succeeded with
    openpyxl importable, a second run in the same environment succeeds
    too, leaves every file as the first run left it (the outputs are
    overwritten with what they held), and prints the same lines again. *)
Theorem rerun_is_idempotent (e : env) (w w1 : world) :
  "openpyxl" ∈ modules w -> script e w = (Ok tt, w1) ->
  exists w2 out, script e w1 = (Ok tt, w2)
    /\ files w2 = files w1
    /\ stdout w1 = stdout w ++ out /\ stdout w2 = stdout w1 ++ out.
Proof.
  intros Hxl Hrun.
  destruct (script_success_conditions e w w1 Hxl Hrun)
    as (products & b & Hp & Hproc & Hs & Hfit & Hwx & Hacc & Hwj & Hb).
  rewrite (script_success_run e w products b) in Hrun by assumption.
  injection Hrun as <-.
  eexists _, (success_output products). split.
  - apply (script_success_run e _ products b); try assumption.
    unfold process_products in *.
    assert (Hload : json_load
              (mk_world (<[json_output := Text b]>
                 (<[excel_output := Workbook (make_frame e products)]> (files w)))
                 (modules w) (stdout w ++ success_output products)
                 (calls w ++ [ToExcel excel_output; JsonDump json_output]))
              input_file = json_load w input_file).
    { unfold json_load, read_text. cbn [files].
      rewrite !lookup_insert_ne by discriminate. reflexivity. }
    rewrite Hload. congruence.
  - cbn [modules files stdout calls]. split; [|split; reflexivity].
    apply map_eq. intros p.
    destruct (decide (p = json_output)) as [->|Hj].
    + now rewrite !lookup_insert_eq.
    + destruct (decide (p = excel_output)) as [->|Hx].
      * rewrite !(lookup_insert_ne _ json_output) by congruence.
        now rewrite !lookup_insert_eq.
      * repeat (rewrite lookup_insert_ne by congruence). reflexivity.
Qed.

Lemma rerun_is_idempotent_witness :
  exists w2 out,
    script permissive
      (snd (script permissive
              (world_with_input widget_bytes {["pandas"; "openpyxl"]})))
    = (Ok tt, w2)
    /\ files w2
       = files (snd (script permissive
                       (world_with_input widget_bytes {["pandas"; "openpyxl"]})))
    /\ stdout (snd (script permissive
                      (world_with_input widget_bytes {["pandas"; "openpyxl"]})))
       = stdout (world_with_input widget_bytes {["pandas"; "openpyxl"]}) ++ out
    /\ stdout w2
       = stdout (snd (script permissive
                        (world_with_input widget_bytes {["pandas"; "openpyxl"]})))
         ++ out.
Proof.
  apply (rerun_is_idempotent permissive
           (world_with_input widget_bytes {["pandas"; "openpyxl"]})).
  - compute_done.
  - vm_compute. reflexivity.
Defined.

(** X21. When standard output cannot carry the text of the first record
    (a name outside the encoding of the console), the script ends with
    UnicodeEncodeError after the two lines of the summary: the sample is
    printed before the writes, so neither the workbook nor the JSON file
    is attempted. *)
Theorem unprintable_sample_stops_the_script (e : env) (w : world)
  (products : list (list (pystr * value))) :
  "pandas" ∈ modules w ->
  process_products e input_file w = (Ok products, w) ->
  sample_printable e products = false ->
  script e w
  = (Raise UnicodeEncodeError,
     mk_world (files w) (modules w)
       (stdout w ++ [py "Processed " ++ len products ++ py " products";
                     10%N :: py "Sample product data:"])
       (calls w)).
Proof.
  intros Hpandas Hproc Hsample.
  destruct (process_products_loaded _ _ _ _ _ Hproc) as [_ Hdig].
  rewrite script_run, bool_decide_eq_true_2 by exact Hpandas.
  rewrite main_run, Hproc, (print_summary_run _ _ _ Hdig), Hsample.
  reflexivity.
Qed.

Lemma unprintable_sample_stops_the_script_witness :
  fst (script ascii_console
         (world_with_input accent_bytes {["pandas"; "openpyxl"]}))
  = Raise UnicodeEncodeError
  /\ calls (snd (script ascii_console
                   (world_with_input accent_bytes {["pandas"; "openpyxl"]})))
     = [].
Proof.
  pose proof (unprintable_sample_stops_the_script ascii_console
                (world_with_input accent_bytes {["pandas"; "openpyxl"]})
                [(py "productName", VStr [233%N])
                 :: map (fun k => (k, VStr (py ""))) (tail output_fields)])
    as H.
  rewrite H.
  - split; reflexivity.
  - compute_done.
  - vm_compute. reflexivity.
  - vm_compute. reflexivity.
Defined.
